(** * Filing-document normaliser (convert_filing_json.py)

    A shallow embedding of [transform_sections], [transform_parts],
    [transform_document] and the batch dispatch of [main], over a model of the
    values that [json.loads] produces.

    Python dictionaries keep insertion order and have unique keys; they are
    modelled as association lists, with the uniqueness of keys stated by
    [wf].  Python's [==] on dictionaries ignores the order of the entries;
    it is modelled by [json_eqb].

    The code is embedded three times.  The functions at top level work on
    immutable trees and match on the shape of a value where the source
    tests it with [isinstance]; most properties are stated on them.
    [Checked] has the same code over operations that raise on the wrong
    type, and [Heap] has it over a store of mutable, shared objects; each
    is shown to compute what the top-level functions compute.

    [is_probably_ndjson] and [load_input] are embedded over the library
    functions they call, taken as parameters, and [remove_specified_fields]
    of remove_gemini_fields.py, which deletes the ids that the normaliser
    sets, over the same trees. *)

From Stdlib Require Import List String Ascii ZArith Bool Arith Lia Sorted.
From Stdlib Require Import SpecFloat DecimalString DecimalNat.
Import ListNotations.

Open Scope string_scope.
Open Scope list_scope.

(** ** Values *)

Unset Elimination Schemes.
Inductive json : Type :=
| JNull
| JBool (b : bool)
| JInt (n : Z)
| JFloat (f : spec_float)
| JStr (s : string)
| JList (l : list json)
| JDict (m : list (string * json)).
Set Elimination Schemes.

Definition dict := list (string * json).

(** ** Dictionaries as ordered association lists *)

Section Dict.
Context {V : Type}.

(** [d.get(k)] as an option: the value stored under [k], if any. *)
Fixpoint dict_get (m : list (string * V)) (k : string) : option V :=
  match m with
  | [] => None
  | (k', v) :: m' => if String.eqb k k' then Some v else dict_get m' k
  end.

(** [k in d] *)
Definition dict_mem (k : string) (m : list (string * V)) : bool :=
  match dict_get m k with Some _ => true | None => false end.

(** [d[k] = v]: an existing key keeps its position, a new key goes last. *)
Fixpoint dict_set (m : list (string * V)) (k : string) (v : V)
  : list (string * V) :=
  match m with
  | [] => [(k, v)]
  | (k', v') :: m' =>
      if String.eqb k k' then (k', v) :: m' else (k', v') :: dict_set m' k v
  end.

(** [{k: v for k, v in d.items() if keep k}] *)
Definition dict_filter (keep : string -> bool) (m : list (string * V))
  : list (string * V) :=
  filter (fun kv => keep (fst kv)) m.

Definition keys (m : list (string * V)) : list string := map fst m.
End Dict.

(** ** Python primitives on values *)

(** [bool(x)] *)
Definition truthy (x : json) : bool :=
  match x with
  | JNull => false
  | JBool b => b
  | JInt n => negb (Z.eqb n 0)
  | JFloat (S754_zero _) => false
  | JFloat _ => true
  | JStr s => negb (String.eqb s EmptyString)
  | JList l => match l with [] => false | _ => true end
  | JDict m => match m with [] => false | _ => true end
  end.

(** [d.get(k)] with its default [None] *)
Definition py_get (m : dict) (k : string) : json :=
  match dict_get m k with Some v => v | None => JNull end.

(** [a or b] *)
Definition py_or (a b : json) : json := if truthy a then a else b.

(** [enumerate(l)] *)
Definition enumerate {A : Type} (l : list A) : list (nat * A) :=
  combine (seq 0 (List.length l)) l.

(** [str(idx)] for a position *)
Definition str_of_nat (idx : nat) : string :=
  NilEmpty.string_of_uint (Nat.to_uint idx).

(** [f"section_{idx}"] *)
Definition section_name (idx : nat) : string :=
  String.append "section_" (str_of_nat idx).

(** ** The normaliser *)

(** The loops of the source append to an accumulator; each loop is a
    [fold_left] of its body over the items, and the bodies are named. *)

(** Body of the list branch of [transform_sections] for a record [sec]. *)
Definition list_section (idx : nat) (sec : dict) : dict :=
  if negb (dict_mem "section_id" sec)
  then dict_set sec "section_id" (JStr (section_name idx))
  else sec.

Definition sections_list_step (out : list json) (e : nat * json) : list json :=
  let '(idx, sec) := e in
  match sec with
  | JDict s => out ++ [JDict (list_section idx s)]
  | _ => out
  end.

(** Body of the mapping branch of [transform_sections]. *)
Definition dict_section (key : string) (value : json) : dict :=
  match value with
  | JDict v => dict_set v "section_id" (JStr key)
  | _ => [("section_id", JStr key); ("value", value)]
  end.

Definition sections_dict_step (result : list json) (e : string * json)
  : list json :=
  let '(key, value) := e in result ++ [JDict (dict_section key value)].

Definition transform_sections (sections_obj : json) : list json :=
  match sections_obj with
  | JList l => fold_left sections_list_step (enumerate l) []
  | JDict m => fold_left sections_dict_step m []
  | _ => []
  end.

Definition not_sections (k : string) : bool := negb (String.eqb k "sections").

(** Body of the list branch of [transform_parts] for a record [part]. *)
Definition list_part (part : dict) : dict :=
  let part_name := py_get part "part_name" in
  let sections := transform_sections (py_get part "sections") in
  let base := dict_filter not_sections part in
  let base := dict_set base "sections" (JList sections) in
  if negb (truthy (py_get base "part_name"))
  then dict_set base "part_name" (py_or part_name (JStr "Part"))
  else base.

Definition parts_list_step (out : list json) (part : json) : list json :=
  match part with
  | JDict p => out ++ [JDict (list_part p)]
  | _ => out
  end.

(** Body of the mapping branch of [transform_parts]. *)
Definition dict_part (key : string) (value : json) : dict :=
  match value with
  | JDict v =>
      let part_name := py_or (py_get v "part_name") (JStr key) in
      let sections := transform_sections (py_get v "sections") in
      let base := dict_filter not_sections v in
      let base := dict_set base "part_name" part_name in
      dict_set base "sections" (JList sections)
  | _ => [("part_name", JStr key); ("value", value); ("sections", JList [])]
  end.

Definition parts_dict_step (out : list json) (e : string * json) : list json :=
  let '(key, value) := e in out ++ [JDict (dict_part key value)].

Definition transform_parts (parts_obj : json) : list json :=
  match parts_obj with
  | JList l => fold_left parts_list_step l []
  | JDict m => fold_left parts_dict_step m []
  | _ => []
  end.

Definition not_parts (k : string) : bool := negb (String.eqb k "parts").

Definition transform_document (doc : dict) : dict :=
  let top := dict_filter not_parts doc in
  let parts := transform_parts (py_get doc "parts") in
  dict_set top "parts" (JList parts).


(** ** Well-formed values and Python equality *)

Fixpoint nodupb (l : list string) : bool :=
  match l with
  | [] => true
  | k :: l' => negb (existsb (String.eqb k) l') && nodupb l'
  end.

(** A value is well formed when no dictionary in it repeats a key. *)
Fixpoint wf (x : json) : bool :=
  match x with
  | JList l => forallb wf l
  | JDict m => nodupb (map fst m) && forallb (fun kv => wf (snd kv)) m
  | _ => true
  end.

(** Numbers as [mantissa * 2 ^ exponent]; [bool] is a subtype of [int]. *)
Definition num_of (x : json) : option (Z * Z) :=
  match x with
  | JBool b => Some (if b then 1 else 0, 0)%Z
  | JInt n => Some (n, 0%Z)
  | JFloat (S754_zero _) => Some (0, 0)%Z
  | JFloat (S754_finite s m e) =>
      Some (if s then Z.neg m else Z.pos m, e)
  | _ => None
  end.

Definition num_eqb (a b : Z * Z) : bool :=
  let e := Z.min (snd a) (snd b) in
  Z.eqb (fst a * 2 ^ (snd a - e)) (fst b * 2 ^ (snd b - e)).

(** [==] on values that are not containers.  The values compared in this
    development share their leaves, and CPython compares the items of a
    container by identity first, so a NaN leaf counts as equal to itself. *)
Definition atom_eqb (x y : json) : bool :=
  match num_of x, num_of y with
  | Some a, Some b => num_eqb a b
  | None, None =>
      match x, y with
      | JNull, JNull => true
      | JStr s, JStr t => String.eqb s t
      | JFloat (S754_infinity s), JFloat (S754_infinity t) => Bool.eqb s t
      | JFloat S754_nan, JFloat S754_nan => true
      | _, _ => false
      end
  | _, _ => false
  end.

(** [x == y]: lists item by item; dictionaries by size and by key, whatever
    the order of their entries. *)
Fixpoint json_eqb (x y : json) : bool :=
  match x, y with
  | JList a, JList b =>
      (fix items (a b : list json) : bool :=
         match a, b with
         | [], [] => true
         | u :: a', v :: b' => json_eqb u v && items a' b'
         | _, _ => false
         end) a b
  | JDict a, JDict b =>
      Nat.eqb (List.length a) (List.length b)
      && forallb (fun kv =>
                    let '(k, v) := kv in
                    match dict_get b k with
                    | Some w => json_eqb v w
                    | None => false
                    end) a
  | JList _, _ | JDict _, _ | _, JList _ | _, JDict _ => false
  | _, _ => atom_eqb x y
  end.

(** ** Induction on values *)

Section JsonInd.
Variable P : json -> Prop.
Hypothesis HNull : P JNull.
Hypothesis HBool : forall b, P (JBool b).
Hypothesis HInt : forall n, P (JInt n).
Hypothesis HFloat : forall f, P (JFloat f).
Hypothesis HStr : forall s, P (JStr s).
Hypothesis HList : forall l, Forall P l -> P (JList l).
Hypothesis HDict : forall m, Forall (fun kv => P (snd kv)) m -> P (JDict m).

Fixpoint json_ind (x : json) : P x :=
  match x with
  | JNull => HNull
  | JBool b => HBool b
  | JInt n => HInt n
  | JFloat f => HFloat f
  | JStr s => HStr s
  | JList l =>
      HList l ((fix all (l : list json) : Forall P l :=
                  match l with
                  | [] => Forall_nil _
                  | y :: l' => Forall_cons y (json_ind y) (all l')
                  end) l)
  | JDict m =>
      HDict m ((fix all (m : list (string * json))
                  : Forall (fun kv => P (snd kv)) m :=
                  match m with
                  | [] => Forall_nil _
                  | kv :: m' => Forall_cons kv (json_ind (snd kv)) (all m')
                  end) m)
  end.
End JsonInd.

(** ** Records of a list and their positions *)

Definition is_record (x : json) : bool :=
  match x with JDict _ => true | _ => false end.

(** The records among the items of [l], each with its position in [l]
    counted from [i]. *)
Fixpoint records_from (i : nat) (l : list json) : list (nat * dict) :=
  match l with
  | [] => []
  | JDict s :: l' => (i, s) :: records_from (S i) l'
  | _ :: l' => records_from (S i) l'
  end.

Definition count_records (l : list json) : nat :=
  List.length (filter is_record l).

(** The [section_id] of each section of a sequence ([None] for a missing
    key or an item that is not a record). *)
Definition section_ids (secs : list json) : list (option json) :=
  map (fun x => match x with
                | JDict s => dict_get s "section_id"
                | _ => None
                end) secs.

(** What one item of a list contributes to the output. *)

Definition list_section_item (e : nat * json) : list json :=
  match snd e with
  | JDict s => [JDict (list_section (fst e) s)]
  | _ => []
  end.

Definition list_part_item (x : json) : list json :=
  match x with
  | JDict p => [JDict (list_part p)]
  | _ => []
  end.

(** ** Reading a normalised document *)

Definition parts_of (doc : dict) : list json :=
  match py_get doc "parts" with JList ps => ps | _ => [] end.

Definition sections_of (part : json) : list json :=
  match part with
  | JDict p => match py_get p "sections" with JList ss => ss | _ => [] end
  | _ => []
  end.

(** In every part of [doc], no two sections have the same [section_id]. *)
Definition unique_section_ids (doc : dict) : Prop :=
  Forall (fun part => NoDup (section_ids (sections_of part))) (parts_of doc).

(** Whether two ids are equal, as Python compares them. *)
Definition id_eqb (a b : option json) : bool :=
  match a, b with
  | Some x, Some y => json_eqb x y
  | None, None => true
  | _, _ => false
  end.

(** No two of the ids are equal. *)
Definition pairwise_distinct (ids : list (option json)) : Prop :=
  ForallOrdPairs (fun a b => id_eqb a b = false) ids.

(** The [sections] value from which each part of the output is made, part
    by part: for a list of parts, the [sections] field of each of its
    records; for a mapping of parts, the [sections] field of each value
    that is a record, and [None] for any other value. *)
Definition source_sections (parts_obj : json) : list json :=
  match parts_obj with
  | JList l =>
      map (fun e : nat * dict => py_get (snd e) "sections") (records_from 0 l)
  | JDict m =>
      map (fun e : string * json =>
             match snd e with
             | JDict v => py_get v "sections"
             | _ => JNull
             end) m
  | _ => []
  end.

(** A record of a list of sections, with its position, that has the key
    [section_id]. *)
Definition carries_id (e : nat * dict) : bool := dict_mem "section_id" (snd e).

(** The ids that the records of a list of sections supply themselves. *)
Definition supplied_ids (sections_obj : json) : list (option json) :=
  match sections_obj with
  | JList l =>
      map (fun e : nat * dict => dict_get (snd e) "section_id")
          (filter carries_id (records_from 0 l))
  | _ => []
  end.

(** The ids that the normaliser derives: ["section_{i}"] for each record
    without [section_id] at position [i] of a list, the keys of a
    mapping. *)
Definition derived_names (sections_obj : json) : list string :=
  match sections_obj with
  | JList l =>
      map (fun e : nat * dict => section_name (fst e))
          (filter (fun e => negb (carries_id e)) (records_from 0 l))
  | JDict m => map fst m
  | _ => []
  end.

Definition derived_ids (sections_obj : json) : list (option json) :=
  map (fun k => Some (JStr k)) (derived_names sections_obj).

(** The ids of the sections made from [sections_obj], in their order: for
    a list, the id that a record supplies, kept as it is, and the derived
    one for a record that supplies none; for a mapping, the keys. *)
Definition ids_of_source (sections_obj : json) : list (option json) :=
  match sections_obj with
  | JList l =>
      map (fun e : nat * dict =>
             if carries_id e then dict_get (snd e) "section_id"
             else Some (JStr (section_name (fst e))))
          (records_from 0 l)
  | JDict m => map (fun e : string * json => Some (JStr (fst e))) m
  | _ => []
  end.

(** A document with three parts: a list of sections in which two records
    supply ids of their own and one does not, a mapping of sections, and
    a list in which a supplied id is the id derived for the next record. *)
Definition doc_mixed_ids : dict :=
  [("company", JStr "Acme");
   ("parts",
    JList [JDict [("sections",
                   JList [JDict [("section_id", JStr "intro")]; JInt 3;
                          JDict [("b", JInt 2)];
                          JDict [("section_id", JInt 7)]])];
           JDict [("sections", JDict [("x", JDict [("section_id", JStr "y")]);
                                      ("y", JNull)])];
           JDict [("sections",
                   JList [JDict [("section_id", JStr "section_1")];
                          JDict []])]])].

Definition doc_two_lists : dict :=
  [("company", JStr "Acme");
   ("parts",
    JList [JDict [("sections", JList [JDict [("a", JInt 1)]; JInt 3;
                                      JDict [("b", JInt 2)]])];
           JDict [("sections", JDict [("x", JDict [("section_id", JStr "y")]);
                                      ("y", JNull)])]])].

Definition doc_colliding_ids : dict :=
  [("parts",
    JList [JDict [("sections",
                   JList [JDict [("section_id", JStr "section_1")];
                          JDict []])]])].

(** ** The canonical shape *)

(** A section that carries the key [section_id]. *)
Definition has_section_id (x : json) : bool :=
  match x with
  | JDict s => dict_mem "section_id" s
  | _ => false
  end.

(** A part in canonical shape: well formed, with a truthy [part_name] and a
    list of sections that all carry an id. *)
Definition canonical_part (p : dict) : Prop :=
  wf (JDict p) = true
  /\ truthy (py_get p "part_name") = true
  /\ exists ss, dict_get p "sections" = Some (JList ss)
                /\ forallb has_section_id ss = true.

(** The pair [(key, value)] of a [parts] mapping yields a part with a truthy
    name: the value is a record with a truthy [part_name], or the key is
    not the empty string. *)
Definition part_named_by (key : string) (value : json) : bool :=
  negb (String.eqb key EmptyString)
  || match value with
     | JDict v => truthy (py_get v "part_name")
     | _ => false
     end.

Definition parts_keep_names (parts_obj : json) : bool :=
  match parts_obj with
  | JDict m => forallb (fun e => part_named_by (fst e) (snd e)) m
  | _ => true
  end.

Definition doc_acme : dict :=
  [("company_name", JStr "Acme");
   ("parts",
    JDict [("Part_1",
            JDict [("sections",
                    JDict [("business",
                            JDict [("content", JStr "We make widgets.")])])]);
           (EmptyString,
            JDict [("part_name", JStr "Part II"); ("sections", JList [])]);
           ("Part_3", JStr "raw text")])].

Definition doc_empty_key : dict := [("parts", JDict [(EmptyString, JDict [])])].

(** ** The code over dynamically typed values, with exceptions

    The functions above match on the shape of a value where the source
    tests it with [isinstance].  Here the same code is written over the
    operations as Python has them, each raising on the values it does not
    accept, so that what the [isinstance] guards buy can be stated. *)

Module Checked.

Inductive exn : Type := TypeError | AttributeError.

Inductive res (A : Type) : Type :=
| Ok (a : A)
| Raise (e : exn).
Arguments Ok {A} a.
Arguments Raise {A} e.

Definition bind {A B : Type} (c : res A) (k : A -> res B) : res B :=
  match c with
  | Ok a => k a
  | Raise e => Raise e
  end.

Notation "x <- c ;; k" := (bind c (fun x => k))
  (at level 61, c at next level, right associativity).
Notation "' p <- c ;; k" := (bind c (fun x => let p := x in k))
  (at level 61, p pattern, c at next level, right associativity).

(** [for x in items: st = body(st, x)] *)
Fixpoint for_each {A S : Type} (body : S -> A -> res S) (items : list A)
         (st : S) : res S :=
  match items with
  | [] => Ok st
  | a :: rest => st' <- body st a ;; for_each body rest st'
  end.

Definition isinstance_list (x : json) : bool :=
  match x with JList _ => true | _ => false end.

Definition isinstance_dict (x : json) : bool :=
  match x with JDict _ => true | _ => false end.

(** [iter(x)]: the items of a list, the keys of a dict, the characters of
    a string; [TypeError] otherwise. *)
Definition py_iter (x : json) : res (list json) :=
  match x with
  | JList l => Ok l
  | JDict m => Ok (map JStr (keys m))
  | JStr s => Ok (map (fun c => JStr (String c EmptyString))
                      (list_ascii_of_string s))
  | _ => Raise TypeError
  end.

(** [enumerate(x)] *)
Definition py_enumerate (x : json) : res (list (nat * json)) :=
  l <- py_iter x ;; Ok (enumerate l).

(** [k in x] for a string [k]: a key of a dict, an item of a list, a
    substring of a string; [TypeError] otherwise. *)
Definition py_contains (k : string) (x : json) : res bool :=
  match x with
  | JDict m => Ok (dict_mem k m)
  | JList l => Ok (existsb (fun y => json_eqb (JStr k) y) l)
  | JStr s => Ok (match String.index 0 k s with
                  | Some _ => true
                  | None => false
                  end)
  | _ => Raise TypeError
  end.

(** The entries of [x] in [{**x, ...}]; [TypeError] unless a mapping. *)
Definition py_unpack (x : json) : res dict :=
  match x with
  | JDict m => Ok m
  | _ => Raise TypeError
  end.

(** [x.items()]; [AttributeError] unless [x] is a dict. *)
Definition py_items (x : json) : res dict :=
  match x with
  | JDict m => Ok m
  | _ => Raise AttributeError
  end.

(** [x.get(k)]; [AttributeError] unless [x] is a dict. *)
Definition py_get_method (x : json) (k : string) : res json :=
  match x with
  | JDict m => Ok (py_get m k)
  | _ => Raise AttributeError
  end.

Definition transform_sections (sections_obj : json) : res (list json) :=
  if isinstance_list sections_obj then
    items <- py_enumerate sections_obj ;;
    for_each
      (fun out '(idx, sec) =>
         if isinstance_dict sec then
           present <- py_contains "section_id" sec ;;
           sec' <- (if negb present
                    then s <- py_unpack sec ;;
                         Ok (JDict (dict_set s "section_id"
                                             (JStr (section_name idx))))
                    else Ok sec) ;;
           Ok (out ++ [sec'])
         else Ok out)
      items []
  else if isinstance_dict sections_obj then
    items <- py_items sections_obj ;;
    for_each
      (fun result '(key, value) =>
         if isinstance_dict value then
           v <- py_unpack value ;;
           Ok (result ++ [JDict (dict_set v "section_id" (JStr key))])
         else
           Ok (result ++ [JDict [("section_id", JStr key);
                                 ("value", value)]]))
      items []
  else Ok [].

Definition transform_parts (parts_obj : json) : res (list json) :=
  if isinstance_list parts_obj then
    items <- py_iter parts_obj ;;
    for_each
      (fun out part =>
         if negb (isinstance_dict part) then Ok out
         else
           part_name <- py_get_method part "part_name" ;;
           raw <- py_get_method part "sections" ;;
           sections <- transform_sections raw ;;
           fields <- py_items part ;;
           let base := dict_filter not_sections fields in
           let base := dict_set base "sections" (JList sections) in
           let base :=
             if negb (truthy (py_get base "part_name"))
             then dict_set base "part_name" (py_or part_name (JStr "Part"))
             else base in
           Ok (out ++ [JDict base]))
      items []
  else if isinstance_dict parts_obj then
    items <- py_items parts_obj ;;
    for_each
      (fun out '(key, value) =>
         if isinstance_dict value then
           name <- py_get_method value "part_name" ;;
           let part_name := py_or name (JStr key) in
           raw <- py_get_method value "sections" ;;
           sections <- transform_sections raw ;;
           fields <- py_items value ;;
           let base := dict_filter not_sections fields in
           let base := dict_set base "part_name" part_name in
           let base := dict_set base "sections" (JList sections) in
           Ok (out ++ [JDict base])
         else
           Ok (out ++ [JDict [("part_name", JStr key); ("value", value);
                              ("sections", JList [])]]))
      items []
  else Ok [].

Definition transform_document (doc : json) : res json :=
  fields <- py_items doc ;;
  let top := dict_filter not_parts fields in
  raw <- py_get_method doc "parts" ;;
  parts <- transform_parts raw ;;
  Ok (JDict (dict_set top "parts" (JList parts))).

(** The dispatch of [main] on the loaded data (its lines 130 to 133):
    a list is transformed item by item, the items that are not dicts
    left out; anything else is handed to [transform_document]. *)
Definition main_transform (data : json) : res json :=
  if isinstance_list data then
    items <- py_iter data ;;
    docs <- for_each
              (fun acc d =>
                 if isinstance_dict d
                 then t <- transform_document d ;; Ok (acc ++ [t])
                 else Ok acc)
              items [] ;;
    Ok (JList docs)
  else transform_document data.

End Checked.

(** ** The code over a store of mutable objects

    Python lists and dicts are objects in a store, and the source builds
    its results by mutation ([out.append], [base["sections"] = ...]).  Here
    the same code is written against a store: a value is an atom or the
    address of an object, the operations allocate, read and update
    objects, and a record that is passed through is shared, not copied.
    [None] stands for a raised exception.  A loop goes through the items
    that its list or dict has when the loop starts. *)

Module Heap.

Inductive hval : Type :=
| HNull
| HBool (b : bool)
| HInt (n : Z)
| HFloat (f : spec_float)
| HStr (s : string)
| HRef (a : nat).

Inductive hobj : Type :=
| HList (items : list hval)
| HDict (fields : list (string * hval)).

Definition heap := list hobj.

Definition M (A : Type) : Type := heap -> option (A * heap).

Definition ret {A : Type} (a : A) : M A := fun h => Some (a, h).

Definition bind {A B : Type} (c : M A) (k : A -> M B) : M B :=
  fun h => match c h with
           | Some (a, h') => k a h'
           | None => None
           end.

Definition raise {A : Type} : M A := fun _ => None.

Notation "x <- c ;; k" := (bind c (fun x => k))
  (at level 61, c at next level, right associativity).
Notation "c ;;; k" := (bind c (fun _ => k))
  (at level 61, right associativity).

(** [for x in items: body(x)] *)
Fixpoint for_each {A : Type} (body : A -> M unit) (items : list A)
  : M unit :=
  match items with
  | [] => ret tt
  | a :: rest => body a ;;; for_each body rest
  end.

Fixpoint store (a : nat) (o : hobj) (h : heap) : heap :=
  match h, a with
  | [], _ => []
  | _ :: t, O => o :: t
  | x :: t, S a' => x :: store a' o t
  end.

(** A new object, at the first free address. *)
Definition alloc (o : hobj) : M hval :=
  fun h => Some (HRef (List.length h), h ++ [o]).

Inductive shape : Type :=
| IsList (items : list hval)
| IsDict (fields : list (string * hval))
| IsOther.

Definition shape_in (h : heap) (v : hval) : shape :=
  match v with
  | HRef a =>
      match nth_error h a with
      | Some (HList items) => IsList items
      | Some (HDict fields) => IsDict fields
      | None => IsOther
      end
  | _ => IsOther
  end.

(** What [isinstance(v, list)] and [isinstance(v, dict)] tell, with the
    current content of the object. *)
Definition shape_of (v : hval) : M shape := fun h => Some (shape_in h v, h).

(** [bool(v)] *)
Definition truthy_in (h : heap) (v : hval) : bool :=
  match v with
  | HNull => false
  | HBool b => b
  | HInt n => negb (Z.eqb n 0)
  | HFloat (S754_zero _) => false
  | HFloat _ => true
  | HStr s => negb (String.eqb s EmptyString)
  | HRef _ =>
      match shape_in h v with
      | IsList [] => false
      | IsDict [] => false
      | _ => true
      end
  end.

Definition truthy (v : hval) : M bool := fun h => Some (truthy_in h v, h).

(** [l.append(x)] *)
Definition append (l x : hval) : M unit :=
  fun h => match l with
           | HRef a =>
               match nth_error h a with
               | Some (HList items) =>
                   Some (tt, store a (HList (items ++ [x])) h)
               | _ => None
               end
           | _ => None
           end.

(** [d[k] = x] *)
Definition setitem (d : hval) (k : string) (x : hval) : M unit :=
  fun h => match d with
           | HRef a =>
               match nth_error h a with
               | Some (HDict fields) =>
                   Some (tt, store a (HDict (dict_set fields k x)) h)
               | _ => None
               end
           | _ => None
           end.

(** The value that [get(k)] finds among the fields of a dict. *)
Definition field (fields : list (string * hval)) (k : string) : hval :=
  match dict_get fields k with Some v => v | None => HNull end.

(** [d.get(k)] *)
Definition get (d : hval) (k : string) : M hval :=
  s <- shape_of d ;;
  match s with
  | IsDict fields => ret (field fields k)
  | _ => raise
  end.

(** [d.items()], as the pairs that a comprehension over it goes through. *)
Definition items (d : hval) : M (list (string * hval)) :=
  s <- shape_of d ;;
  match s with
  | IsDict fields => ret fields
  | _ => raise
  end.

(** The bodies of the four loops, each appending to its accumulator. *)

Definition list_section (out : hval) (e : nat * hval) : M unit :=
  let '(idx, sec) := e in
  t <- shape_of sec ;;
  match t with
  | IsDict fields =>
      sec' <- (if negb (dict_mem "section_id" fields)
               then alloc (HDict (dict_set fields "section_id"
                                           (HStr (section_name idx))))
               else ret sec) ;;
      append out sec'
  | _ => ret tt
  end.

Definition dict_section (result : hval) (e : string * hval) : M unit :=
  let '(key, value) := e in
  t <- shape_of value ;;
  match t with
  | IsDict fields =>
      sec <- alloc (HDict (dict_set fields "section_id" (HStr key))) ;;
      append result sec
  | _ =>
      sec <- alloc (HDict [("section_id", HStr key); ("value", value)]) ;;
      append result sec
  end.

Definition transform_sections (sections_obj : hval) : M hval :=
  s <- shape_of sections_obj ;;
  match s with
  | IsList items =>
      out <- alloc (HList []) ;;
      for_each (list_section out) (enumerate items) ;;;
      ret out
  | IsDict entries =>
      result <- alloc (HList []) ;;
      for_each (dict_section result) entries ;;;
      ret result
  | IsOther => alloc (HList [])
  end.

Definition list_part (out : hval) (part : hval) : M unit :=
  t <- shape_of part ;;
  match t with
  | IsDict _ =>
      part_name <- get part "part_name" ;;
      raw <- get part "sections" ;;
      sections <- transform_sections raw ;;
      fields <- items part ;;
      base <- alloc (HDict (dict_filter not_sections fields)) ;;
      setitem base "sections" sections ;;;
      name <- get base "part_name" ;;
      named <- truthy name ;;
      (if negb named
       then given <- truthy part_name ;;
            setitem base "part_name"
                    (if given then part_name else HStr "Part")
       else ret tt) ;;;
      append out base
  | _ => ret tt
  end.

Definition dict_part (out : hval) (e : string * hval) : M unit :=
  let '(key, value) := e in
  t <- shape_of value ;;
  match t with
  | IsDict _ =>
      name <- get value "part_name" ;;
      named <- truthy name ;;
      let part_name := if named then name else HStr key in
      raw <- get value "sections" ;;
      sections <- transform_sections raw ;;
      fields <- items value ;;
      base <- alloc (HDict (dict_filter not_sections fields)) ;;
      setitem base "part_name" part_name ;;;
      setitem base "sections" sections ;;;
      append out base
  | _ =>
      empty <- alloc (HList []) ;;
      part <- alloc (HDict [("part_name", HStr key); ("value", value);
                            ("sections", empty)]) ;;
      append out part
  end.

Definition transform_parts (parts_obj : hval) : M hval :=
  out <- alloc (HList []) ;;
  s <- shape_of parts_obj ;;
  match s with
  | IsList items => for_each (list_part out) items ;;; ret out
  | IsDict entries => for_each (dict_part out) entries ;;; ret out
  | IsOther => alloc (HList [])
  end.

Definition transform_document (doc : hval) : M hval :=
  fields <- items doc ;;
  top <- alloc (HDict (dict_filter not_parts fields)) ;;
  raw <- get doc "parts" ;;
  parts <- transform_parts raw ;;
  setitem top "parts" parts ;;;
  ret top.

(** [repr_on P h j v]: in the store [h] the value [v] denotes the tree
    [j], and every object read on the way has its address in [P]. *)
Unset Elimination Schemes.
Inductive repr_on (P : nat -> Prop) (h : heap) : json -> hval -> Prop :=
| repr_null : repr_on P h JNull HNull
| repr_bool b : repr_on P h (JBool b) (HBool b)
| repr_int n : repr_on P h (JInt n) (HInt n)
| repr_float f : repr_on P h (JFloat f) (HFloat f)
| repr_str s : repr_on P h (JStr s) (HStr s)
| repr_list a items l :
    P a -> nth_error h a = Some (HList items) ->
    Forall2 (repr_on P h) l items ->
    repr_on P h (JList l) (HRef a)
| repr_dict a fields m :
    P a -> nth_error h a = Some (HDict fields) ->
    Forall2 (fun e f => fst e = fst f /\ repr_on P h (snd e) (snd f))
            m fields ->
    repr_on P h (JDict m) (HRef a).
Set Elimination Schemes.

(** Related fields: same key, and the value denotes the tree. *)
Definition field_repr (P : nat -> Prop) (h : heap)
           (e : string * json) (f : string * hval) : Prop :=
  fst e = fst f /\ repr_on P h (snd e) (snd f).

(** Every object of [h] at an address below [n] is the same in [h']. *)
Definition same_below (n : nat) (h h' : heap) : Prop :=
  List.length h <= List.length h'
  /\ forall a, a < n -> nth_error h' a = nth_error h a.

(** The loop invariant of an accumulator list at address [o], first free
    address of the store [h0] at the call: the objects of [h0] are
    unchanged, and the list holds values that denote the items of [acc]
    without reading [o]. *)
Definition out_inv (P : nat -> Prop) (h0 : heap) (h : heap)
           (acc : list json) : Prop :=
  List.length h0 < List.length h
  /\ (forall a, a < List.length h0 -> nth_error h a = nth_error h0 a)
  /\ exists outs,
       nth_error h (List.length h0) = Some (HList outs)
       /\ Forall2 (repr_on (fun a => P a /\ a <> List.length h0) h) acc outs.

Definition repr (h : heap) (j : json) (v : hval) : Prop :=
  repr_on (fun _ => True) h j v.

(** A store with the document [{"company": "Apple", "parts": {"Part_1":
    {"sections": [{"section_id": "s"}]}}}] at address 4. *)
Definition apple_heap : heap :=
  [ HDict [("section_id", HStr "s")];
    HList [HRef 0];
    HDict [("sections", HRef 1)];
    HDict [("Part_1", HRef 2)];
    HDict [("company", HStr "Apple"); ("parts", HRef 3)] ].

Definition apple_doc : dict :=
  [("company", JStr "Apple");
   ("parts",
    JDict [("Part_1",
            JDict [("sections", JList [JDict [("section_id", JStr "s")]])])])].

End Heap.

(** ** Shapes of normalised parts *)

(** A part as the normaliser promises it: a record with a [part_name] and
    with [sections] a list of records that all carry a [section_id]. *)
Definition shaped_part (x : json) : bool :=
  match x with
  | JDict p =>
      dict_mem "part_name" p
      && match dict_get p "sections" with
         | Some (JList ss) => forallb has_section_id ss
         | _ => false
         end
  | _ => false
  end.

(** A part on which the list branch of [transform_parts] changes nothing,
    not even the order of the keys: [sections] is its last key and holds a
    list of sections with ids, and its [part_name] is truthy. *)
Definition settled_part (q : dict) : Prop :=
  exists g ss,
    q = g ++ [("sections", JList ss)]
    /\ dict_get g "sections" = None
    /\ forallb has_section_id ss = true
    /\ truthy (py_get g "part_name") = true.

(** ** Loading the input ([is_probably_ndjson], [load_input])

    The text of the input file is split into lines, stripped and parsed by
    [str.splitlines], [str.strip] and [json.loads]; the three are taken as
    they come, [loads] answering [None] where [json.loads] raises. *)

Section Loading.
Variable splitlines : string -> list string.
Variable strip : string -> string.
Variable loads : string -> option json.

(** [bool(s)] for a string *)
Definition nonblank (s : string) : bool := negb (String.eqb s EmptyString).

(** [[ln.strip() for ln in text.splitlines() if ln.strip()]] *)
Definition stripped_lines (text : string) : list string :=
  flat_map (fun ln => if nonblank (strip ln) then [strip ln] else [])
           (splitlines text).

(** [for ln in lines: json.loads(ln)], [None] when a line raises *)
Fixpoint parse_each (lines : list string) : option unit :=
  match lines with
  | [] => Some tt
  | ln :: rest =>
      match loads ln with
      | Some _ => parse_each rest
      | None => None
      end
  end.

Definition is_probably_ndjson (text : string) : bool :=
  let lines := stripped_lines text in
  if Nat.leb (List.length lines) 1 then false
  else match parse_each (firstn 10 lines) with
       | Some _ => true
       | None => false
       end.

(** The loop of [load_input] over the lines of the text, appending to
    [docs]; [None] when [json.loads] raises. *)
Fixpoint read_docs (lines : list string) (docs : list json)
  : option (list json) :=
  match lines with
  | [] => Some docs
  | ln :: rest =>
      let ln := strip ln in
      if negb (nonblank ln) then read_docs rest docs
      else match loads ln with
           | Some d => read_docs rest (docs ++ [d])
           | None => None
           end
  end.

(** [load_input], on the text read from the file; [None] when
    [json.loads] raises. *)
Definition load_input (data : string) : option json :=
  if is_probably_ndjson data
  then match read_docs (splitlines data) [] with
       | Some docs => Some (JList docs)
       | None => None
       end
  else loads data.

Inductive outcome : Type :=
| Transformed (j : json)
| ParseError
| Raised (e : Checked.exn).

(** [main] from the text of the input file to the value it writes (its
    lines 128 to 133). *)
Definition main_data (text : string) : outcome :=
  match load_input text with
  | None => ParseError
  | Some data =>
      match Checked.main_transform data with
      | Checked.Ok j => Transformed j
      | Checked.Raise e => Raised e
      end
  end.
End Loading.

(** A text of eleven lines, the last of which is not JSON. *)
Definition eleven_lines (text : string) : list string :=
  if String.eqb text "eleven"
  then ["{}"; "{}"; "{}"; "{}"; "{}"; "{}"; "{}"; "{}"; "{}"; "{}"; "oops"]
  else [text].

(** A parser that knows the empty object only. *)
Definition loads_empty_object (s : string) : option json :=
  if String.eqb s "{}" then Some (JDict []) else None.

(** [isinstance(x, dict)] in the store [h] *)
Definition is_dict_in (h : Heap.heap) (x : Heap.hval) : bool :=
  match Heap.shape_in h x with
  | Heap.IsDict _ => true
  | _ => false
  end.

(** ** Removing fields (remove_gemini_fields.py)

    [remove_specified_fields] updates its argument in place and returns
    nothing; the function below returns the value that the argument holds
    after the call.  The messages it prints are left out. *)

(** [del d[k]] *)
Fixpoint dict_del {V : Type} (m : list (string * V)) (k : string)
  : list (string * V) :=
  match m with
  | [] => []
  | (k', v) :: m' =>
      if String.eqb k k' then m' else (k', v) :: dict_del m' k
  end.

Definition fields_to_remove : list string :=
  ["gemini_item_name"; "gemini_part_name"; "section_id"].

(** [for field in fields_to_remove: if field in obj: del obj[field]] *)
Definition delete_fields {V : Type} (obj : list (string * V))
  : list (string * V) :=
  fold_left (fun m field => if dict_mem field m then dict_del m field else m)
            fields_to_remove obj.

(** The source deletes the fields and then goes through the values that
    are left; here the values are gone through first, for the recursion to
    be structural.  [remove_specified_fields_dict] below has the equation
    in the order of the source. *)
Fixpoint remove_specified_fields (obj : json) : json :=
  match obj with
  | JDict m =>
      JDict (delete_fields
               (map (fun kv => (fst kv, remove_specified_fields (snd kv))) m))
  | JList l => JList (map remove_specified_fields l)
  | _ => obj
  end.

(** Some dict inside [x], [x] included, has the key [k]. *)
Fixpoint mentions (k : string) (x : json) : bool :=
  match x with
  | JDict m =>
      existsb (String.eqb k) (map fst m)
      || existsb (fun kv => mentions k (snd kv)) m
  | JList l => existsb (mentions k) l
  | _ => false
  end.

(** * Properties *)

(** ** Python equality on small values *)

Example eqb_int_float :
  json_eqb (JInt 1) (JFloat (S754_finite false 4 (-2))) = true.
Proof. reflexivity. Qed.

Example eqb_bool_int : json_eqb (JBool true) (JInt 1) = true.
Proof. reflexivity. Qed.

Example eqb_dict_order :
  json_eqb (JDict [("a", JInt 1); ("b", JNull)])
           (JDict [("b", JNull); ("a", JInt 1)]) = true.
Proof. reflexivity. Qed.

Example eqb_str_differs : json_eqb (JStr EmptyString) (JStr "Part") = false.
Proof. reflexivity. Qed.

(** ** Association lists *)

Section DictFacts.
Context {V : Type}.
Implicit Types (m : list (string * V)) (k : string) (v : V).

Lemma dict_get_set_same m k v : dict_get (dict_set m k v) k = Some v.
Proof.
  induction m as [|[k' v'] m IH]; simpl.
  - now rewrite String.eqb_refl.
  - destruct (String.eqb k k') eqn:E; simpl; rewrite E; auto.
Qed.

Lemma dict_get_set_other m k k' v :
  k <> k' -> dict_get (dict_set m k v) k' = dict_get m k'.
Proof.
  intros Hne. apply String.eqb_neq in Hne. rewrite String.eqb_sym in Hne.
  induction m as [|[k0 v0] m IH]; simpl.
  - now rewrite Hne.
  - destruct (String.eqb k k0) eqn:E; simpl.
    + apply String.eqb_eq in E. subst k0. now rewrite Hne.
    + now rewrite IH.
Qed.

Lemma dict_set_absent m k v :
  dict_get m k = None -> dict_set m k v = m ++ [(k, v)].
Proof.
  induction m as [|[k' v'] m IH]; simpl; auto.
  destruct (String.eqb k k'); [discriminate|].
  intros H. now rewrite IH.
Qed.

Lemma dict_get_app m m' k :
  dict_get (m ++ m') k =
  match dict_get m k with Some v => Some v | None => dict_get m' k end.
Proof.
  induction m as [|[k' v'] m IH]; simpl; auto.
  destruct (String.eqb k k'); auto.
Qed.

Lemma dict_get_filter keep m k :
  keep k = true -> dict_get (dict_filter keep m) k = dict_get m k.
Proof.
  intros Hk. induction m as [|[k' v'] m IH]; simpl; auto.
  destruct (String.eqb k k') eqn:E.
  - apply String.eqb_eq in E. subst k'. rewrite Hk. simpl.
    now rewrite String.eqb_refl.
  - destruct (keep k'); simpl; [rewrite E|]; exact IH.
Qed.

Lemma dict_get_filter_out keep m k :
  keep k = false -> dict_get (dict_filter keep m) k = None.
Proof.
  intros Hk. induction m as [|[k' v'] m IH]; simpl; auto.
  destruct (keep k') eqn:E'; simpl; auto.
  destruct (String.eqb k k') eqn:E; auto.
  apply String.eqb_eq in E. congruence.
Qed.

Lemma dict_get_In m k v : dict_get m k = Some v -> In (k, v) m.
Proof.
  induction m as [|[k' v'] m IH]; simpl; [discriminate|].
  destruct (String.eqb k k') eqn:E.
  - apply String.eqb_eq in E. intros [= ->]. subst. now left.
  - intros H. right. auto.
Qed.

Lemma dict_get_None m k : dict_get m k = None <-> ~ In k (keys m).
Proof.
  induction m as [|[k' v'] m IH]; simpl.
  - tauto.
  - destruct (String.eqb k k') eqn:E.
    + apply String.eqb_eq in E. subst. split; [discriminate | tauto].
    + apply String.eqb_neq in E. rewrite IH. split.
      * intros H [H'|H']; [congruence | tauto].
      * tauto.
Qed.

Lemma dict_get_unique m k v :
  NoDup (keys m) -> In (k, v) m -> dict_get m k = Some v.
Proof.
  induction m as [|[k' v'] m IH]; simpl; [tauto|].
  intros Hnd [H|H].
  - injection H as -> ->. now rewrite String.eqb_refl.
  - inversion Hnd as [|? ? Hnotin Hnd']; subst.
    destruct (String.eqb k k') eqn:E; auto.
    apply String.eqb_eq in E. subst k'.
    exfalso. apply Hnotin. unfold keys.
    change k with (fst (k, v)). now apply in_map.
Qed.

Lemma dict_mem_true m k : dict_mem k m = true <-> In k (keys m).
Proof.
  unfold dict_mem. destruct (dict_get m k) eqn:E.
  - split; auto. intros _. apply dict_get_In in E.
    unfold keys. change k with (fst (k, v)). now apply in_map.
  - apply dict_get_None in E. split; [discriminate | tauto].
Qed.

Lemma dict_mem_false m k : dict_mem k m = false <-> dict_get m k = None.
Proof.
  unfold dict_mem. destruct (dict_get m k); split; congruence.
Qed.

Lemma keys_dict_set m k v :
  keys (dict_set m k v) = if dict_mem k m then keys m else keys m ++ [k].
Proof.
  unfold dict_mem. induction m as [|[k' v'] m IH]; simpl; auto.
  destruct (String.eqb k k') eqn:E; simpl; auto.
  rewrite IH. destruct (dict_get m k); auto.
Qed.

Lemma keys_filter_incl keep m k :
  In k (keys (dict_filter keep m)) -> In k (keys m) /\ keep k = true.
Proof.
  unfold keys, dict_filter. rewrite in_map_iff.
  intros [[k' v'] [<- Hin]]. apply filter_In in Hin as [Hin Hk].
  split; auto. change k' with (fst (k', v')). now apply in_map.
Qed.

Lemma NoDup_keys_filter keep m :
  NoDup (keys m) -> NoDup (keys (dict_filter keep m)).
Proof.
  induction m as [|[k' v'] m IH]; simpl; auto.
  intros Hnd. inversion Hnd as [|? ? Hnotin Hnd']; subst.
  destruct (keep k'); simpl; auto.
  constructor; auto.
  intros Hin. apply keys_filter_incl in Hin. tauto.
Qed.

Lemma NoDup_keys_set m k v :
  NoDup (keys m) -> NoDup (keys (dict_set m k v)).
Proof.
  intros Hnd. rewrite keys_dict_set.
  destruct (dict_mem k m) eqn:E; auto.
  apply dict_mem_false, dict_get_None in E.
  apply NoDup_app; repeat constructor; simpl; try tauto.
  intros x Hx [<-|[]]. contradiction.
Qed.

Lemma In_dict_set m k v k' v' :
  In (k', v') (dict_set m k v) -> (k' = k /\ v' = v) \/ In (k', v') m.
Proof.
  induction m as [|[k0 v0] m IH]; simpl.
  - intros [[= <- <-]|[]]. auto.
  - destruct (String.eqb k k0) eqn:E; simpl.
    + apply String.eqb_eq in E. subst k0.
      intros [[= <- <-]|H]; auto.
    + intros [H|H]; auto. apply IH in H. tauto.
Qed.

Lemma length_dict_set m k v :
  List.length (dict_set m k v) =
  if dict_mem k m then List.length m else S (List.length m).
Proof.
  unfold dict_mem. induction m as [|[k' v'] m IH]; simpl; auto.
  destruct (String.eqb k k'); simpl; auto.
  rewrite IH. destruct (dict_get m k); auto.
Qed.
End DictFacts.

Lemma nodupb_NoDup l : nodupb l = true <-> NoDup l.
Proof.
  induction l as [|k l IH]; simpl.
  - split; auto using NoDup_nil.
  - rewrite andb_true_iff, negb_true_iff, IH. split.
    + intros [Hex Hnd]. constructor; auto.
      intros Hin. apply not_true_iff_false in Hex. apply Hex.
      apply existsb_exists. exists k. split; auto using String.eqb_refl.
    + intros Hnd. inversion Hnd as [|? ? Hnotin Hnd']; subst. split; auto.
      apply not_true_iff_false. intros Hex.
      apply existsb_exists in Hex as [k' [Hin E]].
      apply String.eqb_eq in E. subst. contradiction.
Qed.

(** ** Loops as maps *)

Lemma fold_left_snoc_map {A B : Type} (step : list B -> A -> list B)
      (f : A -> B) :
  (forall out e, step out e = out ++ [f e]) ->
  forall l acc, fold_left step l acc = acc ++ map f l.
Proof.
  intros Hstep l. induction l as [|e l IH]; intros acc; simpl.
  - now rewrite app_nil_r.
  - rewrite IH, Hstep, <- app_assoc. reflexivity.
Qed.

Lemma fold_left_app_flat_map {A B : Type} (step : list B -> A -> list B)
      (g : A -> list B) :
  (forall out e, step out e = out ++ g e) ->
  forall l acc, fold_left step l acc = acc ++ flat_map g l.
Proof.
  intros Hstep l. induction l as [|e l IH]; intros acc; simpl.
  - now rewrite app_nil_r.
  - rewrite IH, Hstep, <- app_assoc. reflexivity.
Qed.

Lemma sections_list_step_app out e :
  sections_list_step out e = out ++ list_section_item e.
Proof.
  destruct e as [idx sec]. unfold list_section_item. simpl.
  destruct sec; simpl; now rewrite ?app_nil_r.
Qed.

Lemma flat_map_enumerate_from n l :
  flat_map list_section_item (combine (seq n (List.length l)) l) =
  map (fun e => JDict (list_section (fst e) (snd e))) (records_from n l).
Proof.
  revert n. induction l as [|x l IH]; intros n; simpl; auto.
  unfold list_section_item at 1. simpl.
  destruct x; simpl; rewrite IH; reflexivity.
Qed.

Lemma transform_sections_list l :
  transform_sections (JList l) =
  map (fun e => JDict (list_section (fst e) (snd e))) (records_from 0 l).
Proof.
  unfold transform_sections, enumerate.
  rewrite (fold_left_app_flat_map _ _ sections_list_step_app).
  apply flat_map_enumerate_from.
Qed.

Lemma transform_sections_dict m :
  transform_sections (JDict m) =
  map (fun e => JDict (dict_section (fst e) (snd e))) m.
Proof.
  unfold transform_sections.
  rewrite (fold_left_snoc_map _ (fun e => JDict (dict_section (fst e) (snd e)))).
  - reflexivity.
  - intros out [k v]. reflexivity.
Qed.

Lemma transform_parts_list l :
  transform_parts (JList l) = flat_map list_part_item l.
Proof.
  unfold transform_parts.
  rewrite (fold_left_app_flat_map _ list_part_item); auto.
  intros out [] ; simpl; now rewrite ?app_nil_r.
Qed.

Lemma transform_parts_dict m :
  transform_parts (JDict m) =
  map (fun e => JDict (dict_part (fst e) (snd e))) m.
Proof.
  unfold transform_parts.
  rewrite (fold_left_snoc_map _ (fun e => JDict (dict_part (fst e) (snd e)))).
  - reflexivity.
  - intros out [k v]. reflexivity.
Qed.

(** Positions of the records of a list. *)

Lemma records_from_nth l : forall n i s,
  nth_error l i = Some (JDict s) ->
  nth_error (records_from n l) (count_records (firstn i l)) = Some (n + i, s).
Proof.
  induction l as [|x l IH]; intros n i s H.
  - destruct i; discriminate.
  - destruct i as [|i]; simpl in H.
    + injection H as ->. simpl. now rewrite Nat.add_0_r.
    + specialize (IH (S n) i s H).
      replace (n + S i) with (S n + i) by lia.
      unfold count_records in *. simpl.
      destruct x; simpl; exact IH.
Qed.

Lemma records_from_In l : forall n i s,
  In (i, s) (records_from n l) <->
  (n <= i /\ nth_error l (i - n) = Some (JDict s)).
Proof.
  induction l as [|x l IH]; intros n i s; simpl.
  - split; [tauto|]. intros [_ H]. destruct (i - n); discriminate.
  - assert (Hrec : In (i, s) (records_from (S n) l) <->
                   (n <= i /\ nth_error (x :: l) (i - n) = Some (JDict s)
                    /\ i <> n)).
    { rewrite IH. split.
      - intros [Hle H]. repeat split; try lia.
        replace (i - n) with (S (i - S n)) by lia. exact H.
      - intros [Hle [H Hne]]. split; [lia|].
        replace (i - n) with (S (i - S n)) in H by lia. exact H. }
    destruct x; simpl; try (rewrite Hrec; split;
      [ tauto
      | intros [Hle H]; repeat split; auto; intros ->;
        rewrite Nat.sub_diag in H; discriminate ]).
    rewrite Hrec. split.
    + intros [[= <- <-]|H]; [|tauto].
      split; auto. now rewrite Nat.sub_diag.
    + intros [Hle H]. destruct (Nat.eq_dec i n) as [->|Hne]; [|tauto].
      rewrite Nat.sub_diag in H. simpl in H. injection H as ->. now left.
Qed.

Lemma records_from_lower l : forall n,
  Forall (fun e => n <= fst e) (records_from n l).
Proof.
  induction l as [|x l IH]; intros n; simpl; auto.
  assert (H : Forall (fun e : nat * dict => n <= fst e) (records_from (S n) l)).
  { eapply Forall_impl; [|apply IH]. simpl. intros; lia. }
  destruct x; auto.
Qed.

Lemma records_from_sorted l : forall n,
  StronglySorted lt (map fst (records_from n l)).
Proof.
  induction l as [|x l IH]; intros n; simpl; [constructor|].
  destruct x; auto. simpl. constructor; auto.
  rewrite Forall_map. eapply Forall_impl; [|apply records_from_lower].
  simpl. intros; lia.
Qed.

Lemma list_section_absent idx s :
  dict_mem "section_id" s = false ->
  list_section idx s = s ++ [("section_id", JStr (section_name idx))].
Proof.
  intros H. unfold list_section. rewrite H. simpl.
  apply dict_set_absent. now apply dict_mem_false.
Qed.

Lemma list_section_present idx s :
  dict_mem "section_id" s = true -> list_section idx s = s.
Proof. intros H. unfold list_section. now rewrite H. Qed.

(** ** The list branch of [transform_sections] *)

(** C4: on a list, the output is the records of the input in input order,
    each with all its fields; a record without the key [section_id] gains
    ["section_{i}"] for its position [i] in the input, as a last field; a
    record with the key is emitted as it is; the other items are dropped. *)
Theorem C4_list_sections :
  (forall l : list json,
      transform_sections (JList l) =
      map (fun e : nat * dict =>
             JDict (if dict_mem "section_id" (snd e) then snd e
                    else snd e ++ [("section_id", JStr (section_name (fst e)))]))
          (records_from 0 l)
      /\ (forall i s, In (i, s) (records_from 0 l) <->
                      nth_error l i = Some (JDict s))
      /\ StronglySorted lt (map fst (records_from 0 l)))
  /\ transform_sections
       (JList [JDict [("category", JStr "business"); ("content", JStr "...")]])
     = [JDict [("category", JStr "business"); ("content", JStr "...");
               ("section_id", JStr "section_0")]].
Proof.
  split; [|reflexivity].
  intros l. split; [|split].
  - rewrite transform_sections_list. apply map_ext. intros [i s]. simpl.
    destruct (dict_mem "section_id" s) eqn:E.
    + now rewrite list_section_present.
    + now rewrite list_section_absent.
  - intros i s. rewrite records_from_In, Nat.sub_0_r.
    split; [tauto | split; [lia | assumption]].
  - apply records_from_sorted.
Qed.

(** C9: the index of a derived id is the position of the record in the
    input list, the dropped items counted: the record at position [i] of
    the input, when it has no [section_id], comes out with
    ["section_{i}"], at the output position that counts the records before
    it only. *)
Theorem C9_positional_index :
  (forall (l : list json) (i : nat) (s : dict),
      nth_error l i = Some (JDict s) ->
      dict_mem "section_id" s = false ->
      nth_error (transform_sections (JList l)) (count_records (firstn i l))
      = Some (JDict (s ++ [("section_id", JStr (section_name i))])))
  /\ transform_sections (JList [JInt 1; JDict [("a", JInt 1)]])
     = [JDict [("a", JInt 1); ("section_id", JStr "section_1")]].
Proof.
  split; [|reflexivity].
  intros l i s Hnth Hmem.
  rewrite transform_sections_list.
  rewrite nth_error_map, (records_from_nth l 0 i s Hnth). simpl.
  now rewrite list_section_absent.
Qed.

Lemma C9_positional_index_witness :
  nth_error (transform_sections (JList [JInt 1; JDict [("a", JInt 1)]]))
            (count_records (firstn 1 [JInt 1; JDict [("a", JInt 1)]]))
  = Some (JDict ([("a", JInt 1)] ++ [("section_id", JStr (section_name 1))])).
Proof.
  apply (proj1 C9_positional_index); reflexivity.
Defined.

(** ** The mapping branch of [transform_sections] *)

Lemma Forall2_map_r {A B : Type} (R : A -> B -> Prop) (f : A -> B) l :
  (forall a, In a l -> R a (f a)) -> Forall2 R l (map f l).
Proof.
  induction l as [|a l IH]; intros H; simpl; constructor.
  - apply H. now left.
  - apply IH. intros; apply H. now right.
Qed.

(** C5: on a mapping, every pair yields one section, in the order of the
    pairs.  A record value comes out as that record with [section_id] set
    to the key, whatever [section_id] it had: its other fields are kept,
    [section_id] keeps its place when the record had one and is added last
    otherwise.  Any other value comes out as
    [{section_id: key, value: value}]. *)
Theorem C5_mapping_sections :
  (forall m : dict,
      Forall2
        (fun (e : string * json) (out : json) =>
           match snd e with
           | JDict v =>
               exists s, out = JDict s
                 /\ dict_get s "section_id" = Some (JStr (fst e))
                 /\ (forall k, k <> "section_id" -> dict_get s k = dict_get v k)
                 /\ keys s = (if dict_mem "section_id" v then keys v
                              else keys v ++ ["section_id"])
           | value =>
               out = JDict [("section_id", JStr (fst e)); ("value", value)]
           end)
        m (transform_sections (JDict m)))
  /\ transform_sections
       (JDict [("business", JDict [("content", JStr "...")])])
     = [JDict [("content", JStr "..."); ("section_id", JStr "business")]]
  /\ transform_sections
       (JDict [("k", JDict [("section_id", JStr "old"); ("a", JInt 1)]);
               ("j", JInt 5)])
     = [JDict [("section_id", JStr "k"); ("a", JInt 1)];
        JDict [("section_id", JStr "j"); ("value", JInt 5)]].
Proof.
  split; [|split; reflexivity].
  intros m. rewrite transform_sections_dict.
  apply Forall2_map_r. intros [key value] _. simpl.
  destruct value; try reflexivity.
  simpl. eexists. split; [reflexivity|]. split; [|split].
  - apply dict_get_set_same.
  - intros k Hk. apply dict_get_set_other. congruence.
  - apply keys_dict_set.
Qed.

(** ** The mapping branch of [transform_parts] *)

Lemma not_sections_true k : k <> "sections" -> not_sections k = true.
Proof.
  intros H. unfold not_sections. apply negb_true_iff. now apply String.eqb_neq.
Qed.

(** C6: on a mapping, every pair yields one part, in the order of the
    pairs.  For a record value the part has the value's [part_name] when
    that is truthy and the key otherwise, has for [sections] the
    normalised [sections] field of the value, and keeps every other field
    of the value.  Any other value yields
    [{part_name: key, value: value, sections: []}]. *)
Theorem C6_mapping_parts :
  (forall m : dict,
      Forall2
        (fun (e : string * json) (out : json) =>
           match snd e with
           | JDict v =>
               exists p, out = JDict p
                 /\ dict_get p "part_name" =
                    Some (if truthy (py_get v "part_name")
                          then py_get v "part_name" else JStr (fst e))
                 /\ dict_get p "sections" =
                    Some (JList (transform_sections (py_get v "sections")))
                 /\ (forall k, k <> "part_name" -> k <> "sections" ->
                               dict_get p k = dict_get v k)
           | value =>
               out = JDict [("part_name", JStr (fst e)); ("value", value);
                            ("sections", JList [])]
           end)
        m (transform_parts (JDict m)))
  /\ transform_parts (JDict [("Part_1", JStr "raw text")])
     = [JDict [("part_name", JStr "Part_1"); ("value", JStr "raw text");
               ("sections", JList [])]].
Proof.
  split; [|reflexivity].
  intros m. rewrite transform_parts_dict.
  apply Forall2_map_r. intros [key value] _. simpl.
  destruct value; try reflexivity.
  simpl. eexists. split; [reflexivity|]. split; [|split].
  - rewrite dict_get_set_other by discriminate.
    rewrite dict_get_set_same. reflexivity.
  - apply dict_get_set_same.
  - intros k Hk1 Hk2.
    rewrite !dict_get_set_other by congruence.
    apply dict_get_filter. now apply not_sections_true.
Qed.

(** ** Presence of [section_id] against truthiness of [part_name] *)

Lemma py_get_base (p : dict) (v : json) :
  py_get (dict_set (dict_filter not_sections p) "sections" v) "part_name"
  = py_get p "part_name".
Proof.
  unfold py_get. rewrite dict_get_set_other by discriminate.
  now rewrite dict_get_filter.
Qed.

Lemma list_part_falsy_name p :
  truthy (py_get p "part_name") = false ->
  list_part p =
  dict_set (dict_set (dict_filter not_sections p) "sections"
                     (JList (transform_sections (py_get p "sections"))))
           "part_name" (JStr "Part").
Proof.
  intros H. unfold list_part. rewrite py_get_base, H. simpl.
  unfold py_or. now rewrite H.
Qed.

Lemma list_part_truthy_name p :
  truthy (py_get p "part_name") = true ->
  list_part p =
  dict_set (dict_filter not_sections p) "sections"
           (JList (transform_sections (py_get p "sections"))).
Proof.
  intros H. unfold list_part. now rewrite py_get_base, H.
Qed.

(** C10: in the list branch of [transform_sections] a record that has the
    key [section_id] is emitted as it is, whatever the value under the key
    (null and the empty string included); in [transform_parts] a
    [part_name] that is falsy is replaced: by ["Part"] in the list branch,
    by the key in the mapping branch. *)
Theorem C10_presence_vs_truthiness :
  (forall (l : list json) (i : nat) (s : dict),
      nth_error l i = Some (JDict s) ->
      dict_mem "section_id" s = true ->
      nth_error (transform_sections (JList l)) (count_records (firstn i l))
      = Some (JDict s))
  /\ transform_sections
       (JList [JDict [("section_id", JNull)];
               JDict [("section_id", JStr EmptyString)]])
     = [JDict [("section_id", JNull)];
        JDict [("section_id", JStr EmptyString)]]
  /\ (forall p : dict,
         truthy (py_get p "part_name") = false ->
         dict_get (list_part p) "part_name" = Some (JStr "Part"))
  /\ (forall (key : string) (v : dict),
         truthy (py_get v "part_name") = false ->
         dict_get (dict_part key (JDict v)) "part_name" = Some (JStr key))
  /\ transform_parts (JList [JDict [("part_name", JStr EmptyString)]])
     = [JDict [("part_name", JStr "Part"); ("sections", JList [])]]
  /\ transform_parts
       (JDict [("Part_1", JDict [("part_name", JStr EmptyString)])])
     = [JDict [("part_name", JStr "Part_1"); ("sections", JList [])]].
Proof.
  split; [|split; [reflexivity|split; [|split; [|split; reflexivity]]]].
  - intros l i s Hnth Hmem.
    rewrite transform_sections_list.
    rewrite nth_error_map, (records_from_nth l 0 i s Hnth). simpl.
    now rewrite list_section_present.
  - intros p H. rewrite list_part_falsy_name by assumption.
    apply dict_get_set_same.
  - intros key v H. simpl.
    rewrite dict_get_set_other by discriminate.
    rewrite dict_get_set_same. unfold py_or. now rewrite H.
Qed.

Lemma C10_presence_vs_truthiness_witness :
  nth_error (transform_sections (JList [JInt 7; JDict [("section_id", JNull)]]))
            (count_records (firstn 1 [JInt 7; JDict [("section_id", JNull)]]))
  = Some (JDict [("section_id", JNull)])
  /\ dict_get (list_part [("part_name", JStr EmptyString); ("x", JInt 1)])
              "part_name"
     = Some (JStr "Part")
  /\ dict_get (dict_part "Part_1" (JDict [("part_name", JInt 0)])) "part_name"
     = Some (JStr "Part_1").
Proof.
  split; [|split].
  - apply (proj1 C10_presence_vs_truthiness); reflexivity.
  - apply (proj1 (proj2 (proj2 C10_presence_vs_truthiness))); reflexivity.
  - apply (proj1 (proj2 (proj2 (proj2 C10_presence_vs_truthiness)))).
    reflexivity.
Defined.

(** ** Well-formedness *)

Lemma wf_dict m :
  wf (JDict m) = true
  <-> NoDup (keys m) /\ Forall (fun kv => wf (snd kv) = true) m.
Proof.
  simpl. rewrite andb_true_iff, nodupb_NoDup, forallb_forall, Forall_forall.
  reflexivity.
Qed.

Lemma wf_list l : wf (JList l) = true <-> Forall (fun x => wf x = true) l.
Proof. simpl. now rewrite forallb_forall, Forall_forall. Qed.

Lemma wf_dict_get m k v :
  wf (JDict m) = true -> dict_get m k = Some v -> wf v = true.
Proof.
  intros Hwf Hget. apply wf_dict in Hwf as [_ Hall].
  apply dict_get_In in Hget. rewrite Forall_forall in Hall.
  exact (Hall _ Hget).
Qed.

Lemma wf_py_get m k : wf (JDict m) = true -> wf (py_get m k) = true.
Proof.
  intros Hwf. unfold py_get. destruct (dict_get m k) eqn:E; auto.
  eapply wf_dict_get; eauto.
Qed.

(** ** Uniqueness of section ids *)

Lemma str_of_nat_inj i j : str_of_nat i = str_of_nat j -> i = j.
Proof.
  unfold str_of_nat. intros H.
  apply Unsigned.to_uint_inj.
  assert (E : NilEmpty.uint_of_string (NilEmpty.string_of_uint (Nat.to_uint i))
              = NilEmpty.uint_of_string (NilEmpty.string_of_uint (Nat.to_uint j)))
    by now rewrite H.
  rewrite !NilEmpty.usu in E. now injection E.
Qed.

Lemma section_name_inj i j : section_name i = section_name j -> i = j.
Proof.
  unfold section_name. simpl. intros [= H]. now apply str_of_nat_inj.
Qed.

Lemma StronglySorted_lt_NoDup l : StronglySorted lt l -> NoDup l.
Proof.
  induction 1 as [|a l Hs IH Hall]; constructor; auto.
  intros Hin. rewrite Forall_forall in Hall. specialize (Hall _ Hin). lia.
Qed.

Lemma NoDup_map_inj {A B : Type} (f : A -> B) l :
  (forall x y, f x = f y -> x = y) -> NoDup l -> NoDup (map f l).
Proof.
  intros Hinj. induction 1 as [|a l Hnotin Hnd IH]; simpl; constructor; auto.
  rewrite in_map_iff. intros [y [Hy Hin]]. apply Hinj in Hy. now subst.
Qed.

Lemma list_part_sections p :
  dict_get (list_part p) "sections"
  = Some (JList (transform_sections (py_get p "sections"))).
Proof.
  unfold list_part.
  destruct (negb _); rewrite ?dict_get_set_other by discriminate;
    apply dict_get_set_same.
Qed.

Lemma sections_of_list_part p :
  sections_of (JDict (list_part p)) = transform_sections (py_get p "sections").
Proof. unfold sections_of, py_get at 1. now rewrite list_part_sections. Qed.

Lemma sections_of_dict_part k v :
  sections_of (JDict (dict_part k v)) =
  match v with
  | JDict d => transform_sections (py_get d "sections")
  | _ => []
  end.
Proof.
  destruct v; try reflexivity.
  unfold sections_of, py_get at 1. simpl. now rewrite dict_get_set_same.
Qed.

Lemma py_get_transform_document d :
  py_get (transform_document d) "parts"
  = JList (transform_parts (py_get d "parts")).
Proof.
  unfold transform_document, py_get at 1. now rewrite dict_get_set_same.
Qed.

(** C2, as the specification words it, fails: an id supplied by a record of
    a list is kept and can be the very id derived for another position. *)
Lemma C2_counterexample :
  wf (JDict doc_colliding_ids) = true
  /\ ~ unique_section_ids (transform_document doc_colliding_ids).
Proof.
  split; [reflexivity|].
  unfold unique_section_ids. intros H.
  inversion H as [|part ps Hnd _]; subst.
  vm_compute in Hnd.
  inversion Hnd as [|x l Hnotin _]; subst.
  apply Hnotin. now left.
Qed.

(** ** Python equality *)

Lemma num_eqb_refl a : num_eqb a a = true.
Proof. unfold num_eqb. apply Z.eqb_refl. Qed.

Lemma json_eqb_list_cons u a v b :
  json_eqb (JList (u :: a)) (JList (v :: b))
  = json_eqb u v && json_eqb (JList a) (JList b).
Proof. reflexivity. Qed.

Lemma json_eqb_list a b :
  Forall2 (fun u v => json_eqb u v = true) a b ->
  json_eqb (JList a) (JList b) = true.
Proof.
  induction 1 as [|u v a b Huv Hab IH]; [reflexivity|].
  rewrite json_eqb_list_cons, Huv, IH. reflexivity.
Qed.

Lemma json_eqb_dict a b :
  List.length a = List.length b ->
  (forall k v, In (k, v) a ->
               exists w, dict_get b k = Some w /\ json_eqb v w = true) ->
  json_eqb (JDict a) (JDict b) = true.
Proof.
  intros Hlen H. simpl. rewrite Hlen, Nat.eqb_refl. simpl.
  apply forallb_forall. intros [k v] Hin.
  destruct (H k v Hin) as [w [-> Hw]]. exact Hw.
Qed.

Lemma json_eqb_refl x : wf x = true -> json_eqb x x = true.
Proof.
  induction x as [| b | n | f | s | l IH | m IH] using json_ind; intros Hwf.
  - reflexivity.
  - apply num_eqb_refl.
  - apply num_eqb_refl.
  - destruct f as [s | s | | s mm e]; simpl; unfold atom_eqb; simpl;
      auto using num_eqb_refl, Bool.eqb_reflx.
  - simpl. unfold atom_eqb. simpl. apply String.eqb_refl.
  - apply json_eqb_list. apply wf_list in Hwf.
    induction l as [|y l IHl]; constructor.
    + inversion IH; inversion Hwf; subst; auto.
    + inversion IH; inversion Hwf; subst; auto.
  - apply wf_dict in Hwf as [Hnd Hall].
    apply json_eqb_dict; auto.
    intros k v Hin. exists v. split.
    + now apply dict_get_unique.
    + rewrite Forall_forall in IH, Hall.
      apply (IH (k, v) Hin). apply (Hall (k, v) Hin).
Qed.

(** ** Well-formed outputs *)

Lemma wf_dict_set m k v :
  wf (JDict m) = true -> wf v = true -> wf (JDict (dict_set m k v)) = true.
Proof.
  rewrite !wf_dict. intros [Hnd Hall] Hv. split.
  - now apply NoDup_keys_set.
  - rewrite Forall_forall in *. intros [k' v'] Hin.
    apply In_dict_set in Hin as [[_ ->]|Hin];
      [exact Hv | exact (Hall _ Hin)].
Qed.

Lemma wf_dict_filter keep m :
  wf (JDict m) = true -> wf (JDict (dict_filter keep m)) = true.
Proof.
  rewrite !wf_dict. intros [Hnd Hall]. split.
  - now apply NoDup_keys_filter.
  - rewrite Forall_forall in *. intros e Hin.
    apply filter_In in Hin as [Hin _]. auto.
Qed.

Lemma wf_list_section idx s :
  wf (JDict s) = true -> wf (JDict (list_section idx s)) = true.
Proof.
  intros H. unfold list_section.
  destruct (negb _); auto. now apply wf_dict_set.
Qed.

Lemma wf_dict_section k v :
  wf v = true -> wf (JDict (dict_section k v)) = true.
Proof.
  intros H. destruct v; try reflexivity; try (simpl in *; now rewrite ?H).
  unfold dict_section. now apply wf_dict_set.
Qed.

Lemma wf_transform_sections x :
  wf x = true -> wf (JList (transform_sections x)) = true.
Proof.
  intros Hwf. destruct x; try reflexivity.
  - rewrite transform_sections_list. apply wf_list. apply wf_list in Hwf.
    rewrite Forall_forall in *. intros y Hin.
    apply in_map_iff in Hin as [[i s] [<- Hin]].
    apply records_from_In in Hin as [_ Hnth]. apply nth_error_In in Hnth.
    apply wf_list_section. exact (Hwf _ Hnth).
  - rewrite transform_sections_dict. apply wf_list.
    apply wf_dict in Hwf as [_ Hall].
    rewrite Forall_forall in *. intros y Hin.
    apply in_map_iff in Hin as [[k v] [<- Hin]].
    apply wf_dict_section. exact (Hall _ Hin).
Qed.

Lemma wf_list_part p : wf (JDict p) = true -> wf (JDict (list_part p)) = true.
Proof.
  intros Hwf. unfold list_part.
  assert (Hbase : wf (JDict (dict_set (dict_filter not_sections p) "sections"
                    (JList (transform_sections (py_get p "sections"))))) = true).
  { apply wf_dict_set; [now apply wf_dict_filter|].
    apply wf_transform_sections. now apply wf_py_get. }
  destruct (negb _); auto.
  apply wf_dict_set; auto.
  unfold py_or. destruct (truthy _); auto. now apply wf_py_get.
Qed.

Lemma wf_dict_part k v : wf v = true -> wf (JDict (dict_part k v)) = true.
Proof.
  intros H. destruct v; try reflexivity; try (simpl in *; now rewrite ?H).
  unfold dict_part. apply wf_dict_set; [apply wf_dict_set|].
  - now apply wf_dict_filter.
  - unfold py_or. destruct (truthy _); auto. now apply wf_py_get.
  - apply wf_transform_sections. now apply wf_py_get.
Qed.

Lemma wf_transform_parts x :
  wf x = true -> wf (JList (transform_parts x)) = true.
Proof.
  intros Hwf. destruct x; try reflexivity.
  - rewrite transform_parts_list. apply wf_list. apply wf_list in Hwf.
    rewrite Forall_forall in *. intros y Hin.
    apply in_flat_map in Hin as [x [Hx Hin]].
    destruct x; simpl in Hin; try tauto. destruct Hin as [<-|[]].
    apply wf_list_part. exact (Hwf _ Hx).
  - rewrite transform_parts_dict. apply wf_list.
    apply wf_dict in Hwf as [_ Hall].
    rewrite Forall_forall in *. intros y Hin.
    apply in_map_iff in Hin as [[k v] [<- Hin]].
    apply wf_dict_part. exact (Hall _ Hin).
Qed.

Lemma wf_transform_document d :
  wf (JDict d) = true -> wf (JDict (transform_document d)) = true.
Proof.
  intros Hwf. unfold transform_document.
  apply wf_dict_set; [now apply wf_dict_filter|].
  apply wf_transform_parts. now apply wf_py_get.
Qed.

(** ** Uniqueness of section ids, part by part *)

Lemma transform_parts_list_records l :
  transform_parts (JList l)
  = map (fun e : nat * dict => JDict (list_part (snd e))) (records_from 0 l).
Proof.
  rewrite transform_parts_list. generalize 0.
  induction l as [|x l IH]; intros n; simpl; auto.
  destruct x; simpl; rewrite (IH (S n)); reflexivity.
Qed.

Lemma Forall2_map_map {A B C : Type} (R : B -> C -> Prop)
      (f : A -> B) (g : A -> C) l :
  (forall a, In a l -> R (f a) (g a)) -> Forall2 R (map f l) (map g l).
Proof.
  induction l as [|a l IH]; intros H; simpl; constructor.
  - apply H. now left.
  - apply IH. intros; apply H. now right.
Qed.

(** The sections of each part of the output are the normal form of the
    [sections] value the part is made from. *)
Lemma sections_of_parts x :
  Forall2 (fun src part => sections_of part = transform_sections src)
          (source_sections x) (transform_parts x).
Proof.
  destruct x; try constructor.
  - rewrite transform_parts_list_records. simpl.
    apply Forall2_map_map. intros [i p] _. simpl.
    apply sections_of_list_part.
  - rewrite transform_parts_dict. simpl.
    apply Forall2_map_map. intros [k v] _. cbv beta.
    rewrite sections_of_dict_part. simpl. destruct v; reflexivity.
Qed.

Lemma wf_source_sections x :
  wf x = true -> Forall (fun src => wf src = true) (source_sections x).
Proof.
  intros Hwf. destruct x; try constructor.
  - apply wf_list in Hwf. simpl. rewrite Forall_forall in *.
    intros src Hin. apply in_map_iff in Hin as [[i p] [<- Hin]].
    apply records_from_In in Hin as [_ Hnth]. apply nth_error_In in Hnth.
    apply wf_py_get. exact (Hwf _ Hnth).
  - apply wf_dict in Hwf as [_ Hall]. simpl. rewrite Forall_forall in *.
    intros src Hin. apply in_map_iff in Hin as [[k v] [<- Hin]].
    specialize (Hall _ Hin). simpl in *.
    destruct v; auto. now apply wf_py_get.
Qed.

(** Each id is the one supplied, or the one derived. *)
Lemma section_ids_of_source src :
  section_ids (transform_sections src) = ids_of_source src.
Proof.
  destruct src; try reflexivity.
  - rewrite transform_sections_list. unfold section_ids, ids_of_source.
    rewrite map_map. apply map_ext. intros [i s]. unfold carries_id. simpl.
    destruct (dict_mem "section_id" s) eqn:E.
    + now rewrite list_section_present.
    + rewrite list_section_absent by assumption.
      rewrite dict_get_app. apply dict_mem_false in E. now rewrite E.
  - rewrite transform_sections_dict. unfold section_ids, ids_of_source.
    rewrite map_map. apply map_ext. intros [k v]. simpl.
    destruct v; simpl; try reflexivity. apply dict_get_set_same.
Qed.

Lemma NoDup_map_filter {A B : Type} (f : A -> B) (p : A -> bool) l :
  NoDup (map f l) -> NoDup (map f (filter p l)).
Proof.
  induction l as [|a l IH]; simpl; intros H; auto.
  inversion H as [|? ? Hnotin Hnd]; subst.
  destruct (p a); simpl; auto.
  constructor; auto. intros Hin. apply Hnotin.
  apply in_map_iff in Hin as [x [Hx Hin]].
  apply filter_In in Hin as [Hin _].
  apply in_map_iff. eauto.
Qed.

Lemma NoDup_derived_names src : wf src = true -> NoDup (derived_names src).
Proof.
  intros Hwf. destruct src; try constructor.
  - simpl.
    rewrite <- (map_map fst section_name).
    apply NoDup_map_inj; [exact section_name_inj|].
    apply NoDup_map_filter.
    apply StronglySorted_lt_NoDup. apply records_from_sorted.
  - apply wf_dict in Hwf. tauto.
Qed.

Lemma id_eqb_str a b :
  id_eqb (Some (JStr a)) (Some (JStr b)) = String.eqb a b.
Proof. reflexivity. Qed.

(** Comparing with a string gives the same answer from either side. *)
Lemma id_eqb_str_sym k id :
  id_eqb (Some (JStr k)) id = id_eqb id (Some (JStr k)).
Proof.
  destruct id as [y|]; [|reflexivity].
  destruct y as [| b | n | f | s | l | m]; try reflexivity.
  - destruct f; reflexivity.
  - simpl. unfold atom_eqb. simpl. apply String.eqb_sym.
Qed.

Lemma pairwise_distinct_names ks :
  NoDup ks -> pairwise_distinct (map (fun k => Some (JStr k)) ks).
Proof.
  induction 1 as [|k ks Hnotin Hnd IH]; simpl; constructor; auto.
  apply Forall_forall. intros id Hin.
  apply in_map_iff in Hin as [k' [<- Hk']].
  rewrite id_eqb_str. apply String.eqb_neq. congruence.
Qed.

(** Two families of values that are distinct within themselves and from
    each other stay distinct however they are interleaved. *)
Lemma pairwise_interleaved {A B : Type} (R : B -> B -> Prop)
      (p : A -> bool) (f g : A -> B) l :
  ForallOrdPairs R (map f (filter p l)) ->
  ForallOrdPairs R (map g (filter (fun a => negb (p a)) l)) ->
  (forall s t, In s (map f (filter p l)) ->
               In t (map g (filter (fun a => negb (p a)) l)) ->
               R s t /\ R t s) ->
  ForallOrdPairs R (map (fun a => if p a then f a else g a) l).
Proof.
  induction l as [|a l IH]; intros Hf Hg Hfg; [constructor|].
  simpl in *. destruct (p a) eqn:E; simpl in *.
  - inversion Hf as [|? ? Hhead Hrest]; subst.
    constructor.
    + rewrite Forall_forall in *. intros b Hin.
      apply in_map_iff in Hin as [x [<- Hx]].
      destruct (p x) eqn:Ex.
      * apply Hhead. apply in_map, filter_In. auto.
      * apply (Hfg (f a) (g x)); [now left|].
        apply in_map, filter_In. now rewrite Ex.
    + apply IH; auto.
  - inversion Hg as [|? ? Hhead Hrest]; subst.
    constructor.
    + rewrite Forall_forall in *. intros b Hin.
      apply in_map_iff in Hin as [x [<- Hx]].
      destruct (p x) eqn:Ex.
      * apply (Hfg (f x) (g a)); [|now left].
        apply in_map, filter_In. auto.
      * apply Hhead. apply in_map, filter_In. now rewrite Ex.
    + apply IH; auto.
Qed.

Lemma pairwise_distinct_ids_of_source src :
  wf src = true ->
  pairwise_distinct (supplied_ids src) ->
  (forall s t, In s (supplied_ids src) -> In t (derived_ids src) ->
               id_eqb s t = false) ->
  pairwise_distinct (ids_of_source src).
Proof.
  intros Hwf Hsup Hcross.
  pose proof (pairwise_distinct_names _ (NoDup_derived_names src Hwf)) as Hder.
  destruct src; try constructor.
  - unfold derived_ids in Hcross. simpl in *. rewrite map_map in Hder, Hcross.
    apply (pairwise_interleaved _ carries_id
             (fun e : nat * dict => dict_get (snd e) "section_id")
             (fun e : nat * dict => Some (JStr (section_name (fst e)))));
      auto.
    intros s t Hs Ht. split; [now apply Hcross|].
    apply in_map_iff in Ht as [e [<- He]].
    rewrite id_eqb_str_sym. apply Hcross; auto.
    apply in_map_iff. eauto.
  - simpl in *. now rewrite map_map in Hder.
Qed.

(** Well-formed ids equal themselves. *)
Lemma section_ids_refl ss :
  wf (JList ss) = true ->
  Forall (fun id => id_eqb id id = true) (section_ids ss).
Proof.
  intros Hwf. apply wf_list in Hwf. unfold section_ids.
  rewrite Forall_forall in *. intros id Hin.
  apply in_map_iff in Hin as [x [<- Hx]]. specialize (Hwf _ Hx).
  destruct x; try reflexivity.
  destruct (dict_get m "section_id") as [v|] eqn:E; [|reflexivity].
  simpl. apply json_eqb_refl. eapply wf_dict_get; eauto.
Qed.

Lemma pairwise_distinct_NoDup ids :
  Forall (fun id => id_eqb id id = true) ids ->
  pairwise_distinct ids -> NoDup ids.
Proof.
  intros Hrefl Hdist.
  induction Hdist as [|a l Hhead _ IH]; constructor.
  - intros Hin. rewrite Forall_forall in Hhead. specialize (Hhead _ Hin).
    inversion Hrefl; subst. congruence.
  - apply IH. now inversion Hrefl.
Qed.

(** C2, as the code has it.  Part by part of the normalised document, with
    [src] the [sections] value the part is made from: every section has
    the id that its record supplied, kept as it is, or else the id derived
    from its position in the list or from its key in the mapping; the
    derived ids never collide with each other; and no two sections of the
    part have equal ids whenever the supplied ids are pairwise distinct
    and differ from every derived id of the part, hence always for a
    mapping and for a list in which no record supplies an id.  Values are
    well formed: no dict repeats a key. *)
Theorem C2_unique_section_ids (d : dict) :
  wf (JDict d) = true ->
  Forall2
    (fun (src : json) (part : json) =>
       sections_of part = transform_sections src
       /\ section_ids (sections_of part) = ids_of_source src
       /\ pairwise_distinct (derived_ids src)
       /\ (pairwise_distinct (supplied_ids src) ->
           (forall s t, In s (supplied_ids src) -> In t (derived_ids src) ->
                        id_eqb s t = false) ->
           pairwise_distinct (section_ids (sections_of part))
           /\ NoDup (section_ids (sections_of part))))
    (source_sections (py_get d "parts"))
    (parts_of (transform_document d)).
Proof.
  intros Hwf. unfold parts_of. rewrite py_get_transform_document.
  assert (Hparts : wf (py_get d "parts") = true) by now apply wf_py_get.
  pose proof (wf_source_sections _ Hparts) as Hsrc.
  pose proof (sections_of_parts (py_get d "parts")) as Hall.
  induction Hall as [|src part srcs parts Hpart _ IH]; constructor.
  - inversion Hsrc as [|? ? Hwsrc _]; subst.
    rewrite Hpart, section_ids_of_source.
    split; [reflexivity|]. split; [reflexivity|]. split.
    + apply pairwise_distinct_names. now apply NoDup_derived_names.
    + intros Hsup Hcross.
      assert (Hdist : pairwise_distinct (ids_of_source src))
        by now apply pairwise_distinct_ids_of_source.
      split; [exact Hdist|].
      apply pairwise_distinct_NoDup; [|exact Hdist].
      rewrite <- section_ids_of_source. apply section_ids_refl.
      now apply wf_transform_sections.
  - apply IH. now inversion Hsrc.
Qed.

Lemma C2_unique_section_ids_witness :
  let parts := parts_of (transform_document doc_mixed_ids) in
  (pairwise_distinct (section_ids (sections_of (nth 0 parts JNull)))
   /\ NoDup (section_ids (sections_of (nth 0 parts JNull))))
  /\ (pairwise_distinct (section_ids (sections_of (nth 1 parts JNull)))
      /\ NoDup (section_ids (sections_of (nth 1 parts JNull)))).
Proof.
  pose proof (C2_unique_section_ids doc_mixed_ids eq_refl) as H.
  change (source_sections (py_get doc_mixed_ids "parts"))
    with [JList [JDict [("section_id", JStr "intro")]; JInt 3;
                 JDict [("b", JInt 2)]; JDict [("section_id", JInt 7)]];
          JDict [("x", JDict [("section_id", JStr "y")]); ("y", JNull)];
          JList [JDict [("section_id", JStr "section_1")]; JDict []]] in H.
  remember (parts_of (transform_document doc_mixed_ids)) as parts eqn:E.
  vm_compute in E. subst parts. cbv zeta.
  inversion H as [|s0 p0 ss0 ps0 [_ [_ [_ H0]]] H']; subst.
  inversion H' as [|s1 p1 ss1 ps1 [_ [_ [_ H1]]] _]; subst.
  split.
  - apply H0.
    + repeat constructor.
    + intros s t [<-|[<-|[]]] [<-|[]]; reflexivity.
  - apply H1.
    + constructor.
    + intros s t [].
Defined.

(** In [doc_mixed_ids] the first part mixes supplied and derived ids and
    the second takes its ids from keys: both have pairwise distinct ids,
    although the third part of the same document has a collision. *)
Example mixed_ids_first_parts :
  section_ids (sections_of (nth 0 (parts_of (transform_document doc_mixed_ids))
                                JNull))
  = [Some (JStr "intro"); Some (JStr "section_2"); Some (JInt 7)]
  /\ section_ids (sections_of (nth 1 (parts_of
                                        (transform_document doc_mixed_ids))
                                   JNull))
     = [Some (JStr "x"); Some (JStr "y")]
  /\ section_ids (sections_of (nth 2 (parts_of
                                        (transform_document doc_mixed_ids))
                                   JNull))
     = [Some (JStr "section_1"); Some (JStr "section_1")].
Proof. repeat split. Qed.

(** ** The second pass *)

Lemma has_section_id_list_section idx s :
  has_section_id (JDict (list_section idx s)) = true.
Proof.
  simpl. unfold list_section. destruct (dict_mem "section_id" s) eqn:E; simpl.
  - exact E.
  - unfold dict_mem. now rewrite dict_get_set_same.
Qed.

Lemma has_section_id_dict_section k v :
  has_section_id (JDict (dict_section k v)) = true.
Proof.
  destruct v; try reflexivity.
  simpl. unfold dict_mem. now rewrite dict_get_set_same.
Qed.

(** Every section that [transform_sections] returns carries an id. *)
Lemma transform_sections_have_ids x :
  forallb has_section_id (transform_sections x) = true.
Proof.
  destruct x; try reflexivity.
  - rewrite transform_sections_list, forallb_forall. intros y Hin.
    apply in_map_iff in Hin as [e [<- _]].
    apply has_section_id_list_section.
  - rewrite transform_sections_dict, forallb_forall. intros y Hin.
    apply in_map_iff in Hin as [e [<- _]].
    apply has_section_id_dict_section.
Qed.

Lemma records_from_with_ids ss : forall n,
  forallb has_section_id ss = true ->
  map (fun e : nat * dict => JDict (list_section (fst e) (snd e)))
      (records_from n ss) = ss.
Proof.
  induction ss as [|x ss IH]; intros n H; [reflexivity|].
  simpl in H. apply andb_true_iff in H as [Hx Hss].
  destruct x; try discriminate. simpl in *.
  rewrite list_section_present by assumption.
  now rewrite IH.
Qed.

(** A list of sections that all carry an id is returned as it is. *)
Lemma transform_sections_fixed ss :
  forallb has_section_id ss = true -> transform_sections (JList ss) = ss.
Proof.
  intros H. rewrite transform_sections_list. now apply records_from_with_ids.
Qed.

Lemma dict_filter_absent (m : dict) k :
  dict_get m k = None ->
  dict_filter (fun k' => negb (String.eqb k' k)) m = m.
Proof.
  induction m as [|[k' v'] m IH]; simpl; auto.
  rewrite (String.eqb_sym k k').
  destruct (String.eqb k' k); [discriminate|].
  simpl. intros H. now rewrite IH.
Qed.

Lemma length_filter_present (m : dict) k v :
  NoDup (keys m) -> dict_get m k = Some v ->
  S (List.length (dict_filter (fun k' => negb (String.eqb k' k)) m))
  = List.length m.
Proof.
  induction m as [|[k' v'] m IH]; simpl; [discriminate|].
  intros Hnd. inversion Hnd as [|? ? Hnotin Hnd']; subst.
  rewrite (String.eqb_sym k k').
  destruct (String.eqb k' k) eqn:E; simpl.
  - intros _. apply String.eqb_eq in E. subst k'.
    apply dict_get_None in Hnotin. now rewrite dict_filter_absent.
  - intros H. now rewrite IH.
Qed.

(** Moving an entry of a dictionary to the end gives an equal dictionary. *)
Lemma json_eqb_move_last (m : dict) k v :
  wf (JDict m) = true -> dict_get m k = Some v ->
  json_eqb
    (JDict (dict_set (dict_filter (fun k' => negb (String.eqb k' k)) m) k v))
    (JDict m) = true.
Proof.
  intros Hwf Hget. pose proof Hwf as Hwf'.
  apply wf_dict in Hwf' as [Hnd Hall]. rewrite Forall_forall in Hall.
  rewrite dict_set_absent.
  2:{ apply dict_get_filter_out. now rewrite String.eqb_refl. }
  apply json_eqb_dict.
  - rewrite length_app. simpl. rewrite Nat.add_1_r.
    now apply length_filter_present with (v := v).
  - intros k0 v0 Hin. apply in_app_or in Hin as [Hin|[[= <- <-]|[]]].
    + apply filter_In in Hin as [Hin _]. exists v0. split.
      * now apply dict_get_unique.
      * apply json_eqb_refl. exact (Hall _ Hin).
    + exists v. split; auto. apply json_eqb_refl.
      eapply wf_dict_get; eauto.
Qed.

(** The list branch leaves a canonical part equal to itself. *)
Lemma list_part_canonical p :
  canonical_part p -> json_eqb (JDict (list_part p)) (JDict p) = true.
Proof.
  intros [Hwf [Hname [ss [Hget Hids]]]].
  rewrite list_part_truthy_name by assumption.
  unfold py_get. rewrite Hget.
  rewrite transform_sections_fixed by assumption.
  now apply json_eqb_move_last.
Qed.

Lemma canonical_list_part p :
  wf (JDict p) = true -> canonical_part (list_part p).
Proof.
  intros Hwf. split; [now apply wf_list_part|]. split.
  - destruct (truthy (py_get p "part_name")) eqn:E.
    + rewrite list_part_truthy_name by assumption. now rewrite py_get_base.
    + rewrite list_part_falsy_name by assumption.
      unfold py_get. now rewrite dict_get_set_same.
  - eexists. split; [apply list_part_sections|].
    apply transform_sections_have_ids.
Qed.

Lemma canonical_dict_part k v :
  wf v = true -> part_named_by k v = true -> canonical_part (dict_part k v).
Proof.
  intros Hwf Hnamed. split; [now apply wf_dict_part|].
  unfold part_named_by in Hnamed.
  destruct v;
    try (rewrite orb_false_r in Hnamed; split;
         [exact Hnamed | exists []; split; reflexivity]).
  split.
  - unfold py_get at 1. simpl.
    rewrite dict_get_set_other by discriminate. rewrite dict_get_set_same.
    unfold py_or. destruct (truthy (py_get m "part_name")) eqn:E; auto.
    simpl. now rewrite orb_false_r in Hnamed.
  - eexists. split; [apply dict_get_set_same|].
    apply transform_sections_have_ids.
Qed.

(** The parts of a first pass, under [parts_keep_names], are canonical. *)
Lemma transform_parts_canonical x :
  wf x = true -> parts_keep_names x = true ->
  Forall (fun y => exists p, y = JDict p /\ canonical_part p)
         (transform_parts x).
Proof.
  intros Hwf Hnames. destruct x; try (simpl; constructor).
  - rewrite transform_parts_list. apply wf_list in Hwf.
    rewrite Forall_forall in *. intros y Hin.
    apply in_flat_map in Hin as [x [Hx Hin]].
    destruct x; simpl in Hin; try tauto. destruct Hin as [<-|[]].
    eexists. split; [reflexivity|].
    apply canonical_list_part. exact (Hwf _ Hx).
  - rewrite transform_parts_dict. apply wf_dict in Hwf as [_ Hall].
    simpl in Hnames. rewrite forallb_forall in Hnames.
    rewrite Forall_forall in *. intros y Hin.
    apply in_map_iff in Hin as [[k v] [<- Hin]].
    eexists. split; [reflexivity|].
    apply canonical_dict_part; [exact (Hall _ Hin) | exact (Hnames _ Hin)].
Qed.

(** A list of canonical parts is equal to its normal form. *)
Lemma transform_parts_fixed ps :
  Forall (fun y => exists p, y = JDict p /\ canonical_part p) ps ->
  json_eqb (JList (transform_parts (JList ps))) (JList ps) = true.
Proof.
  intros H. rewrite transform_parts_list. apply json_eqb_list.
  induction H as [|y ps [p [-> Hp]] _ IH]; simpl; constructor; auto.
  now apply list_part_canonical.
Qed.

Lemma not_parts_filter_twice (d : dict) v :
  dict_filter not_parts (dict_filter not_parts d ++ [("parts", v)])
  = dict_filter not_parts d.
Proof.
  unfold dict_filter. rewrite filter_app. simpl. rewrite app_nil_r.
  induction d as [|[k w] d IH]; simpl; auto.
  destruct (not_parts k) eqn:E; simpl; rewrite ?E, IH; reflexivity.
Qed.

Lemma transform_document_shape d :
  transform_document d
  = dict_filter not_parts d
    ++ [("parts", JList (transform_parts (py_get d "parts")))].
Proof.
  unfold transform_document. apply dict_set_absent.
  now apply dict_get_filter_out.
Qed.

Lemma transform_document_twice d :
  transform_document (transform_document d)
  = dict_filter not_parts d
    ++ [("parts",
         JList (transform_parts (JList (transform_parts (py_get d "parts")))))].
Proof.
  rewrite (transform_document_shape (transform_document d)).
  rewrite py_get_transform_document.
  rewrite (transform_document_shape d) at 1.
  now rewrite not_parts_filter_twice.
Qed.

(** C1, as the code has it: a second pass returns a document equal to the
    first pass's (as Python compares dictionaries: by keys and values,
    whatever the order of the keys), for every well-formed mapping document
    whose [parts], when it is a mapping, has no pair with the empty string
    as key and a value without a truthy [part_name]. *)
Theorem C1_idempotent (d : dict) :
  wf (JDict d) = true ->
  parts_keep_names (py_get d "parts") = true ->
  json_eqb (JDict (transform_document (transform_document d)))
           (JDict (transform_document d)) = true.
Proof.
  intros Hwf Hnames.
  assert (Hparts : wf (py_get d "parts") = true) by now apply wf_py_get.
  pose proof (wf_dict_filter not_parts d Hwf) as Htop.
  apply wf_dict in Htop as [Hnd Hall]. rewrite Forall_forall in Hall.
  rewrite transform_document_twice, transform_document_shape.
  apply json_eqb_dict.
  - now rewrite !length_app.
  - intros k v Hin. rewrite dict_get_app.
    apply in_app_or in Hin as [Hin|[[= <- <-]|[]]].
    + exists v. rewrite (dict_get_unique _ _ _ Hnd Hin). split; auto.
      apply json_eqb_refl. exact (Hall _ Hin).
    + rewrite dict_get_filter_out by reflexivity. simpl.
      eexists. split; [reflexivity|].
      apply transform_parts_fixed. now apply transform_parts_canonical.
Qed.

Lemma C1_idempotent_witness :
  json_eqb (JDict (transform_document (transform_document doc_acme)))
           (JDict (transform_document doc_acme)) = true.
Proof.
  apply C1_idempotent; reflexivity.
Defined.

(** C1, as the specification words it, fails: a part that the mapping branch
    names by an empty key is renamed ["Part"] by the second pass. *)
Lemma C1_counterexample :
  wf (JDict doc_empty_key) = true
  /\ transform_document doc_empty_key
     = [("parts", JList [JDict [("part_name", JStr EmptyString);
                                ("sections", JList [])]])]
  /\ transform_document (transform_document doc_empty_key)
     = [("parts", JList [JDict [("part_name", JStr "Part");
                                ("sections", JList [])]])]
  /\ json_eqb (JDict (transform_document (transform_document doc_empty_key)))
              (JDict (transform_document doc_empty_key)) = false.
Proof. repeat split. Qed.

(** ** The condition of idempotence is necessary *)

Lemma In_dict_set_same {V : Type} (m : list (string * V)) k v :
  In (k, v) (dict_set m k v).
Proof.
  induction m as [|[k' v'] m IH]; simpl; auto.
  destruct (String.eqb k k') eqn:E; simpl; auto.
  apply String.eqb_eq in E. subst. now left.
Qed.

Lemma json_eqb_dict_differs a b k x y :
  In (k, x) a -> dict_get b k = Some y -> json_eqb x y = false ->
  json_eqb (JDict a) (JDict b) = false.
Proof.
  intros Hin Hget Hne. simpl. apply andb_false_iff. right.
  apply not_true_iff_false. intros Hall.
  rewrite forallb_forall in Hall. specialize (Hall _ Hin).
  simpl in Hall. rewrite Hget in Hall. congruence.
Qed.

Lemma json_eqb_list_map {A : Type} (f g : A -> json) l :
  json_eqb (JList (map f l)) (JList (map g l))
  = forallb (fun e => json_eqb (f e) (g e)) l.
Proof.
  induction l as [|e l IH]; [reflexivity|].
  simpl map. rewrite json_eqb_list_cons, IH. reflexivity.
Qed.

Lemma dict_part_unnamed k v :
  part_named_by k v = false ->
  dict_get (dict_part k v) "part_name" = Some (JStr EmptyString).
Proof.
  unfold part_named_by. intros H. apply orb_false_iff in H as [Hk Hv].
  apply negb_false_iff, String.eqb_eq in Hk. subst k.
  destruct v; try reflexivity.
  simpl. rewrite dict_get_set_other by discriminate.
  rewrite dict_get_set_same. unfold py_or. now rewrite Hv.
Qed.

(** A part that the first pass leaves without a truthy name is renamed by
    the second pass. *)
Lemma list_part_renames p :
  dict_get p "part_name" = Some (JStr EmptyString) ->
  json_eqb (JDict (list_part p)) (JDict p) = false.
Proof.
  intros Hget.
  apply json_eqb_dict_differs
    with (k := "part_name") (x := JStr "Part") (y := JStr EmptyString); auto.
  rewrite list_part_falsy_name.
  - apply In_dict_set_same.
  - unfold py_get. now rewrite Hget.
Qed.

Lemma transform_parts_of_records {A : Type} (f : A -> dict) l :
  transform_parts (JList (map (fun e => JDict (f e)) l))
  = map (fun e => JDict (list_part (f e))) l.
Proof.
  rewrite transform_parts_list.
  induction l as [|e l IH]; simpl; congruence.
Qed.

(** X5: when [parts] is a mapping that has a pair with the empty string
    as key and a value that is not a record with a truthy [part_name], the
    second pass differs from the first: the part that the first pass names
    by the empty key is renamed ["Part"] by the second. *)
Theorem X5_second_pass_differs (d : dict) :
  parts_keep_names (py_get d "parts") = false ->
  json_eqb (JDict (transform_document (transform_document d)))
           (JDict (transform_document d)) = false.
Proof.
  intros Hnames.
  destruct (py_get d "parts") as [| | | | | |m] eqn:Hparts;
    try discriminate.
  rewrite transform_document_twice, transform_document_shape, Hparts.
  apply json_eqb_dict_differs
    with (k := "parts")
         (x := JList (transform_parts (JList (transform_parts (JDict m)))))
         (y := JList (transform_parts (JDict m))).
  - apply in_or_app. right. now left.
  - rewrite dict_get_app, dict_get_filter_out by reflexivity. reflexivity.
  - rewrite transform_parts_dict.
    rewrite (transform_parts_of_records (fun e => dict_part (fst e) (snd e))).
    rewrite json_eqb_list_map.
    apply not_true_iff_false. intros Hall.
    simpl in Hnames. apply not_true_iff_false in Hnames. apply Hnames.
    rewrite forallb_forall in *. intros e He.
    destruct (part_named_by (fst e) (snd e)) eqn:E; auto.
    specialize (Hall e He).
    rewrite list_part_renames in Hall by now apply dict_part_unnamed.
    discriminate.
Qed.

Lemma X5_second_pass_differs_witness :
  json_eqb
    (JDict (transform_document
              (transform_document
                 [("parts", JDict [(EmptyString, JStr "raw text")])])))
    (JDict (transform_document
              [("parts", JDict [(EmptyString, JStr "raw text")])])) = false.
Proof. apply X5_second_pass_differs. reflexivity. Defined.

(** ** Totality: the guards cover every operation that can raise *)

Lemma for_each_ok {A S : Type} (body : S -> A -> Checked.res S)
      (step : S -> A -> S) :
  (forall st a, body st a = Checked.Ok (step st a)) ->
  forall items st,
    Checked.for_each body items st = Checked.Ok (fold_left step items st).
Proof.
  intros Hbody items. induction items as [|a items IH]; intros st; simpl.
  - reflexivity.
  - rewrite Hbody. simpl. apply IH.
Qed.

Lemma checked_sections_ok x :
  Checked.transform_sections x = Checked.Ok (transform_sections x).
Proof.
  destruct x; try reflexivity.
  - unfold Checked.transform_sections. simpl.
    apply for_each_ok. intros out [idx sec].
    destruct sec; try reflexivity.
    simpl. unfold list_section.
    destruct (negb (dict_mem "section_id" m)); reflexivity.
  - unfold Checked.transform_sections. simpl.
    apply for_each_ok. intros out [key value].
    destruct value; reflexivity.
Qed.

Lemma checked_parts_ok x :
  Checked.transform_parts x = Checked.Ok (transform_parts x).
Proof.
  destruct x; try reflexivity.
  - unfold Checked.transform_parts. simpl.
    apply for_each_ok. intros out part.
    destruct part; try reflexivity.
    simpl. rewrite checked_sections_ok. reflexivity.
  - unfold Checked.transform_parts. simpl.
    apply for_each_ok. intros out [key value].
    destruct value; try reflexivity.
    simpl. rewrite checked_sections_ok. reflexivity.
Qed.

Lemma checked_document_ok d :
  Checked.transform_document (JDict d)
  = Checked.Ok (JDict (transform_document d)).
Proof.
  unfold Checked.transform_document. simpl.
  rewrite checked_parts_ok. reflexivity.
Qed.

(** C3: [transform_sections] and [transform_parts] return a sequence and
    raise nothing on every value: written over the operations that raise
    on the wrong type, they still return normally, with the sequence that
    the shape-matching functions compute; on a value that is neither a list
    nor a mapping that sequence is empty. *)
Theorem C3_total (x : json) :
  Checked.transform_sections x = Checked.Ok (transform_sections x)
  /\ Checked.transform_parts x = Checked.Ok (transform_parts x)
  /\ match x with
     | JList _ | JDict _ => True
     | _ => transform_sections x = [] /\ transform_parts x = []
     end.
Proof.
  split; [apply checked_sections_ok|].
  split; [apply checked_parts_ok|].
  destruct x; auto.
Qed.

(** ** The batch dispatch *)

Lemma for_each_documents l : forall acc,
  Checked.for_each
    (fun acc d =>
       if Checked.isinstance_dict d
       then Checked.bind (Checked.transform_document d)
                         (fun t => Checked.Ok (acc ++ [t]))
       else Checked.Ok acc) l acc
  = Checked.Ok
      (acc ++ map (fun e : nat * dict => JDict (transform_document (snd e)))
                  (records_from 0 l)).
Proof.
  assert (H : forall n acc,
    Checked.for_each
      (fun acc d =>
         if Checked.isinstance_dict d
         then Checked.bind (Checked.transform_document d)
                           (fun t => Checked.Ok (acc ++ [t]))
         else Checked.Ok acc) l acc
    = Checked.Ok
        (acc ++ map (fun e : nat * dict => JDict (transform_document (snd e)))
                    (records_from n l))).
  { induction l as [|x l IH]; intros n acc; simpl.
    - now rewrite app_nil_r.
    - destruct x; simpl; try apply IH.
      rewrite checked_document_ok. simpl.
      rewrite (IH (S n)), <- app_assoc. reflexivity. }
  apply H.
Qed.

(** C8: on a list, the batch dispatch returns the list of the normalised
    records of the input, in their order, the other items left out; on a
    single mapping it returns the normalised document itself, not a list. *)
Theorem C8_batch :
  (forall l : list json,
      Checked.main_transform (JList l)
      = Checked.Ok
          (JList (map (fun e : nat * dict => JDict (transform_document (snd e)))
                      (records_from 0 l)))
      /\ (forall i s, In (i, s) (records_from 0 l) <->
                      nth_error l i = Some (JDict s))
      /\ StronglySorted lt (map fst (records_from 0 l)))
  /\ (forall d : dict,
         Checked.main_transform (JDict d)
         = Checked.Ok (JDict (transform_document d)))
  /\ Checked.main_transform
       (JList [JDict [("company", JStr "Apple")]; JStr "noise";
               JDict [("company", JStr "Acme"); ("parts", JNull)]])
     = Checked.Ok
         (JList [JDict [("company", JStr "Apple"); ("parts", JList [])];
                 JDict [("company", JStr "Acme"); ("parts", JList [])]]).
Proof.
  split; [|split; [|reflexivity]].
  - intros l. split; [|split].
    + unfold Checked.main_transform. simpl.
      rewrite for_each_documents. reflexivity.
    + intros i s. rewrite records_from_In, Nat.sub_0_r.
      split; [tauto | split; [lia | assumption]].
    + apply records_from_sorted.
  - intros d. unfold Checked.main_transform. simpl.
    apply checked_document_ok.
Qed.

(** ** The store *)

Lemma length_store a o h : List.length (Heap.store a o h) = List.length h.
Proof.
  revert a. induction h as [|x h IH]; intros [|a]; simpl; auto.
Qed.

Lemma nth_error_store_same a o h :
  a < List.length h -> nth_error (Heap.store a o h) a = Some o.
Proof.
  revert a. induction h as [|x h IH]; intros [|a]; simpl; try lia; auto.
  intros H. apply IH. lia.
Qed.

Lemma nth_error_store_other a b o h :
  a <> b -> nth_error (Heap.store a o h) b = nth_error h b.
Proof.
  revert a b.
  induction h as [|x h IH]; intros [|a] [|b] H; simpl; auto; try congruence.
Qed.

Lemma store_last h x o :
  Heap.store (List.length h) o (h ++ [x]) = h ++ [o].
Proof. induction h as [|y h IH]; simpl; congruence. Qed.

Lemma same_below_refl n h : Heap.same_below n h h.
Proof. split; auto. Qed.

Lemma same_below_trans n h1 h2 h3 :
  Heap.same_below n h1 h2 -> Heap.same_below n h2 h3 ->
  Heap.same_below n h1 h3.
Proof.
  intros [L1 H1] [L2 H2]. split; [lia|].
  intros a Ha. rewrite H2, H1; auto.
Qed.

Lemma same_below_le n m h h' :
  n <= m -> Heap.same_below m h h' -> Heap.same_below n h h'.
Proof. intros Hle [L H]. split; auto. intros a Ha. apply H. lia. Qed.

Lemma same_below_alloc h o : Heap.same_below (List.length h) h (h ++ [o]).
Proof.
  split.
  - rewrite length_app. lia.
  - intros a Ha. now apply nth_error_app1.
Qed.

Lemma same_below_store n a o h :
  n <= a -> Heap.same_below n h (Heap.store a o h).
Proof.
  intros Hle. split.
  - now rewrite length_store.
  - intros b Hb. apply nth_error_store_other. lia.
Qed.

(** ** Values in the store and the trees they denote *)

Lemma repr_on_list_inv P h l v :
  Heap.repr_on P h (JList l) v ->
  exists a items,
    v = Heap.HRef a /\ P a /\ nth_error h a = Some (Heap.HList items)
    /\ Forall2 (Heap.repr_on P h) l items.
Proof. intros Hr. inversion Hr; subst. eauto 6. Qed.

Lemma repr_on_dict_inv P h m v :
  Heap.repr_on P h (JDict m) v ->
  exists a fields,
    v = Heap.HRef a /\ P a /\ nth_error h a = Some (Heap.HDict fields)
    /\ Forall2 (Heap.field_repr P h) m fields.
Proof. intros Hr. inversion Hr; subst. eauto 6. Qed.

Lemma repr_on_transport (P Q : nat -> Prop) (h h' : Heap.heap) j :
  (forall a, P a -> a < List.length h ->
             Q a /\ nth_error h' a = nth_error h a) ->
  forall v, Heap.repr_on P h j v -> Heap.repr_on Q h' j v.
Proof.
  intros HPQ.
  induction j as [| b | n | f | s | l IH | m IH] using json_ind;
    intros v Hr.
  1-5: inversion Hr; subst; constructor.
  - apply repr_on_list_inv in Hr as [a [items [-> [Pa [Hnth Hall]]]]].
    assert (Ha : a < List.length h) by (apply nth_error_Some; congruence).
    destruct (HPQ a Pa Ha) as [HQ Hsame].
    apply Heap.repr_list with (items := items); auto; [congruence|].
    clear Hnth Hsame. revert items Hall.
    induction IH as [|x l Hx _ IHl]; intros items Hall;
      inversion Hall; subst; constructor; auto.
  - apply repr_on_dict_inv in Hr as [a [fields [-> [Pa [Hnth Hall]]]]].
    assert (Ha : a < List.length h) by (apply nth_error_Some; congruence).
    destruct (HPQ a Pa Ha) as [HQ Hsame].
    apply Heap.repr_dict with (fields := fields); auto; [congruence|].
    clear Hnth Hsame. revert fields Hall.
    induction IH as [|x l Hx _ IHl]; intros fields Hall;
      inversion Hall as [|? ? ? ? [Hk Hv] ?]; subst; constructor; auto.
Qed.

Lemma repr_on_same_below (P : nat -> Prop) h h' j v :
  Heap.same_below (List.length h) h h' ->
  Heap.repr_on P h j v -> Heap.repr_on P h' j v.
Proof.
  intros [_ H]. apply repr_on_transport. intros a Pa Ha. split; auto.
Qed.

Lemma repr_on_weaken (P Q : nat -> Prop) h j v :
  (forall a, P a -> a < List.length h -> Q a) ->
  Heap.repr_on P h j v -> Heap.repr_on Q h j v.
Proof.
  intros H. apply repr_on_transport. intros a Pa Ha. split; auto.
Qed.

Lemma repr_on_truthy P h j v :
  Heap.repr_on P h j v -> Heap.truthy_in h v = truthy j.
Proof.
  intros Hr. destruct j; try (inversion Hr; subst; reflexivity).
  - apply repr_on_list_inv in Hr as [a [items [-> [_ [Hnth Hall]]]]].
    simpl. rewrite Hnth. inversion Hall; reflexivity.
  - apply repr_on_dict_inv in Hr as [a [fields [-> [_ [Hnth Hall]]]]].
    simpl. rewrite Hnth. inversion Hall; reflexivity.
Qed.

Lemma repr_on_shape P h j v :
  Heap.repr_on P h j v ->
  match j with
  | JList l =>
      exists items, Heap.shape_in h v = Heap.IsList items
                    /\ Forall2 (Heap.repr_on P h) l items
  | JDict m =>
      exists fields, Heap.shape_in h v = Heap.IsDict fields
                     /\ Forall2 (Heap.field_repr P h) m fields
  | _ => Heap.shape_in h v = Heap.IsOther
  end.
Proof.
  intros Hr. destruct j; try (inversion Hr; subst; reflexivity).
  - apply repr_on_list_inv in Hr as [a [items [-> [_ [Hnth Hall]]]]].
    exists items. simpl. rewrite Hnth. auto.
  - apply repr_on_dict_inv in Hr as [a [fields [-> [_ [Hnth Hall]]]]].
    exists fields. simpl. rewrite Hnth. auto.
Qed.

(** Related dictionaries answer alike. *)

Lemma fields_get P h m fields k :
  Forall2 (Heap.field_repr P h) m fields ->
  Heap.repr_on P h (py_get m k) (Heap.field fields k).
Proof.
  unfold py_get, Heap.field.
  induction 1 as [|[k1 x] [k2 w] m fields [Hk Hx] _ IH]; simpl.
  - constructor.
  - simpl in Hk. subst k2. destruct (String.eqb k k1); auto.
Qed.

Lemma fields_mem P h m fields k :
  Forall2 (Heap.field_repr P h) m fields ->
  dict_mem k fields = dict_mem k m.
Proof.
  unfold dict_mem.
  induction 1 as [|[k1 x] [k2 w] m fields [Hk Hx] _ IH]; simpl; auto.
  simpl in Hk. subst k2. destruct (String.eqb k k1); auto.
Qed.

Lemma fields_set P h m fields k x w :
  Forall2 (Heap.field_repr P h) m fields ->
  Heap.repr_on P h x w ->
  Forall2 (Heap.field_repr P h) (dict_set m k x) (dict_set fields k w).
Proof.
  intros H Hxw.
  induction H as [|[k1 x1] [k2 w1] m fields [Hk Hx] Hrest IH]; simpl.
  - repeat constructor; auto.
  - simpl in Hk. subst k2. destruct (String.eqb k k1).
    + constructor; auto. split; auto.
    + constructor; auto. split; auto.
Qed.

Lemma fields_filter P h m fields keep :
  Forall2 (Heap.field_repr P h) m fields ->
  Forall2 (Heap.field_repr P h) (dict_filter keep m) (dict_filter keep fields).
Proof.
  induction 1 as [|[k1 x1] [k2 w1] m fields [Hk Hx] Hrest IH]; simpl.
  - constructor.
  - simpl in Hk. subst k2. destruct (keep k1); auto.
    constructor; auto. split; auto.
Qed.

Lemma fields_transport (P Q : nat -> Prop) h h' m fields :
  (forall a, P a -> a < List.length h ->
             Q a /\ nth_error h' a = nth_error h a) ->
  Forall2 (Heap.field_repr P h) m fields ->
  Forall2 (Heap.field_repr Q h') m fields.
Proof.
  intros HPQ. induction 1 as [|e f m fields [Hk Hx] _ IH]; constructor; auto.
  split; auto. eapply repr_on_transport; eauto.
Qed.

(** ** Loops over the store *)

Lemma for_each_rule {A B S : Type} (R : B -> A -> Prop)
      (J : Heap.heap -> S -> Prop) (body : A -> Heap.M unit)
      (step : S -> B -> S) :
  (forall x v h s, R x v -> J h s ->
                   exists h', body v h = Some (tt, h') /\ J h' (step s x)) ->
  forall xs vs, Forall2 R xs vs ->
  forall h s, J h s ->
              exists h', Heap.for_each body vs h = Some (tt, h')
                         /\ J h' (fold_left step xs s).
Proof.
  intros Hbody xs vs Hall.
  induction Hall as [|x v xs vs Hxv _ IH]; intros h s HJ; simpl.
  - exists h. split; auto.
  - destruct (Hbody x v h s Hxv HJ) as [h1 [Hrun HJ1]].
    destruct (IH h1 _ HJ1) as [h2 [Hrun2 HJ2]].
    exists h2. split; auto.
    unfold Heap.bind. now rewrite Hrun.
Qed.

Lemma Forall2_enumerate_from {A B : Type} (R : B -> A -> Prop) xs vs :
  Forall2 R xs vs ->
  forall n,
    Forall2 (fun e f => fst e = fst f /\ R (snd e) (snd f))
            (combine (seq n (List.length xs)) xs)
            (combine (seq n (List.length vs)) vs).
Proof.
  induction 1 as [|x v xs vs Hxv _ IH]; intros n; simpl; constructor; auto.
Qed.

Section OutInv.
Variable P : nat -> Prop.
Variable h0 : Heap.heap.
Hypothesis fresh : forall a, List.length h0 <= a -> P a.

Local Abbreviation n0 := (List.length h0).
Local Abbreviation P' := (fun a => P a /\ a <> List.length h0).

Lemma out_inv_init : Heap.out_inv P h0 (h0 ++ [Heap.HList []]) [].
Proof.
  split; [rewrite length_app; simpl; lia|]. split.
  - intros a Ha. now apply nth_error_app1.
  - exists []. split; [|constructor].
    rewrite nth_error_app2, Nat.sub_diag; auto.
Qed.

Lemma out_inv_mono h h' acc :
  Heap.out_inv P h0 h acc ->
  Heap.same_below (List.length h) h h' ->
  Heap.out_inv P h0 h' acc.
Proof.
  intros [Hlen [Hold [outs [Hout Hall]]]] [Hle Hsame].
  split; [lia|]. split.
  - intros a Ha. rewrite Hsame by lia. auto.
  - exists outs. split; [rewrite Hsame; auto|].
    eapply Forall2_impl; [|exact Hall].
    intros x v. apply repr_on_same_below. split; auto.
Qed.

Lemma out_inv_old h acc j v :
  Heap.out_inv P h0 h acc ->
  Heap.repr_on P h0 j v -> Heap.repr_on P' h j v.
Proof.
  intros [Hlen [Hold _]]. apply repr_on_transport.
  intros a Pa Ha. split; [split; auto; lia|].
  now apply Hold.
Qed.

Lemma out_inv_old_fields h acc m fields :
  Heap.out_inv P h0 h acc ->
  Forall2 (Heap.field_repr P h0) m fields ->
  Forall2 (Heap.field_repr P' h) m fields.
Proof.
  intros [Hlen [Hold _]]. apply fields_transport.
  intros a Pa Ha. split; [split; auto; lia|].
  now apply Hold.
Qed.

Lemma out_inv_fresh h acc :
  Heap.out_inv P h0 h acc -> forall a, List.length h <= a -> P' a.
Proof.
  intros [Hlen _] a Ha. split; [apply fresh; lia | lia].
Qed.

Lemma out_inv_append h acc x v :
  Heap.out_inv P h0 h acc ->
  Heap.repr_on P' h x v ->
  exists h', Heap.append (Heap.HRef n0) v h = Some (tt, h')
             /\ Heap.out_inv P h0 h' (acc ++ [x]).
Proof.
  intros [Hlen [Hold [outs [Hout Hall]]]] Hxv.
  unfold Heap.append. rewrite Hout.
  eexists. split; [reflexivity|].
  assert (Hkeep : forall j w, Heap.repr_on P' h j w ->
            Heap.repr_on P'
              (Heap.store n0 (Heap.HList (outs ++ [v])) h) j w).
  { intros j w. apply repr_on_transport.
    intros a [Pa Hne] Ha. split; [split; auto|].
    apply nth_error_store_other. congruence. }
  split; [now rewrite length_store|]. split.
  - intros a Ha. rewrite nth_error_store_other by lia. auto.
  - exists (outs ++ [v]). split.
    + apply nth_error_store_same. exact Hlen.
    + apply Forall2_app.
      * eapply Forall2_impl; [|exact Hall]. exact Hkeep.
      * constructor; auto.
Qed.

Lemma out_inv_result h acc :
  Heap.out_inv P h0 h acc ->
  Heap.same_below n0 h0 h /\ Heap.repr_on P h (JList acc) (Heap.HRef n0).
Proof.
  intros [Hlen [Hold [outs [Hout Hall]]]]. split.
  - split; [lia | exact Hold].
  - apply Heap.repr_list with (items := outs);
      [apply fresh; lia | exact Hout |].
    eapply Forall2_impl; [|exact Hall].
    intros x v. apply repr_on_weaken. intros a [Pa _] _. exact Pa.
Qed.

(** A new dict denotes the record of its fields. *)
Lemma repr_on_new_dict h acc m fields :
  Heap.out_inv P h0 h acc ->
  Forall2 (Heap.field_repr P' h) m fields ->
  Heap.repr_on P' (h ++ [Heap.HDict fields]) (JDict m)
               (Heap.HRef (List.length h)).
Proof.
  intros Hinv Hall.
  apply Heap.repr_dict with (fields := fields).
  - now apply (out_inv_fresh h acc).
  - rewrite nth_error_app2, Nat.sub_diag; auto.
  - eapply fields_transport; [|exact Hall].
    intros a Pa Ha. split; auto. now apply nth_error_app1.
Qed.
End OutInv.

(** ** [transform_sections] over the store *)

Section SectionsOverStore.
Variable P : nat -> Prop.
Variable h0 : Heap.heap.
Hypothesis fresh : forall a, List.length h0 <= a -> P a.

Local Abbreviation out := (Heap.HRef (List.length h0)).

Lemma heap_list_section_ok x v h acc :
  fst x = fst v /\ Heap.repr_on P h0 (snd x) (snd v) ->
  Heap.out_inv P h0 h acc ->
  exists h', Heap.list_section out v h = Some (tt, h')
             /\ Heap.out_inv P h0 h' (sections_list_step acc x).
Proof.
  destruct x as [idx j], v as [idx' w]. simpl. intros [<- Hjw] Hinv.
  pose proof (out_inv_old P h0 h acc j w Hinv Hjw) as Hjw'.
  pose proof (repr_on_shape _ _ _ _ Hjw') as Hshape.
  unfold Heap.list_section, Heap.bind, Heap.shape_of.
  destruct j; try (rewrite Hshape; exists h; split; [reflexivity|assumption]).
  - destruct Hshape as [items [-> _]]. exists h.
    split; [reflexivity|assumption].
  - destruct Hshape as [fields [-> Hfields]].
    rewrite (fields_mem _ _ _ _ "section_id" Hfields).
    unfold list_section.
    destruct (dict_mem "section_id" m); simpl.
    + now apply out_inv_append.
    + apply out_inv_append.
      * eapply out_inv_mono; [eassumption | apply same_below_alloc].
      * apply (repr_on_new_dict P h0 fresh h acc); auto.
        apply fields_set; [assumption | constructor].
Qed.

Lemma heap_dict_section_ok x v h acc :
  fst x = fst v /\ Heap.repr_on P h0 (snd x) (snd v) ->
  Heap.out_inv P h0 h acc ->
  exists h', Heap.dict_section out v h = Some (tt, h')
             /\ Heap.out_inv P h0 h' (sections_dict_step acc x).
Proof.
  destruct x as [key j], v as [key' w]. simpl. intros [<- Hjw] Hinv.
  pose proof (out_inv_old P h0 h acc j w Hinv Hjw) as Hjw'.
  pose proof (repr_on_shape _ _ _ _ Hjw') as Hshape.
  assert (Hwrap :
    exists h',
      Heap.bind (Heap.alloc (Heap.HDict [("section_id", Heap.HStr key);
                                         ("value", w)]))
                (fun sec => Heap.append out sec) h = Some (tt, h')
      /\ Heap.out_inv P h0 h'
           (acc ++ [JDict [("section_id", JStr key); ("value", j)]])).
  { unfold Heap.bind, Heap.alloc. apply out_inv_append.
    - eapply out_inv_mono; [eassumption | apply same_below_alloc].
    - apply (repr_on_new_dict P h0 fresh h acc); auto.
      repeat constructor; auto. }
  unfold Heap.dict_section, Heap.bind at 1, Heap.shape_of.
  destruct j; try (rewrite Hshape; exact Hwrap).
  - destruct Hshape as [items [-> _]]. exact Hwrap.
  - destruct Hshape as [fields [-> Hfields]].
    unfold Heap.bind, Heap.alloc. simpl. apply out_inv_append.
    + eapply out_inv_mono; [eassumption | apply same_below_alloc].
    + apply (repr_on_new_dict P h0 fresh h acc); auto.
      apply fields_set; [assumption | constructor].
Qed.

Lemma heap_sections_spec_at v j :
  Heap.repr_on P h0 j v ->
  exists r h',
    Heap.transform_sections v h0 = Some (r, h')
    /\ Heap.same_below (List.length h0) h0 h'
    /\ Heap.repr_on P h' (JList (transform_sections j)) r.
Proof.
  intros Hjv.
  pose proof (repr_on_shape _ _ _ _ Hjv) as Hshape.
  assert (Hempty :
    exists r h',
      Heap.alloc (Heap.HList []) h0 = Some (r, h')
      /\ Heap.same_below (List.length h0) h0 h'
      /\ Heap.repr_on P h' (JList []) r).
  { eexists _, _. split; [reflexivity|].
    apply (out_inv_result P h0 fresh). apply out_inv_init. }
  unfold Heap.transform_sections, Heap.bind at 1, Heap.shape_of.
  destruct j; try (rewrite Hshape; exact Hempty).
  - destruct Hshape as [items [-> Hitems]].
    destruct (for_each_rule _ (Heap.out_inv P h0) (Heap.list_section out)
                sections_list_step heap_list_section_ok
                _ _ (Forall2_enumerate_from _ _ _ Hitems 0)
                _ [] (out_inv_init P h0))
      as [h' [Hrun Hinv]].
    exists out, h'. split.
    + unfold Heap.bind, Heap.alloc, enumerate. rewrite Hrun. reflexivity.
    + now apply out_inv_result.
  - destruct Hshape as [fields [-> Hfields]].
    destruct (for_each_rule _ (Heap.out_inv P h0) (Heap.dict_section out)
                sections_dict_step heap_dict_section_ok
                _ _ Hfields _ [] (out_inv_init P h0))
      as [h' [Hrun Hinv]].
    exists out, h'. split.
    + unfold Heap.bind, Heap.alloc. rewrite Hrun. reflexivity.
    + now apply out_inv_result.
Qed.
End SectionsOverStore.

(** ** [transform_parts] over the store *)

Lemma heap_items_dict d h fields :
  Heap.shape_in h d = Heap.IsDict fields ->
  Heap.items d h = Some (fields, h).
Proof.
  intros H. unfold Heap.items, Heap.bind, Heap.shape_of. now rewrite H.
Qed.

Lemma heap_shape_same_below h h' v :
  Heap.same_below (List.length h) h h' ->
  Heap.shape_in h v <> Heap.IsOther ->
  Heap.shape_in h' v = Heap.shape_in h v.
Proof.
  intros [_ Hsame]. destruct v; simpl; try congruence.
  destruct (nth_error h a) eqn:E; [|congruence].
  intros _. rewrite Hsame, E; auto.
  apply nth_error_Some. congruence.
Qed.

Lemma heap_get_dict d k h fields :
  Heap.shape_in h d = Heap.IsDict fields ->
  Heap.get d k h = Some (Heap.field fields k, h).
Proof.
  intros H. unfold Heap.get, Heap.bind, Heap.shape_of. now rewrite H.
Qed.

Lemma heap_shape_last h f :
  Heap.shape_in (h ++ [Heap.HDict f]) (Heap.HRef (List.length h))
  = Heap.IsDict f.
Proof. simpl. now rewrite nth_error_app2, Nat.sub_diag. Qed.

Lemma heap_setitem_last h f k x :
  Heap.setitem (Heap.HRef (List.length h)) k x (h ++ [Heap.HDict f])
  = Some (tt, h ++ [Heap.HDict (dict_set f k x)]).
Proof.
  unfold Heap.setitem. rewrite nth_error_app2, Nat.sub_diag by auto. simpl.
  now rewrite store_last.
Qed.

(** What the body of the list branch does once the sections are built: the
    new part is the last object of the store while it is filled in. *)
Lemma heap_list_part_run out part fields h r h1 :
  Heap.shape_in h part = Heap.IsDict fields ->
  Heap.transform_sections (Heap.field fields "sections") h = Some (r, h1) ->
  Heap.shape_in h1 part = Heap.IsDict fields ->
  Heap.list_part out part h =
  let f3 := dict_set (dict_filter not_sections fields) "sections" r in
  let h3 := h1 ++ [Heap.HDict f3] in
  let f4 :=
    if negb (Heap.truthy_in h3 (Heap.field f3 "part_name"))
    then dict_set f3 "part_name"
                  (if Heap.truthy_in h3 (Heap.field fields "part_name")
                   then Heap.field fields "part_name" else Heap.HStr "Part")
    else f3 in
  Heap.append out (Heap.HRef (List.length h1)) (h1 ++ [Heap.HDict f4]).
Proof.
  intros Hshape Hrun Hshape1. unfold Heap.list_part.
  unfold Heap.bind at 1, Heap.shape_of. rewrite Hshape.
  unfold Heap.bind at 1. rewrite (heap_get_dict _ _ _ _ Hshape).
  unfold Heap.bind at 1. rewrite (heap_get_dict _ _ _ _ Hshape).
  unfold Heap.bind at 1. rewrite Hrun.
  unfold Heap.bind at 1. rewrite (heap_items_dict _ _ _ Hshape1).
  unfold Heap.bind at 1, Heap.alloc.
  unfold Heap.bind at 1. rewrite heap_setitem_last.
  unfold Heap.bind at 1. rewrite (heap_get_dict _ _ _ _ (heap_shape_last _ _)).
  unfold Heap.bind at 1, Heap.truthy. cbv zeta.
  destruct (negb (Heap.truthy_in _ _)).
  - unfold Heap.bind. now rewrite heap_setitem_last.
  - reflexivity.
Qed.

Lemma heap_dict_part_run out key value fields h r h1 :
  Heap.shape_in h value = Heap.IsDict fields ->
  Heap.transform_sections (Heap.field fields "sections") h = Some (r, h1) ->
  Heap.shape_in h1 value = Heap.IsDict fields ->
  Heap.dict_part out (key, value) h =
  let name := Heap.field fields "part_name" in
  let part_name := if Heap.truthy_in h name then name else Heap.HStr key in
  let f := dict_set (dict_set (dict_filter not_sections fields)
                              "part_name" part_name) "sections" r in
  Heap.append out (Heap.HRef (List.length h1)) (h1 ++ [Heap.HDict f]).
Proof.
  intros Hshape Hrun Hshape1. unfold Heap.dict_part.
  unfold Heap.bind at 1, Heap.shape_of. rewrite Hshape.
  unfold Heap.bind at 1. rewrite (heap_get_dict _ _ _ _ Hshape).
  unfold Heap.bind at 1, Heap.truthy.
  unfold Heap.bind at 1. rewrite (heap_get_dict _ _ _ _ Hshape).
  unfold Heap.bind at 1. rewrite Hrun.
  unfold Heap.bind at 1. rewrite (heap_items_dict _ _ _ Hshape1).
  unfold Heap.bind at 1, Heap.alloc.
  unfold Heap.bind at 1. rewrite heap_setitem_last.
  unfold Heap.bind at 1. rewrite heap_setitem_last.
  reflexivity.
Qed.

Lemma heap_shape_alloc h o v :
  Heap.shape_in h v <> Heap.IsOther ->
  Heap.shape_in (h ++ [o]) v = Heap.shape_in h v.
Proof.
  destruct v; simpl; try congruence.
  destruct (nth_error h a) eqn:E; [|congruence].
  intros _. rewrite nth_error_app1, E; auto.
  apply nth_error_Some. congruence.
Qed.

Section PartsOverStore.
Variable P : nat -> Prop.
Variable h0 : Heap.heap.
Hypothesis fresh : forall a, List.length h0 <= a -> P a.

Local Abbreviation out := (Heap.HRef (List.length h0)).
Local Abbreviation P' := (fun a => P a /\ a <> List.length h0).

(** Appending a newly built record. *)
Lemma out_inv_append_new h acc m fields :
  Heap.out_inv P h0 h acc ->
  Forall2 (Heap.field_repr P' h) m fields ->
  exists h', Heap.append out (Heap.HRef (List.length h))
                         (h ++ [Heap.HDict fields]) = Some (tt, h')
             /\ Heap.out_inv P h0 h' (acc ++ [JDict m]).
Proof.
  intros Hinv Hfields. apply out_inv_append.
  - eapply out_inv_mono; [eassumption | apply same_below_alloc].
  - now apply (repr_on_new_dict P h0 fresh h acc).
Qed.

Lemma heap_list_part_ok x v h acc :
  Heap.repr_on P h0 x v ->
  Heap.out_inv P h0 h acc ->
  exists h', Heap.list_part out v h = Some (tt, h')
             /\ Heap.out_inv P h0 h' (parts_list_step acc x).
Proof.
  intros Hxv Hinv.
  pose proof (out_inv_old P h0 h acc x v Hinv Hxv) as Hxv'.
  pose proof (repr_on_shape _ _ _ _ Hxv') as Hshape.
  destruct x;
    try (unfold Heap.list_part, Heap.bind, Heap.shape_of; rewrite Hshape;
         exists h; split; [reflexivity|assumption]).
  - destruct Hshape as [items [Hshape _]].
    unfold Heap.list_part, Heap.bind, Heap.shape_of. rewrite Hshape.
    exists h. split; [reflexivity|assumption].
  - destruct Hshape as [fields [Hshape Hfields]].
    destruct (heap_sections_spec_at P' h (out_inv_fresh P h0 fresh h acc Hinv)
                (Heap.field fields "sections") (py_get m "sections")
                (fields_get _ _ _ _ _ Hfields))
      as [r [h1 [Hrun [Hsame Hr]]]].
    assert (Hshape1 : Heap.shape_in h1 v = Heap.IsDict fields).
  { rewrite (heap_shape_same_below h h1), Hshape; auto.
    rewrite Hshape. discriminate. }
  rewrite (heap_list_part_run _ _ _ _ _ _ Hshape Hrun Hshape1). cbv zeta.
    pose proof (out_inv_mono P h0 h h1 acc Hinv Hsame) as Hinv1.
    assert (Hfields1 : Forall2 (Heap.field_repr P' h1) m fields).
    { eapply fields_transport; [|exact Hfields].
      intros a Pa Ha. split; auto. now apply Hsame. }
    set (base := dict_set (dict_filter not_sections m) "sections"
                   (JList (transform_sections (py_get m "sections")))).
    set (f3 := dict_set (dict_filter not_sections fields) "sections" r).
    assert (Hf3 : Forall2 (Heap.field_repr P' h1) base f3).
    { apply fields_set; [now apply fields_filter | exact Hr]. }
    assert (Hlast : forall j w, Heap.repr_on P' h1 j w ->
              Heap.repr_on P' (h1 ++ [Heap.HDict f3]) j w).
    { intros j w. apply repr_on_same_below, same_below_alloc. }
    rewrite (repr_on_truthy _ _ _ _
               (Hlast _ _ (fields_get _ _ _ _ "part_name" Hf3))).
    rewrite (repr_on_truthy _ _ _ _
               (Hlast _ _ (fields_get _ _ _ _ "part_name" Hfields1))).
    change (parts_list_step acc (JDict m)) with (acc ++ [JDict (list_part m)]).
    apply out_inv_append_new; auto.
    unfold list_part. fold base.
    destruct (negb (truthy (py_get base "part_name"))); auto.
    apply fields_set; auto. unfold py_or.
    destruct (truthy (py_get m "part_name")).
    + now apply fields_get.
    + constructor.
Qed.

Lemma heap_dict_part_ok x v h acc :
  fst x = fst v /\ Heap.repr_on P h0 (snd x) (snd v) ->
  Heap.out_inv P h0 h acc ->
  exists h', Heap.dict_part out v h = Some (tt, h')
             /\ Heap.out_inv P h0 h' (parts_dict_step acc x).
Proof.
  destruct x as [key j], v as [key' w]. cbn [fst snd].
  intros [<- Hjw] Hinv.
  pose proof (out_inv_old P h0 h acc j w Hinv Hjw) as Hjw'.
  pose proof (repr_on_shape _ _ _ _ Hjw') as Hshape.
  assert (Hwrap :
    exists h',
      Heap.bind (Heap.alloc (Heap.HList []))
        (fun empty =>
           Heap.bind (Heap.alloc (Heap.HDict [("part_name", Heap.HStr key);
                                              ("value", w);
                                              ("sections", empty)]))
                     (fun part => Heap.append out part)) h = Some (tt, h')
      /\ Heap.out_inv P h0 h'
           (acc ++ [JDict [("part_name", JStr key); ("value", j);
                           ("sections", JList [])]])).
  { unfold Heap.bind, Heap.alloc.
    replace (List.length (h ++ [Heap.HList []]))
      with (List.length (h ++ [Heap.HList []])) by reflexivity.
    apply out_inv_append_new.
    - eapply out_inv_mono; [eassumption | apply same_below_alloc].
    - constructor; [split; [reflexivity | constructor]|].
      constructor; [split; [reflexivity|]|].
      + simpl. eapply repr_on_same_below; [apply same_below_alloc|].
        exact Hjw'.
      + constructor; [|constructor]. split; [reflexivity|]. simpl.
        apply Heap.repr_list with (items := []).
        * now apply (out_inv_fresh P h0 fresh h acc).
        * rewrite nth_error_app2, Nat.sub_diag; auto.
        * constructor. }
  destruct j;
    try (unfold Heap.dict_part, Heap.bind at 1, Heap.shape_of;
         rewrite Hshape; exact Hwrap).
  - destruct Hshape as [items [Hshape _]].
    unfold Heap.dict_part, Heap.bind at 1, Heap.shape_of.
    rewrite Hshape. exact Hwrap.
  - destruct Hshape as [fields [Hshape Hfields]].
    destruct (heap_sections_spec_at P' h (out_inv_fresh P h0 fresh h acc Hinv)
                (Heap.field fields "sections") (py_get m "sections")
                (fields_get _ _ _ _ _ Hfields))
      as [r [h1 [Hrun [Hsame Hr]]]].
    assert (Hshape1 : Heap.shape_in h1 w = Heap.IsDict fields).
  { rewrite (heap_shape_same_below h h1), Hshape; auto.
    rewrite Hshape. discriminate. }
  rewrite (heap_dict_part_run _ _ _ _ _ _ _ Hshape Hrun Hshape1). cbv zeta.
    pose proof (out_inv_mono P h0 h h1 acc Hinv Hsame) as Hinv1.
    assert (Hfields1 : Forall2 (Heap.field_repr P' h1) m fields).
    { eapply fields_transport; [|exact Hfields].
      intros a Pa Ha. split; auto. now apply Hsame. }
    rewrite (repr_on_truthy _ _ _ _ (fields_get _ _ _ _ "part_name" Hfields)).
    change (parts_dict_step acc (key, JDict m))
      with (acc ++ [JDict (dict_part key (JDict m))]).
    apply out_inv_append_new; auto.
    unfold dict_part. apply fields_set; auto.
    apply fields_set; [now apply fields_filter|].
    unfold py_or. destruct (truthy (py_get m "part_name")).
    + now apply fields_get.
    + constructor.
Qed.

Lemma heap_parts_spec_at v j :
  Heap.repr_on P h0 j v ->
  exists r h',
    Heap.transform_parts v h0 = Some (r, h')
    /\ Heap.same_below (List.length h0) h0 h'
    /\ Heap.repr_on P h' (JList (transform_parts j)) r.
Proof.
  intros Hjv.
  pose proof (repr_on_shape _ _ _ _ Hjv) as Hshape.
  pose proof (repr_on_shape _ _ _ _
                (repr_on_same_below P h0 (h0 ++ [Heap.HList []]) j v
                   (same_below_alloc _ _) Hjv)) as Hshape1.
  assert (Hempty :
    exists r h',
      Heap.alloc (Heap.HList []) (h0 ++ [Heap.HList []]) = Some (r, h')
      /\ Heap.same_below (List.length h0) h0 h'
      /\ Heap.repr_on P h' (JList []) r).
  { eexists _, _. split; [reflexivity|]. split.
    - eapply same_below_trans; [apply same_below_alloc|].
      eapply same_below_le; [|apply same_below_alloc].
      rewrite length_app. lia.
    - apply Heap.repr_list with (items := []).
      + apply fresh. rewrite length_app. lia.
      + rewrite nth_error_app2, Nat.sub_diag; auto.
      + constructor. }
  unfold Heap.transform_parts, Heap.bind at 1, Heap.alloc.
  unfold Heap.bind at 1, Heap.shape_of.
  destruct j; try (rewrite Hshape1; exact Hempty).
  - destruct Hshape as [items [Hshape Hitems]].
    rewrite heap_shape_alloc, Hshape by (rewrite Hshape; discriminate).
    destruct (for_each_rule _ (Heap.out_inv P h0) (Heap.list_part out)
                parts_list_step heap_list_part_ok
                _ _ Hitems _ [] (out_inv_init P h0))
      as [h' [Hrun Hinv]].
    exists out, h'. split.
    + unfold Heap.bind. rewrite Hrun. reflexivity.
    + now apply out_inv_result.
  - destruct Hshape as [fields [Hshape Hfields]].
    rewrite heap_shape_alloc, Hshape by (rewrite Hshape; discriminate).
    destruct (for_each_rule _ (Heap.out_inv P h0) (Heap.dict_part out)
                parts_dict_step heap_dict_part_ok
                _ _ Hfields _ [] (out_inv_init P h0))
      as [h' [Hrun Hinv]].
    exists out, h'. split.
    + unfold Heap.bind. rewrite Hrun. reflexivity.
    + now apply out_inv_result.
Qed.
End PartsOverStore.

(** ** [transform_document] over the store *)

Lemma transform_document_other_keys d k :
  k <> "parts" -> dict_get (transform_document d) k = dict_get d k.
Proof.
  intros Hk. unfold transform_document.
  rewrite dict_get_set_other by congruence.
  apply dict_get_filter. unfold not_parts.
  apply negb_true_iff. now apply String.eqb_neq.
Qed.

Lemma transform_document_parts d :
  dict_get (transform_document d) "parts"
  = Some (JList (transform_parts (py_get d "parts"))).
Proof. unfold transform_document. apply dict_get_set_same. Qed.

Lemma heap_document_spec h doc d :
  Heap.repr h (JDict d) doc ->
  exists h',
    Heap.transform_document doc h = Some (Heap.HRef (List.length h), h')
    /\ Heap.same_below (List.length h) h h'
    /\ Heap.repr h' (JDict (transform_document d)) (Heap.HRef (List.length h)).
Proof.
  intros Hd.
  destruct (repr_on_shape _ _ _ _ Hd) as [fields [Hshape Hfields]].
  set (b := List.length h).
  set (ftop := dict_filter not_parts fields).
  set (h1 := h ++ [Heap.HDict ftop]).
  assert (Hshape1 : Heap.shape_in h1 doc = Heap.IsDict fields).
  { unfold h1. rewrite heap_shape_alloc, Hshape; auto.
    rewrite Hshape. discriminate. }
  assert (Hraw : Heap.repr_on (fun a => a <> b) h1 (py_get d "parts")
                              (Heap.field fields "parts")).
  { eapply repr_on_transport; [|apply (fields_get _ _ _ _ "parts" Hfields)].
    intros a _ Ha. split; [unfold b; lia|].
    unfold h1. now apply nth_error_app1. }
  destruct (heap_parts_spec_at (fun a => a <> b) h1) with
      (v := Heap.field fields "parts") (j := py_get d "parts")
    as [r [h2 [Hrun [Hsame Hr]]]]; auto.
  { intros a Ha. unfold h1 in Ha. rewrite length_app in Ha.
    simpl in Ha. unfold b. lia. }
  assert (Hlen1 : List.length h1 = S b)
    by (unfold h1; rewrite length_app; simpl; unfold b; lia).
  assert (Htop : nth_error h2 b = Some (Heap.HDict ftop)).
  { destruct Hsame as [_ Hsame]. rewrite Hsame by lia.
    unfold h1, b. now rewrite nth_error_app2, Nat.sub_diag. }
  set (h3 := Heap.store b (Heap.HDict (dict_set ftop "parts" r)) h2).
  assert (Hold : forall a, a < b -> nth_error h3 a = nth_error h a).
  { intros a Ha. unfold h3. rewrite nth_error_store_other by lia.
    destruct Hsame as [_ Hsame]. rewrite Hsame by lia.
    unfold h1. now apply nth_error_app1. }
  exists h3. split; [|split].
  - unfold Heap.transform_document, Heap.bind at 1.
    rewrite (heap_items_dict _ _ _ Hshape).
    unfold Heap.bind at 1, Heap.alloc. fold ftop h1 b.
    unfold Heap.bind at 1. rewrite (heap_get_dict _ _ _ _ Hshape1).
    unfold Heap.bind at 1. rewrite Hrun.
    unfold Heap.bind, Heap.setitem. rewrite Htop. reflexivity.
  - split; [|exact Hold].
    unfold h3. rewrite length_store. destruct Hsame as [Hle _]. lia.
  - apply Heap.repr_dict with (fields := dict_set ftop "parts" r); auto.
    + unfold h3. apply nth_error_store_same.
      apply nth_error_Some. congruence.
    + apply fields_set.
      * apply fields_filter.
        eapply fields_transport; [|exact Hfields].
        intros a _ Ha. split; auto.
      * eapply repr_on_transport; [|exact Hr].
        intros a Hne _. split; auto.
        unfold h3. apply nth_error_store_other. congruence.
Qed.

(** C7: [transform_document] returns a new dict that has every key of the
    document other than ["parts"] with the value the document has there,
    and has under ["parts"] the normalised [parts] field of the document
    (of [None] when the key is absent, hence the empty list); no object
    that existed before the call is modified, so the input denotes after
    the call the document it denoted before. *)
Theorem C7_document_frame (h : Heap.heap) (doc : Heap.hval) (d : dict) :
  Heap.repr h (JDict d) doc ->
  exists h',
    Heap.transform_document doc h = Some (Heap.HRef (List.length h), h')
    /\ (forall a, a < List.length h -> nth_error h' a = nth_error h a)
    /\ Heap.repr h' (JDict d) doc
    /\ Heap.repr h' (JDict (transform_document d)) (Heap.HRef (List.length h))
    /\ (forall k, k <> "parts" ->
                  dict_get (transform_document d) k = dict_get d k)
    /\ dict_get (transform_document d) "parts"
       = Some (JList (transform_parts (py_get d "parts")))
    /\ (dict_get d "parts" = None ->
        dict_get (transform_document d) "parts" = Some (JList [])).
Proof.
  intros Hd.
  destruct (heap_document_spec h doc d Hd) as [h' [Hrun [Hsame Hres]]].
  exists h'. split; [exact Hrun|].
  split; [apply Hsame|].
  split; [eapply repr_on_same_below; eassumption|].
  split; [exact Hres|].
  split; [apply transform_document_other_keys|].
  split; [apply transform_document_parts|].
  intros Hnone. rewrite transform_document_parts.
  unfold py_get. now rewrite Hnone.
Qed.

Lemma C7_document_frame_witness :
  exists h',
    Heap.transform_document (Heap.HRef 4) Heap.apple_heap
    = Some (Heap.HRef (List.length Heap.apple_heap), h')
    /\ (forall a, a < List.length Heap.apple_heap ->
                  nth_error h' a = nth_error Heap.apple_heap a)
    /\ Heap.repr h' (JDict Heap.apple_doc) (Heap.HRef 4)
    /\ Heap.repr h' (JDict (transform_document Heap.apple_doc))
                 (Heap.HRef (List.length Heap.apple_heap))
    /\ (forall k, k <> "parts" ->
                  dict_get (transform_document Heap.apple_doc) k
                  = dict_get Heap.apple_doc k)
    /\ dict_get (transform_document Heap.apple_doc) "parts"
       = Some (JList (transform_parts (py_get Heap.apple_doc "parts")))
    /\ (dict_get Heap.apple_doc "parts" = None ->
        dict_get (transform_document Heap.apple_doc) "parts"
        = Some (JList [])).
Proof.
  apply (C7_document_frame Heap.apple_heap (Heap.HRef 4) Heap.apple_doc).
  unfold Heap.repr, Heap.apple_heap, Heap.apple_doc.
  repeat (econstructor; simpl; try reflexivity).
Defined.

(** The run of [transform_document] on that store: the five objects of the
    input are as they were, the section record at address 0 is shared by
    the output, and the new document is at address 5. *)
Example heap_document_run :
  Heap.transform_document (Heap.HRef 4) Heap.apple_heap
  = Some (Heap.HRef 5,
          Heap.apple_heap
          ++ [Heap.HDict [("company", Heap.HStr "Apple");
                          ("parts", Heap.HRef 6)];
              Heap.HList [Heap.HRef 8];
              Heap.HList [Heap.HRef 0];
              Heap.HDict [("part_name", Heap.HStr "Part_1");
                          ("sections", Heap.HRef 7)]]).
Proof. reflexivity. Qed.

(** ** Scenarios of the specification *)

(** The end-to-end scenario. *)
Example end_to_end :
  transform_document
    [("company_name", JStr "Acme");
     ("parts",
      JDict [("Part_1",
              JDict [("sections",
                      JDict [("business",
                              JDict [("content",
                                      JStr "We make widgets.")])])])])]
  = [("company_name", JStr "Acme");
     ("parts",
      JList [JDict [("part_name", JStr "Part_1");
                    ("sections",
                     JList [JDict [("content", JStr "We make widgets.");
                                   ("section_id", JStr "business")]])]])].
Proof. reflexivity. Qed.

(** The inputs of the totality scenario. *)
Example totality_samples :
  map Checked.transform_sections
      [JNull; JInt 42; JStr "string"; JList []; JDict [];
       JList [JInt 1; JInt 2; JDict [("a", JInt 1)]];
       JDict [("k", JDict [("a", JInt 1)]); ("j", JInt 5)]]
  = map (@Checked.Ok (list json))
        [[]; []; []; []; [];
         [JDict [("a", JInt 1); ("section_id", JStr "section_2")]];
         [JDict [("a", JInt 1); ("section_id", JStr "k")];
          JDict [("section_id", JStr "j"); ("value", JInt 5)]]]
  /\ map Checked.transform_parts
         [JNull; JInt 42; JStr "string"; JList []; JDict [];
          JList [JInt 1; JInt 2; JDict [("a", JInt 1)]];
          JDict [("k", JDict [("a", JInt 1)]); ("j", JInt 5)]]
     = map (@Checked.Ok (list json))
           [[]; []; []; []; [];
            [JDict [("a", JInt 1); ("sections", JList []);
                    ("part_name", JStr "Part")]];
            [JDict [("a", JInt 1); ("part_name", JStr "k");
                    ("sections", JList [])];
             JDict [("part_name", JStr "j"); ("value", JInt 5);
                    ("sections", JList [])]]].
Proof. split; reflexivity. Qed.

(** A second pass can move [part_name] before [sections]: the two passes
    then differ as sequences of entries and are equal as dictionaries. *)
Example second_pass_moves_part_name :
  transform_document [("parts", JList [JDict []])]
  = [("parts", JList [JDict [("sections", JList []);
                             ("part_name", JStr "Part")]])]
  /\ transform_document (transform_document [("parts", JList [JDict []])])
     = [("parts", JList [JDict [("part_name", JStr "Part");
                                ("sections", JList [])]])]
  /\ json_eqb
       (JDict (transform_document
                 (transform_document [("parts", JList [JDict []])])))
       (JDict (transform_document [("parts", JList [JDict []])])) = true.
Proof. repeat split. Qed.

(** * Further properties of the normaliser *)

(** ** The list branch of [transform_parts] *)

Lemma list_part_name p :
  dict_get (list_part p) "part_name"
  = Some (if truthy (py_get p "part_name")
          then py_get p "part_name" else JStr "Part").
Proof.
  destruct (truthy (py_get p "part_name")) eqn:E.
  - rewrite list_part_truthy_name by assumption.
    rewrite dict_get_set_other by discriminate.
    rewrite dict_get_filter by reflexivity.
    unfold py_get in *. destruct (dict_get p "part_name"); auto.
    discriminate.
  - rewrite list_part_falsy_name by assumption. apply dict_get_set_same.
Qed.

Lemma list_part_other_keys p k :
  k <> "part_name" -> k <> "sections" ->
  dict_get (list_part p) k = dict_get p k.
Proof.
  intros H1 H2. unfold list_part.
  destruct (negb _); rewrite !dict_get_set_other by congruence;
    apply dict_get_filter; now apply not_sections_true.
Qed.

(** X1: on a list, [transform_parts] returns one part for each record of
    the list, in the order of the list, and drops the other items.  The
    part keeps the record's [part_name] when that is truthy and is named
    ["Part"] otherwise, has for [sections] the normalised [sections] field
    of the record, and keeps every other field of the record. *)
Theorem X1_list_parts (l : list json) :
  Forall2
    (fun (e : nat * dict) (out : json) =>
       exists p, out = JDict p
         /\ dict_get p "part_name" =
            Some (if truthy (py_get (snd e) "part_name")
                  then py_get (snd e) "part_name" else JStr "Part")
         /\ dict_get p "sections" =
            Some (JList (transform_sections (py_get (snd e) "sections")))
         /\ (forall k, k <> "part_name" -> k <> "sections" ->
                       dict_get p k = dict_get (snd e) k))
    (records_from 0 l) (transform_parts (JList l))
  /\ (forall i s, In (i, s) (records_from 0 l) <->
                  nth_error l i = Some (JDict s))
  /\ StronglySorted lt (map fst (records_from 0 l)).
Proof.
  split; [|split].
  - rewrite transform_parts_list.
    replace (flat_map list_part_item l)
      with (map (fun e : nat * dict => JDict (list_part (snd e)))
                (records_from 0 l)).
    + apply Forall2_map_r. intros [i p] _. simpl.
      exists (list_part p). split; [reflexivity|].
      split; [apply list_part_name|].
      split; [apply list_part_sections|].
      intros k. apply list_part_other_keys.
    + generalize 0. induction l as [|x l IH]; intros n; simpl; auto.
      destruct x; simpl; rewrite IH; reflexivity.
  - intros i s. rewrite records_from_In, Nat.sub_0_r.
    split; [tauto | split; [lia | assumption]].
  - apply records_from_sorted.
Qed.

(** ** The canonical shape *)

Lemma shaped_list_part p : shaped_part (JDict (list_part p)) = true.
Proof.
  simpl. unfold dict_mem. rewrite list_part_name, list_part_sections.
  apply transform_sections_have_ids.
Qed.

Lemma shaped_dict_part k v : shaped_part (JDict (dict_part k v)) = true.
Proof.
  destruct v; try reflexivity.
  simpl. unfold dict_mem.
  rewrite dict_get_set_other by discriminate.
  rewrite !dict_get_set_same. apply transform_sections_have_ids.
Qed.

Lemma transform_parts_shaped x : forallb shaped_part (transform_parts x) = true.
Proof.
  destruct x; try reflexivity.
  - rewrite transform_parts_list, forallb_forall. intros y Hin.
    apply in_flat_map in Hin as [x [_ Hin]].
    destruct x; simpl in Hin; try tauto. destruct Hin as [<-|[]].
    apply shaped_list_part.
  - rewrite transform_parts_dict, forallb_forall. intros y Hin.
    apply in_map_iff in Hin as [e [<- _]]. apply shaped_dict_part.
Qed.

(** X2: whatever the document, its normal form has under [parts] a list
    of records, each with a [part_name] key and with [sections] a list of
    records that each have a [section_id] key; and a part that comes from
    a list of parts has a truthy [part_name]. *)
Theorem X2_canonical_shape :
  (forall d : dict,
      exists ps, dict_get (transform_document d) "parts" = Some (JList ps)
                 /\ forallb shaped_part ps = true)
  /\ (forall (l : list json) (x : json),
         In x (transform_parts (JList l)) ->
         exists p, x = JDict p /\ truthy (py_get p "part_name") = true).
Proof.
  split.
  - intros d. eexists. split; [apply transform_document_parts|].
    apply transform_parts_shaped.
  - intros l x Hin. rewrite transform_parts_list in Hin.
    apply in_flat_map in Hin as [y [_ Hin]].
    destruct y; simpl in Hin; try tauto. destruct Hin as [<-|[]].
    eexists. split; [reflexivity|].
    unfold py_get. rewrite list_part_name.
    destruct (truthy (py_get m "part_name")) eqn:E; auto.
Qed.

Lemma X2_canonical_shape_witness :
  exists p,
    JDict [("sections", JList []); ("part_name", JStr "Part")] = JDict p
    /\ truthy (py_get p "part_name") = true.
Proof.
  apply (proj2 X2_canonical_shape [JInt 1; JDict []]).
  simpl. now left.
Defined.

(** ** A second pass over sections *)

(** X3: normalising the sections that [transform_sections] returned gives
    them back unchanged: every one of them carries an id, so none is
    given a positional one. *)
Theorem X3_sections_second_pass (x : json) :
  transform_sections (JList (transform_sections x)) = transform_sections x.
Proof.
  apply transform_sections_fixed, transform_sections_have_ids.
Qed.

(** ** Counting *)

Lemma length_records_from l : forall n,
  List.length (records_from n l) = count_records l.
Proof.
  unfold count_records.
  induction l as [|x l IH]; intros n; simpl; auto.
  destruct x; simpl; rewrite ?IH; auto.
Qed.

Lemma count_records_le l : count_records l <= List.length l.
Proof. apply filter_length_le. Qed.

(** X4: a mapping yields exactly one section, or one part, per key; a
    list yields one per record, so never more than it has items. *)
Theorem X4_counts :
  (forall m : dict,
      List.length (transform_sections (JDict m)) = List.length m
      /\ List.length (transform_parts (JDict m)) = List.length m)
  /\ (forall l : list json,
         List.length (transform_sections (JList l)) = count_records l
         /\ List.length (transform_parts (JList l)) = count_records l
         /\ count_records l <= List.length l).
Proof.
  split.
  - intros m. rewrite transform_sections_dict, transform_parts_dict.
    now rewrite !length_map.
  - intros l. rewrite transform_sections_list, length_map, length_records_from.
    split; [reflexivity|]. split; [|apply count_records_le].
    rewrite transform_parts_list. unfold count_records.
    induction l as [|x l IH]; simpl; auto.
    destruct x; simpl; rewrite ?IH; auto.
Qed.

(** ** The third pass *)

Lemma dict_set_app_present {V : Type} (g t : list (string * V)) k v :
  dict_mem k g = true -> dict_set (g ++ t) k v = dict_set g k v ++ t.
Proof.
  unfold dict_mem. induction g as [|[k' v'] g IH]; simpl; [discriminate|].
  destruct (String.eqb k k'); simpl; auto.
  intros H. now rewrite IH.
Qed.

Lemma dict_get_set_keeps_none {V : Type} (g : list (string * V)) k k' v :
  k <> k' -> dict_get g k' = None -> dict_get (dict_set g k v) k' = None.
Proof. intros Hne H. now rewrite dict_get_set_other. Qed.

Lemma not_sections_filter_absent (g : dict) :
  dict_get g "sections" = None -> dict_filter not_sections g = g.
Proof. apply dict_filter_absent. Qed.

(** The list branch on a part whose last key is [sections], holding
    sections with ids. *)
Lemma list_part_sections_last g ss :
  dict_get g "sections" = None ->
  forallb has_section_id ss = true ->
  list_part (g ++ [("sections", JList ss)]) =
  if truthy (py_get g "part_name")
  then g ++ [("sections", JList ss)]
  else dict_set (g ++ [("sections", JList ss)]) "part_name" (JStr "Part").
Proof.
  intros Hg Hids.
  assert (Hsec : py_get (g ++ [("sections", JList ss)]) "sections" = JList ss).
  { unfold py_get. rewrite dict_get_app, Hg. reflexivity. }
  assert (Hname : py_get (g ++ [("sections", JList ss)]) "part_name"
                  = py_get g "part_name").
  { unfold py_get. rewrite dict_get_app.
    destruct (dict_get g "part_name"); reflexivity. }
  assert (Hbase : dict_set (dict_filter not_sections
                              (g ++ [("sections", JList ss)]))
                           "sections" (JList ss)
                  = g ++ [("sections", JList ss)]).
  { unfold dict_filter. rewrite filter_app. simpl. rewrite app_nil_r.
    fold (dict_filter not_sections g).
    rewrite not_sections_filter_absent by assumption.
    now apply dict_set_absent. }
  destruct (truthy (py_get g "part_name")) eqn:E.
  - rewrite list_part_truthy_name by now rewrite Hname.
    rewrite Hsec, transform_sections_fixed by assumption. exact Hbase.
  - rewrite list_part_falsy_name by now rewrite Hname.
    rewrite Hsec, transform_sections_fixed by assumption.
    now rewrite Hbase.
Qed.

Lemma list_part_settled q : settled_part q -> list_part q = q.
Proof.
  intros [g [ss [-> [Hg [Hids Hname]]]]].
  rewrite list_part_sections_last by assumption. now rewrite Hname.
Qed.

(** With a [part_name] key before [sections], one pass settles the part. *)
Lemma settled_after_named g ss :
  dict_get g "sections" = None ->
  forallb has_section_id ss = true ->
  dict_mem "part_name" g = true ->
  settled_part (list_part (g ++ [("sections", JList ss)])).
Proof.
  intros Hg Hids Hmem.
  rewrite list_part_sections_last by assumption.
  destruct (truthy (py_get g "part_name")) eqn:E.
  - exists g, ss. auto.
  - rewrite dict_set_app_present by assumption.
    exists (dict_set g "part_name" (JStr "Part")), ss.
    split; [reflexivity|]. split; [|split; auto].
    + apply dict_get_set_keeps_none; [discriminate | assumption].
    + unfold py_get. now rewrite dict_get_set_same.
Qed.

(** With no [part_name] key, the name is added after [sections], and the
    next pass moves [sections] last again. *)
Lemma settled_after_unnamed g ss :
  dict_get g "sections" = None ->
  forallb has_section_id ss = true ->
  dict_mem "part_name" g = false ->
  settled_part
    (list_part (g ++ [("sections", JList ss); ("part_name", JStr "Part")])).
Proof.
  intros Hg Hids Hmem. apply dict_mem_false in Hmem.
  set (q := g ++ [("sections", JList ss); ("part_name", JStr "Part")]).
  assert (Hsec : py_get q "sections" = JList ss).
  { unfold py_get, q. rewrite dict_get_app, Hg. reflexivity. }
  assert (Hfilter : dict_filter not_sections q
                    = g ++ [("part_name", JStr "Part")]).
  { unfold q, dict_filter. rewrite filter_app. simpl.
    fold (dict_filter not_sections g).
    now rewrite not_sections_filter_absent. }
  assert (Hname : truthy (py_get q "part_name") = true).
  { unfold py_get, q. rewrite dict_get_app, Hmem. reflexivity. }
  rewrite list_part_truthy_name by assumption.
  rewrite Hsec, transform_sections_fixed, Hfilter by assumption.
  rewrite dict_set_absent.
  - exists (g ++ [("part_name", JStr "Part")]), ss.
    split; [reflexivity|]. split; [|split; auto].
    + rewrite dict_get_app, Hg. reflexivity.
    + unfold py_get. rewrite dict_get_app, Hmem. reflexivity.
  - rewrite dict_get_app, Hg. reflexivity.
Qed.

Lemma not_sections_filter_get (p : dict) :
  dict_get (dict_filter not_sections p) "sections" = None.
Proof. now apply dict_get_filter_out. Qed.

Lemma settled_list_part_twice p : settled_part (list_part (list_part p)).
Proof.
  set (g := dict_filter not_sections p).
  set (ss := transform_sections (py_get p "sections")).
  assert (Hg : dict_get g "sections" = None) by apply not_sections_filter_get.
  assert (Hids : forallb has_section_id ss = true)
    by apply transform_sections_have_ids.
  assert (Hbase : dict_set g "sections" (JList ss)
                  = g ++ [("sections", JList ss)])
    by now apply dict_set_absent.
  destruct (truthy (py_get p "part_name")) eqn:E.
  - rewrite (list_part_truthy_name p E). fold g ss. rewrite Hbase.
    rewrite list_part_settled.
    + exists g, ss. repeat split; auto.
      unfold g, py_get. now rewrite dict_get_filter.
    + exists g, ss. repeat split; auto.
      unfold g, py_get. now rewrite dict_get_filter.
  - rewrite (list_part_falsy_name p E). fold g ss. rewrite Hbase.
    destruct (dict_mem "part_name" g) eqn:Hmem.
    + rewrite dict_set_app_present by assumption.
      apply settled_after_named.
      * apply dict_get_set_keeps_none; [discriminate | assumption].
      * assumption.
      * unfold dict_mem. now rewrite dict_get_set_same.
    + rewrite dict_set_absent.
      * rewrite <- app_assoc. simpl. now apply settled_after_unnamed.
      * apply dict_mem_false in Hmem.
        rewrite dict_get_app, Hmem. reflexivity.
Qed.

Lemma settled_list_dict_part k v : settled_part (list_part (dict_part k v)).
Proof.
  destruct v;
    try (apply (settled_after_named
                  [("part_name", JStr k); ("value", _)] []); reflexivity).
  unfold dict_part.
  rewrite dict_set_absent.
  - apply settled_after_named.
    + apply dict_get_set_keeps_none;
        [discriminate | apply not_sections_filter_get].
    + apply transform_sections_have_ids.
    + unfold dict_mem. now rewrite dict_get_set_same.
  - apply dict_get_set_keeps_none;
      [discriminate | apply not_sections_filter_get].
Qed.

Lemma transform_parts_settles x :
  transform_parts (JList (transform_parts (JList (transform_parts x))))
  = transform_parts (JList (transform_parts x)).
Proof.
  assert (Hfix : forall qs : list dict,
             Forall settled_part qs ->
             transform_parts (JList (map JDict qs)) = map JDict qs).
  { intros qs H. rewrite transform_parts_list.
    induction H as [|q qs Hq _ IH]; simpl; auto.
    rewrite list_part_settled by assumption. now rewrite IH. }
  assert (Hsecond : exists qs,
             transform_parts (JList (transform_parts x)) = map JDict qs
             /\ Forall settled_part qs).
  { destruct x;
      try (exists []; split; [reflexivity | constructor]).
    - rewrite (transform_parts_list l), transform_parts_list.
      induction l as [|y l [qs [IH1 IH2]]]; simpl.
      + exists []. split; [reflexivity | constructor].
      + destruct y; simpl; try (exists qs; split; assumption).
        exists (list_part (list_part m) :: qs). simpl. rewrite IH1.
        split; [reflexivity|]. constructor; auto.
        apply settled_list_part_twice.
    - rewrite transform_parts_dict, transform_parts_list.
      induction m as [|[k v] m [qs [IH1 IH2]]]; simpl.
      + exists []. split; [reflexivity | constructor].
      + exists (list_part (dict_part k v) :: qs). rewrite IH1.
        split; [reflexivity|]. constructor; auto.
        apply settled_list_dict_part. }
  destruct Hsecond as [qs [-> Hqs]]. now apply Hfix.
Qed.

(** X6: the normaliser settles after two passes: a third pass returns the
    very document of the second, entry for entry and in the same order of
    keys, whatever the input document. *)
Theorem X6_third_pass (d : dict) :
  transform_document (transform_document (transform_document d))
  = transform_document (transform_document d).
Proof.
  rewrite (transform_document_twice (transform_document d)).
  rewrite py_get_transform_document.
  rewrite (transform_document_shape d) at 1.
  rewrite not_parts_filter_twice.
  rewrite transform_parts_settles.
  symmetry. apply transform_document_twice.
Qed.

(** ** The order of the keys *)

(** X7: the normal form of a document lists the keys of the document other
    than [parts] in their order, and [parts] last, wherever [parts] was;
    a part made from a pair of a mapping lists [sections] last. *)
Theorem X7_key_order :
  (forall d : dict,
      keys (transform_document d)
      = filter not_parts (keys d) ++ ["parts"])
  /\ (forall (k : string) (v : dict),
         exists g,
           dict_part k (JDict v)
           = g ++ [("sections",
                    JList (transform_sections (py_get v "sections")))]
           /\ keys g = (if dict_mem "part_name" (dict_filter not_sections v)
                        then filter not_sections (keys v)
                        else filter not_sections (keys v) ++ ["part_name"])).
Proof.
  split.
  - intros d. rewrite transform_document_shape.
    unfold keys, dict_filter. rewrite map_app. simpl. f_equal.
    induction d as [|[k v] d IH]; simpl; auto.
    destruct (not_parts k); simpl; now rewrite IH.
  - intros k v. eexists. split.
    + unfold dict_part. apply dict_set_absent.
      apply dict_get_set_keeps_none;
        [discriminate | apply not_sections_filter_get].
    + rewrite keys_dict_set.
      assert (H : keys (dict_filter not_sections v)
                  = filter not_sections (keys v)).
      { unfold keys, dict_filter.
        induction v as [|[k' v'] v IH]; simpl; auto.
        destruct (not_sections k'); simpl; now rewrite IH. }
      now rewrite H.
Qed.

(** * The loader and the dispatch *)

(** ** What raises *)

(** X8: [transform_document] is not guarded as [transform_parts] and
    [transform_sections] are: on a value that is not a mapping it raises
    [AttributeError] (from [doc.items()]); and the dispatch of [main],
    which hands every value that is not a list to it, raises on a scalar
    where it skips the same scalar inside a list. *)
Theorem X8_document_raises (x : json) :
  Checked.transform_document x
  = match x with
    | JDict d => Checked.Ok (JDict (transform_document d))
    | _ => Checked.Raise Checked.AttributeError
    end
  /\ Checked.main_transform x
     = match x with
       | JDict d => Checked.Ok (JDict (transform_document d))
       | JList l =>
           Checked.Ok
             (JList (map (fun e : nat * dict =>
                            JDict (transform_document (snd e)))
                         (records_from 0 l)))
       | _ => Checked.Raise Checked.AttributeError
       end
  /\ Checked.main_transform (JList [x])
     = match x with
       | JDict d => Checked.Ok (JList [JDict (transform_document d)])
       | _ => Checked.Ok (JList [])
       end.
Proof.
  split; [|split].
  - destruct x; try reflexivity. apply checked_document_ok.
  - destruct x; try reflexivity.
    + unfold Checked.main_transform. simpl.
      now rewrite for_each_documents.
    + unfold Checked.main_transform. simpl. apply checked_document_ok.
  - destruct x; try reflexivity.
    unfold Checked.main_transform. simpl.
    now rewrite checked_document_ok.
Qed.

(** ** Detection of newline-delimited input *)

Section LoadingFacts.
Variable splitlines : string -> list string.
Variable strip : string -> string.
Variable loads : string -> option json.

Lemma parse_each_Some lines :
  parse_each loads lines = Some tt
  <-> Forall (fun ln => loads ln <> None) lines.
Proof.
  induction lines as [|ln lines IH]; simpl.
  - split; auto.
  - destruct (loads ln) eqn:E.
    + rewrite IH. split.
      * intros H. constructor; auto. congruence.
      * intros H. now inversion H.
    + split; [discriminate|]. intros H. inversion H. congruence.
Qed.

Lemma is_probably_ndjson_true text :
  is_probably_ndjson splitlines strip loads text = true
  <-> 2 <= List.length (stripped_lines splitlines strip text)
      /\ Forall (fun ln => loads ln <> None)
                (firstn 10 (stripped_lines splitlines strip text)).
Proof.
  unfold is_probably_ndjson. cbv zeta.
  destruct (Nat.leb _ 1) eqn:E.
  - apply Nat.leb_le in E. split; [discriminate | lia].
  - apply Nat.leb_gt in E. rewrite <- parse_each_Some.
    destruct (parse_each loads _) as [u|].
    + destruct u. split; auto.
    + split; [discriminate|]. intros [_ H]. discriminate.
Qed.

(** The loop of [load_input] reads the lines that the detection counts. *)
Lemma read_docs_stripped lines : forall docs,
  read_docs strip loads lines docs
  = (fix go (ls : list string) (acc : list json) : option (list json) :=
       match ls with
       | [] => Some acc
       | ln :: rest =>
           match loads ln with
           | Some d => go rest (acc ++ [d])
           | None => None
           end
       end)
      (flat_map (fun ln => if nonblank (strip ln) then [strip ln] else [])
                lines) docs.
Proof.
  induction lines as [|ln lines IH]; intros docs; simpl; auto.
  destruct (nonblank (strip ln)); simpl.
  - destruct (loads (strip ln)); auto.
  - apply IH.
Qed.

Lemma read_docs_Some lines : forall docs out,
  read_docs strip loads lines docs = Some out
  <-> exists ds,
        out = docs ++ ds
        /\ Forall2 (fun ln d => loads ln = Some d)
             (flat_map (fun ln => if nonblank (strip ln) then [strip ln]
                                  else []) lines) ds.
Proof.
  intros docs out. rewrite read_docs_stripped.
  generalize (flat_map (fun ln => if nonblank (strip ln) then [strip ln]
                                  else []) lines).
  intros ls. revert docs.
  induction ls as [|ln ls IH]; intros docs.
  - split.
    + intros [= <-]. exists []. split; [now rewrite app_nil_r | constructor].
    + intros [ds [-> H]]. inversion H. now rewrite app_nil_r.
  - destruct (loads ln) eqn:E.
    + rewrite IH. split.
      * intros [ds [-> H]]. exists (j :: ds). split.
        -- now rewrite <- app_assoc.
        -- constructor; auto.
      * intros [ds [-> H]].
        inversion H as [|? d ? ds' Hd Hrest]; subst.
        exists ds'. split; auto.
        rewrite <- app_assoc. simpl. congruence.
    + split; [discriminate|].
      intros [ds [_ H]]. inversion H; subst. congruence.
Qed.

(** X9: the input is taken as newline-delimited exactly when it has two
    non-blank lines at least and each of its first ten non-blank lines,
    stripped, parses; a text with one non-blank line at most is parsed as
    a whole. *)
Theorem X9_ndjson_detection (text : string) :
  (is_probably_ndjson splitlines strip loads text = true
   <-> 2 <= List.length (stripped_lines splitlines strip text)
       /\ Forall (fun ln => loads ln <> None)
                 (firstn 10 (stripped_lines splitlines strip text)))
  /\ (List.length (stripped_lines splitlines strip text) <= 1 ->
      load_input splitlines strip loads text = loads text).
Proof.
  split; [apply is_probably_ndjson_true|].
  intros Hlen. unfold load_input.
  destruct (is_probably_ndjson splitlines strip loads text) eqn:E; auto.
  apply is_probably_ndjson_true in E. lia.
Qed.

(** X10: when the input is taken as newline-delimited, [load_input]
    returns the list of the parses of all the non-blank lines, stripped,
    in their order, and raises as soon as one of them does not parse, the
    lines after the tenth included: it never falls back to parsing the
    text as a whole. *)
Theorem X10_ndjson_load (text : string) :
  is_probably_ndjson splitlines strip loads text = true ->
  (forall data,
      load_input splitlines strip loads text = Some data
      <-> exists docs,
            data = JList docs
            /\ Forall2 (fun ln d => loads ln = Some d)
                       (stripped_lines splitlines strip text) docs)
  /\ (forall ln,
         In ln (stripped_lines splitlines strip text) ->
         loads ln = None ->
         load_input splitlines strip loads text = None).
Proof.
  intros Hnd. unfold load_input. rewrite Hnd.
  assert (Hread : forall out,
    read_docs strip loads (splitlines text) [] = Some out
    <-> Forall2 (fun ln d => loads ln = Some d)
                (stripped_lines splitlines strip text) out).
  { intros out. rewrite read_docs_Some. unfold stripped_lines. split.
    - intros [ds [-> H]]. exact H.
    - intros H. exists out. auto. }
  split.
  - intros data.
    destruct (read_docs strip loads (splitlines text) []) as [out|] eqn:E.
    + split.
      * intros [= <-]. exists out. split; auto. now apply Hread.
      * intros [docs [-> H]]. apply Hread in H. congruence.
    + split; [discriminate|].
      intros [docs [_ H]]. apply Hread in H. congruence.
  - intros ln Hin Hbad.
    destruct (read_docs strip loads (splitlines text) []) as [out|] eqn:E;
      auto.
    pose proof (proj1 (Hread out) eq_refl) as F. exfalso.
    clear Hnd Hread E. revert out F.
    induction (stripped_lines splitlines strip text) as [|l ls IH];
      intros out F; [contradiction|].
    inversion F; subst. destruct Hin as [->|Hin]; [congruence|].
    eapply IH; eauto.
Qed.

(** X11: from the text to the value written: a newline-delimited input
    whose lines all parse gives the list of the normal forms of the lines
    that are records, in their order (a line that holds anything else, an
    array of documents included, is left out); a text that is one record
    gives its normal form; a text that is one scalar makes [main] raise
    [AttributeError]. *)
Theorem X11_main_data (text : string) :
  (forall docs,
      is_probably_ndjson splitlines strip loads text = true ->
      Forall2 (fun ln d => loads ln = Some d)
              (stripped_lines splitlines strip text) docs ->
      main_data splitlines strip loads text
      = Transformed
          (JList (map (fun e : nat * dict =>
                         JDict (transform_document (snd e)))
                      (records_from 0 docs))))
  /\ (forall x,
         is_probably_ndjson splitlines strip loads text = false ->
         loads text = Some x ->
         main_data splitlines strip loads text
         = match x with
           | JDict d => Transformed (JDict (transform_document d))
           | JList l =>
               Transformed
                 (JList (map (fun e : nat * dict =>
                                JDict (transform_document (snd e)))
                             (records_from 0 l)))
           | _ => Raised Checked.AttributeError
           end).
Proof.
  split.
  - intros docs Hnd Hdocs. unfold main_data.
    assert (Hload : load_input splitlines strip loads text
                    = Some (JList docs)).
    { unfold load_input. rewrite Hnd.
      assert (H : read_docs strip loads (splitlines text) [] = Some docs).
      { apply read_docs_Some. exists docs. auto. }
      now rewrite H. }
    rewrite Hload. unfold Checked.main_transform. simpl.
    now rewrite for_each_documents.
  - intros x Hnd Hx. unfold main_data, load_input. rewrite Hnd, Hx.
    destruct x; try reflexivity.
    + unfold Checked.main_transform. simpl.
      now rewrite for_each_documents.
    + unfold Checked.main_transform. simpl.
      now rewrite checked_document_ok.
Qed.
End LoadingFacts.

Lemma X9_ndjson_detection_witness :
  load_input eleven_lines (fun s => s) loads_empty_object "{}"
  = loads_empty_object "{}".
Proof.
  apply (proj2 (X9_ndjson_detection eleven_lines (fun s => s)
                                    loads_empty_object "{}")).
  simpl. lia.
Defined.

Lemma X10_ndjson_load_witness :
  load_input eleven_lines (fun s => s) loads_empty_object "eleven" = None.
Proof.
  apply (proj2 (X10_ndjson_load eleven_lines (fun s => s)
                                loads_empty_object "eleven" eq_refl))
    with (ln := "oops").
  - simpl. tauto.
  - reflexivity.
Defined.

Lemma X11_main_data_witness :
  main_data eleven_lines (fun s => s) loads_empty_object "{}"
  = Transformed (JDict (transform_document [])).
Proof.
  apply (proj2 (X11_main_data eleven_lines (fun s => s)
                              loads_empty_object "{}") (JDict []));
    reflexivity.
Defined.

(** * Further properties over the store *)

(** X12: called on their own, [transform_sections] and [transform_parts]
    return a new list that denotes what the functions on trees compute,
    and modify no object that existed before the call: their argument
    denotes after the call what it denoted before. *)
Theorem X12_store_frame (h : Heap.heap) (v : Heap.hval) (j : json) :
  Heap.repr h j v ->
  (exists r h',
      Heap.transform_sections v h = Some (r, h')
      /\ (forall a, a < List.length h -> nth_error h' a = nth_error h a)
      /\ Heap.repr h' (JList (transform_sections j)) r
      /\ Heap.repr h' j v)
  /\ (exists r h',
         Heap.transform_parts v h = Some (r, h')
         /\ (forall a, a < List.length h -> nth_error h' a = nth_error h a)
         /\ Heap.repr h' (JList (transform_parts j)) r
         /\ Heap.repr h' j v).
Proof.
  intros Hjv. split.
  - destruct (heap_sections_spec_at (fun _ => True) h (fun _ _ => I) v j Hjv)
      as [r [h' [Hrun [Hsame Hr]]]].
    exists r, h'. split; [exact Hrun|]. split; [apply Hsame|].
    split; [exact Hr|]. eapply repr_on_same_below; eassumption.
  - destruct (heap_parts_spec_at (fun _ => True) h (fun _ _ => I) v j Hjv)
      as [r [h' [Hrun [Hsame Hr]]]].
    exists r, h'. split; [exact Hrun|]. split; [apply Hsame|].
    split; [exact Hr|]. eapply repr_on_same_below; eassumption.
Qed.

Lemma X12_store_frame_witness :
  (exists r h',
      Heap.transform_sections (Heap.HRef 1) Heap.apple_heap = Some (r, h')
      /\ (forall a, a < List.length Heap.apple_heap ->
                    nth_error h' a = nth_error Heap.apple_heap a)
      /\ Heap.repr h'
           (JList (transform_sections
                     (JList [JDict [("section_id", JStr "s")]]))) r
      /\ Heap.repr h' (JList [JDict [("section_id", JStr "s")]])
                   (Heap.HRef 1))
  /\ (exists r h',
         Heap.transform_parts (Heap.HRef 1) Heap.apple_heap = Some (r, h')
         /\ (forall a, a < List.length Heap.apple_heap ->
                       nth_error h' a = nth_error Heap.apple_heap a)
         /\ Heap.repr h'
              (JList (transform_parts
                        (JList [JDict [("section_id", JStr "s")]]))) r
         /\ Heap.repr h' (JList [JDict [("section_id", JStr "s")]])
                      (Heap.HRef 1)).
Proof.
  apply (X12_store_frame Heap.apple_heap (Heap.HRef 1)).
  unfold Heap.repr, Heap.apple_heap.
  repeat (econstructor; simpl; try reflexivity).
Defined.

(** ** Sharing *)

Lemma is_dict_in_alloc h o x :
  is_dict_in (h ++ [Heap.HList o]) x = is_dict_in h x.
Proof.
  unfold is_dict_in. destruct x; simpl; auto.
  destruct (Nat.lt_ge_cases a (List.length h)) as [Hlt|Hge].
  - now rewrite nth_error_app1.
  - rewrite (proj2 (nth_error_None h a)) by assumption.
    rewrite nth_error_app2 by assumption.
    destruct (a - List.length h) as [|n]; simpl; auto.
    destruct n; reflexivity.
Qed.

Lemma heap_shape_dict_alloc h o x f :
  Heap.shape_in h x = Heap.IsDict f ->
  Heap.shape_in (h ++ [o]) x = Heap.IsDict f.
Proof.
  intros H. rewrite heap_shape_alloc, H; auto. rewrite H. discriminate.
Qed.

Lemma heap_append_last h acc x :
  Heap.append (Heap.HRef (List.length h)) x (h ++ [Heap.HList acc])
  = Some (tt, h ++ [Heap.HList (acc ++ [x])]).
Proof.
  unfold Heap.append. rewrite nth_error_app2, Nat.sub_diag by auto. simpl.
  now rewrite store_last.
Qed.

Lemma heap_list_section_shared h acc idx x :
  (forall f, Heap.shape_in h x = Heap.IsDict f ->
             dict_mem "section_id" f = true) ->
  Heap.list_section (Heap.HRef (List.length h)) (idx, x)
                    (h ++ [Heap.HList acc])
  = Some (tt, h ++ [Heap.HList (acc ++ filter (is_dict_in h) [x])]).
Proof.
  intros Hid. unfold Heap.list_section, Heap.bind at 1, Heap.shape_of.
  pose proof (is_dict_in_alloc h acc x) as Hsame.
  unfold is_dict_in in Hsame. simpl filter. unfold is_dict_in.
  destruct (Heap.shape_in h x) as [its|f|] eqn:E.
  - destruct (Heap.shape_in (h ++ [Heap.HList acc]) x);
      try discriminate; now rewrite app_nil_r.
  - rewrite (heap_shape_dict_alloc _ _ _ _ E).
    rewrite (Hid f eq_refl). simpl.
    unfold Heap.bind, Heap.ret. apply heap_append_last.
  - destruct (Heap.shape_in (h ++ [Heap.HList acc]) x);
      try discriminate; now rewrite app_nil_r.
Qed.

Lemma heap_sections_loop_shared h items : forall n acc,
  (forall item f, In item items ->
                  Heap.shape_in h item = Heap.IsDict f ->
                  dict_mem "section_id" f = true) ->
  Heap.for_each (Heap.list_section (Heap.HRef (List.length h)))
                (combine (seq n (List.length items)) items)
                (h ++ [Heap.HList acc])
  = Some (tt, h ++ [Heap.HList (acc ++ filter (is_dict_in h) items)]).
Proof.
  induction items as [|x items IH]; intros n acc Hids.
  - simpl. now rewrite app_nil_r.
  - cbn [List.length seq combine Heap.for_each]. unfold Heap.bind.
    rewrite heap_list_section_shared
      by (intros f; apply Hids; now left).
    rewrite IH by (intros item f Hin; apply Hids; now right).
    rewrite <- app_assoc, <- filter_app. reflexivity.
Qed.

(** X13: a record that already has a [section_id] is not copied: on a
    list whose records all have one, [transform_sections] allocates the
    output list and nothing else, and the output list holds the very
    objects of the input that are records, in their order.  A later
    update of an output section is an update of the input's. *)
Theorem X13_sections_shared (h : Heap.heap) (v : Heap.hval)
        (items : list Heap.hval) :
  Heap.shape_in h v = Heap.IsList items ->
  (forall item f, In item items ->
                  Heap.shape_in h item = Heap.IsDict f ->
                  dict_mem "section_id" f = true) ->
  Heap.transform_sections v h
  = Some (Heap.HRef (List.length h),
          h ++ [Heap.HList (filter (is_dict_in h) items)]).
Proof.
  intros Hshape Hids.
  unfold Heap.transform_sections, Heap.bind at 1, Heap.shape_of.
  rewrite Hshape. unfold Heap.bind at 1, Heap.alloc.
  unfold Heap.bind, enumerate.
  now rewrite (heap_sections_loop_shared h items 0 [] Hids).
Qed.

Lemma X13_sections_shared_witness :
  Heap.transform_sections (Heap.HRef 1) Heap.apple_heap
  = Some (Heap.HRef (List.length Heap.apple_heap),
          Heap.apple_heap
          ++ [Heap.HList (filter (is_dict_in Heap.apple_heap)
                                 [Heap.HRef 0])]).
Proof.
  apply X13_sections_shared; [reflexivity|].
  intros item f [<-|[]] [= <-]. reflexivity.
Defined.

(** X14: the document that [transform_document] returns is a shallow copy:
    its fields other than [parts] hold the very values of the input's
    fields, in their order, so that the nested objects of the input are
    shared with the output; [parts] comes last. *)
Theorem X14_document_shallow (h : Heap.heap) (doc : Heap.hval) (d : dict)
        (fields : list (string * Heap.hval)) :
  Heap.repr h (JDict d) doc ->
  Heap.shape_in h doc = Heap.IsDict fields ->
  exists r h',
    Heap.transform_document doc h = Some (Heap.HRef (List.length h), h')
    /\ nth_error h' (List.length h)
       = Some (Heap.HDict (dict_filter not_parts fields ++ [("parts", r)])).
Proof.
  intros Hd Hshape.
  destruct (repr_on_shape _ _ _ _ Hd) as [fields' [Hshape' Hfields]].
  assert (fields' = fields) by congruence. subst fields'.
  set (b := List.length h).
  set (ftop := dict_filter not_parts fields).
  set (h1 := h ++ [Heap.HDict ftop]).
  assert (Hshape1 : Heap.shape_in h1 doc = Heap.IsDict fields)
    by now apply heap_shape_dict_alloc.
  assert (Hraw : Heap.repr_on (fun a => a <> b) h1 (py_get d "parts")
                              (Heap.field fields "parts")).
  { eapply repr_on_transport; [|apply (fields_get _ _ _ _ "parts" Hfields)].
    intros a _ Ha. split; [unfold b; lia|].
    unfold h1. now apply nth_error_app1. }
  assert (Hlen1 : List.length h1 = S b)
    by (unfold h1; rewrite length_app; simpl; unfold b; lia).
  destruct (heap_parts_spec_at (fun a => a <> b) h1) with
      (v := Heap.field fields "parts") (j := py_get d "parts")
    as [r [h2 [Hrun [Hsame _]]]]; auto.
  { intros a Ha. lia. }
  assert (Htop : nth_error h2 b = Some (Heap.HDict ftop)).
  { destruct Hsame as [_ Hsame]. rewrite Hsame by lia.
    unfold h1, b. now rewrite nth_error_app2, Nat.sub_diag. }
  exists r, (Heap.store b (Heap.HDict (dict_set ftop "parts" r)) h2).
  split.
  - unfold Heap.transform_document, Heap.bind at 1.
    rewrite (heap_items_dict _ _ _ Hshape).
    unfold Heap.bind at 1, Heap.alloc. fold ftop h1 b.
    unfold Heap.bind at 1. rewrite (heap_get_dict _ _ _ _ Hshape1).
    unfold Heap.bind at 1. rewrite Hrun.
    unfold Heap.bind, Heap.setitem. rewrite Htop. reflexivity.
  - rewrite nth_error_store_same
      by (apply nth_error_Some; congruence).
    rewrite dict_set_absent; [reflexivity|].
    unfold ftop. now apply dict_get_filter_out.
Qed.

Lemma X14_document_shallow_witness :
  exists r h',
    Heap.transform_document (Heap.HRef 4) Heap.apple_heap
    = Some (Heap.HRef (List.length Heap.apple_heap), h')
    /\ nth_error h' (List.length Heap.apple_heap)
       = Some (Heap.HDict
                 (dict_filter not_parts
                    [("company", Heap.HStr "Apple"); ("parts", Heap.HRef 3)]
                  ++ [("parts", r)])).
Proof.
  apply (X14_document_shallow Heap.apple_heap (Heap.HRef 4) Heap.apple_doc).
  - unfold Heap.repr, Heap.apple_heap, Heap.apple_doc.
    repeat (econstructor; simpl; try reflexivity).
  - reflexivity.
Defined.

(** * Removing fields *)

Section DelFacts.
Context {V W : Type}.
Implicit Types (m : list (string * V)) (k : string).

Lemma dict_del_map (f : V -> W) m k :
  dict_del (map (fun kv => (fst kv, f (snd kv))) m) k
  = map (fun kv => (fst kv, f (snd kv))) (dict_del m k).
Proof.
  induction m as [|[k' v] m IH]; simpl; auto.
  destruct (String.eqb k k'); simpl; congruence.
Qed.

Lemma dict_mem_map (f : V -> W) m k :
  dict_mem k (map (fun kv => (fst kv, f (snd kv))) m) = dict_mem k m.
Proof.
  unfold dict_mem. induction m as [|[k' v] m IH]; simpl; auto.
  destruct (String.eqb k k'); auto.
Qed.

Lemma delete_fields_map (f : V -> W) m :
  delete_fields (map (fun kv => (fst kv, f (snd kv))) m)
  = map (fun kv => (fst kv, f (snd kv))) (delete_fields m).
Proof.
  unfold delete_fields. generalize fields_to_remove. intros fs. revert m.
  induction fs as [|fd fs IH]; intros m; simpl; auto.
  rewrite dict_mem_map. destruct (dict_mem fd m).
  - now rewrite dict_del_map, IH.
  - apply IH.
Qed.

Lemma dict_del_absent m k : dict_mem k m = false -> dict_del m k = m.
Proof.
  unfold dict_mem. induction m as [|[k' v] m IH]; simpl; auto.
  destruct (String.eqb k k'); [discriminate|].
  intros H. now rewrite IH.
Qed.

Lemma In_dict_del m k e : In e (dict_del m k) -> In e m.
Proof.
  induction m as [|[k' v] m IH]; simpl; auto.
  destruct (String.eqb k k'); simpl; intuition.
Qed.

Lemma keys_dict_del_NoDup m k :
  NoDup (keys m) -> ~ In k (keys (dict_del m k)) /\ NoDup (keys (dict_del m k)).
Proof.
  induction m as [|[k' v] m IH]; simpl; intros Hnd.
  - split; [tauto | constructor].
  - inversion Hnd as [|? ? Hnotin Hnd']; subst.
    destruct (String.eqb k k') eqn:E.
    + apply String.eqb_eq in E. subst. auto.
    + apply String.eqb_neq in E. destruct (IH Hnd') as [H1 H2].
      simpl. split.
      * intros [H|H]; [congruence | contradiction].
      * constructor; auto. intros Hin. apply Hnotin.
        unfold keys in *. apply in_map_iff in Hin as [e [<- He]].
        apply in_map. eapply In_dict_del; eauto.
Qed.

Lemma keys_dict_del_other m k k' :
  ~ In k' (keys m) -> ~ In k' (keys (dict_del m k)).
Proof.
  intros H Hin. apply H. unfold keys in *.
  apply in_map_iff in Hin as [e [<- He]].
  apply in_map. eapply In_dict_del; eauto.
Qed.
End DelFacts.

Lemma delete_fields_sub {V : Type} (m : list (string * V)) e :
  In e (delete_fields m) -> In e m.
Proof.
  unfold delete_fields. generalize fields_to_remove. intros fs. revert m.
  induction fs as [|fd fs IH]; intros m; simpl; auto.
  intros H. apply IH in H. destruct (dict_mem fd m); auto.
  eapply In_dict_del; eauto.
Qed.

Lemma delete_fields_NoDup {V : Type} (m : list (string * V)) :
  NoDup (keys m) -> NoDup (keys (delete_fields m)).
Proof.
  unfold delete_fields. generalize fields_to_remove. intros fs. revert m.
  induction fs as [|fd fs IH]; intros m Hnd; simpl; auto.
  apply IH. destruct (dict_mem fd m); auto.
  now apply keys_dict_del_NoDup.
Qed.

(** After the deletions none of the three keys is left. *)
Lemma delete_fields_gone {V : Type} (m : list (string * V)) k :
  NoDup (keys m) -> In k fields_to_remove -> ~ In k (keys (delete_fields m)).
Proof.
  unfold delete_fields. generalize fields_to_remove. intros fs. revert m.
  induction fs as [|fd fs IH]; intros m Hnd Hk; simpl; [contradiction|].
  assert (Hnd' : NoDup (keys (if dict_mem fd m then dict_del m fd else m)))
    by (destruct (dict_mem fd m); auto; now apply keys_dict_del_NoDup).
  destruct Hk as [<-|Hk]; [|now apply IH].
  assert (Hgone : ~ In fd (keys (if dict_mem fd m then dict_del m fd else m))).
  { destruct (dict_mem fd m) eqn:E.
    - now apply keys_dict_del_NoDup.
    - intros Hin. apply dict_mem_true in Hin. congruence. }
  revert Hgone. generalize (if dict_mem fd m then dict_del m fd else m).
  clear. intros m Hgone. revert m Hgone.
  induction fs as [|f fs IH]; intros m Hgone; simpl; auto.
  apply IH. destruct (dict_mem f m); auto.
  now apply keys_dict_del_other.
Qed.

(** The equation of the source: delete, then go through what is left. *)
Lemma remove_specified_fields_dict m :
  remove_specified_fields (JDict m)
  = JDict (map (fun kv => (fst kv, remove_specified_fields (snd kv)))
               (delete_fields m)).
Proof. simpl. now rewrite delete_fields_map. Qed.

Lemma existsb_eqb_In k l : existsb (String.eqb k) l = true <-> In k l.
Proof.
  rewrite existsb_exists. split.
  - intros [x [Hin E]]. apply String.eqb_eq in E. now subst.
  - intros H. exists k. split; auto. apply String.eqb_refl.
Qed.

Lemma wf_remove_specified_fields x :
  wf x = true -> wf (remove_specified_fields x) = true.
Proof.
  induction x as [| b | n | f | s | l IH | m IH] using json_ind;
    intros Hwf; auto.
  - simpl. apply wf_list in Hwf. apply forallb_forall. intros y Hin.
    apply in_map_iff in Hin as [x [<- Hx]].
    rewrite Forall_forall in IH, Hwf. auto.
  - rewrite remove_specified_fields_dict.
    apply wf_dict in Hwf as [Hnd Hall]. apply wf_dict. split.
    + unfold keys. rewrite map_map. simpl.
      now apply delete_fields_NoDup.
    + rewrite Forall_forall in *. intros e Hin.
      apply in_map_iff in Hin as [[k v] [<- Hin]]. simpl.
      apply delete_fields_sub in Hin. apply (IH _ Hin). apply (Hall _ Hin).
Qed.

(** X15: after [remove_specified_fields] no dict of the value, at any
    depth, has the key [gemini_item_name], [gemini_part_name] or
    [section_id]; and a second call changes nothing. *)
Theorem X15_fields_removed (x : json) :
  wf x = true ->
  (forall k, In k fields_to_remove ->
             mentions k (remove_specified_fields x) = false)
  /\ remove_specified_fields (remove_specified_fields x)
     = remove_specified_fields x.
Proof.
  intros Hwf. split.
  - intros k Hk. revert Hwf.
    induction x as [| b | n | f | s | l IH | m IH] using json_ind;
      intros Hwf; auto.
    + simpl. apply wf_list in Hwf. apply not_true_iff_false. intros H.
      apply existsb_exists in H as [y [Hin Hy]].
      apply in_map_iff in Hin as [x [<- Hx]].
      rewrite Forall_forall in IH, Hwf.
      rewrite (IH _ Hx (Hwf _ Hx)) in Hy. discriminate.
    + rewrite remove_specified_fields_dict.
      apply wf_dict in Hwf as [Hnd Hall].
      simpl. apply orb_false_iff. split.
      * apply not_true_iff_false. rewrite existsb_eqb_In.
        rewrite map_map. simpl. now apply delete_fields_gone.
      * apply not_true_iff_false. intros H.
        apply existsb_exists in H as [e [Hin He]].
        apply in_map_iff in Hin as [[k' v] [<- Hin]]. simpl in He.
        apply delete_fields_sub in Hin.
        rewrite Forall_forall in IH, Hall.
        pose proof (IH _ Hin (Hall _ Hin)) as Hv. simpl in Hv. congruence.
  - revert Hwf.
    induction x as [| b | n | f | s | l IH | m IH] using json_ind;
      intros Hwf; auto.
    + simpl. f_equal. rewrite map_map. apply map_ext_in. intros y Hy.
      apply wf_list in Hwf. rewrite Forall_forall in IH, Hwf. auto.
    + rewrite remove_specified_fields_dict.
      rewrite remove_specified_fields_dict.
      apply wf_dict in Hwf as [Hnd Hall]. f_equal.
      assert (Hstay : delete_fields
                (map (fun kv : string * json =>
                        (fst kv, remove_specified_fields (snd kv)))
                     (delete_fields m))
              = map (fun kv : string * json =>
                       (fst kv, remove_specified_fields (snd kv)))
                    (delete_fields m)).
      { rewrite delete_fields_map. f_equal.
        pose proof (delete_fields_gone m) as Hgone.
        pose proof (delete_fields_NoDup m Hnd) as Hnd'.
        revert Hgone. generalize (delete_fields m). intros m' Hgone.
        unfold delete_fields.
        assert (H : forall fs, (forall k, In k fs -> ~ In k (keys m')) ->
                  fold_left (fun (a : dict) fd =>
                               if dict_mem fd a then dict_del a fd else a)
                            fs m' = m').
        { induction fs as [|fd fs IHfs]; intros Hfs; simpl; auto.
          destruct (dict_mem fd m') eqn:E.
          - apply dict_mem_true in E. exfalso.
            apply (Hfs fd); [now left | assumption].
          - apply IHfs. intros k Hk. apply Hfs. now right. }
        apply H. intros k Hk. now apply Hgone. }
      rewrite Hstay, map_map. apply map_ext_in. intros [k v] Hin. simpl.
      f_equal. apply delete_fields_sub in Hin.
      rewrite Forall_forall in IH, Hall.
      apply (IH _ Hin). apply (Hall _ Hin).
Qed.

Lemma X15_fields_removed_witness :
  (forall k, In k fields_to_remove ->
             mentions k (remove_specified_fields (JDict doc_two_lists))
             = false)
  /\ remove_specified_fields (remove_specified_fields (JDict doc_two_lists))
     = remove_specified_fields (JDict doc_two_lists).
Proof. apply X15_fields_removed. reflexivity. Defined.

Lemma section_ids_positional l : forall n,
  Forall (fun y => exists s, y = JDict s /\ dict_mem "section_id" s = false)
         l ->
  section_ids (map (fun e : nat * dict => JDict (list_section (fst e) (snd e)))
                   (records_from n l))
  = map (fun i => Some (JStr (section_name i))) (seq n (List.length l)).
Proof.
  induction l as [|y l IH]; intros n H; [reflexivity|].
  inversion H as [|? ? [s [-> Hs]] Hrest]; subst. simpl.
  rewrite list_section_absent by assumption.
  rewrite dict_get_app. apply dict_mem_false in Hs. rewrite Hs. simpl.
  now rewrite <- IH.
Qed.

(** X16: removing the fields from normalised sections and normalising
    again numbers the sections by position: whatever ids the sections had,
    from the keys of a mapping or from the source, the ids are then
    ["section_0"], ["section_1"], and so on in the order of the
    sections. *)
Theorem X16_ids_after_removal (x : json) :
  wf x = true ->
  section_ids
    (transform_sections
       (remove_specified_fields (JList (transform_sections x))))
  = map (fun i => Some (JStr (section_name i)))
        (seq 0 (List.length (transform_sections x))).
Proof.
  intros Hwf.
  pose proof (wf_transform_sections x Hwf) as Hss.
  pose proof (transform_sections_have_ids x) as Hids.
  apply wf_list in Hss.
  generalize dependent (transform_sections x). intros ss Hss Hids.
  simpl remove_specified_fields. rewrite transform_sections_list.
  rewrite <- (length_map remove_specified_fields ss).
  apply section_ids_positional.
  rewrite Forall_forall in *. intros y Hin.
  apply in_map_iff in Hin as [z [<- Hz]].
  rewrite forallb_forall in Hids. specialize (Hids _ Hz).
  specialize (Hss _ Hz).
  destruct z; try discriminate.
  rewrite remove_specified_fields_dict. eexists. split; [reflexivity|].
  rewrite dict_mem_map. apply not_true_iff_false. intros Hmem.
  apply dict_mem_true in Hmem. revert Hmem.
  apply delete_fields_gone.
  - apply wf_dict in Hss. tauto.
  - simpl. tauto.
Qed.

Lemma X16_ids_after_removal_witness :
  section_ids
    (transform_sections
       (remove_specified_fields
          (JList (transform_sections
                    (JDict [("business", JDict [("content", JStr "...")]);
                            ("risk", JInt 5)])))))
  = map (fun i => Some (JStr (section_name i)))
        (seq 0 (List.length
                  (transform_sections
                     (JDict [("business", JDict [("content", JStr "...")]);
                             ("risk", JInt 5)])))).
Proof. apply X16_ids_after_removal. reflexivity. Defined.
